(** * Search, report loading and pagination in the merchandising views

    A shallow embedding of three React views and of the state they keep:

    - [ProductInsert]: the insert form with its debounced customer search
      and its [handleSave];
    - [ProductInsertReporting]: the paginated insert report;
    - [CompetitorPriceAnalysisReport]: the two-stage competitor price report.

    React state is a record, a handler is a function on that record, an
    [async] function is a computation in a small exception-and-trace monad
    that records every remote call it issues.  Timers and in-flight requests
    of the debounced search are explicit, so that late completions can be
    replayed in any order.  What the JavaScript engine and the network
    decide (letter-case conversion, the reading of date strings, which of
    several concurrent failures arrives first) is a parameter of the model:
    the properties hold for every engine and every network. *)

From Stdlib Require Import ZArith Ascii String List Lia Permutation.
From stdpp Require Import base decidable option list strings pretty.
Import ListNotations.

Local Open Scope string_scope.
Local Open Scope list_scope.
Local Open Scope Z_scope.

Set Default Proof Using "Type".

(** ** JavaScript values used by the views *)

Module Js.

(** What the engine decides and the views only call.  [toLowerCase] is
    [String.prototype.toLowerCase].  [dateValue s] is the time value of
    [new Date(s)], in milliseconds since the epoch, and [None] when the
    date is invalid (its time value is [NaN]); what a string outside the
    ECMAScript date-time format denotes is left to the engine by the
    language.  The views are modelled over any engine. *)
Class Engine := {
  toLowerCase : string → string;
  dateValue : string → option Z
}.

(** Lower-casing of the letters A-Z, every other byte kept: what the
    stored backend below folds letter case with, and what the engine of
    the scenarios does. *)
Definition lower_ascii (c : ascii) : ascii :=
  let n := nat_of_ascii c in
  if ((65 <=? n)%nat && (n <=? 90)%nat)%bool then ascii_of_nat (n + 32) else c.

Fixpoint lower_ascii_string (s : string) : string :=
  match s with
  | EmptyString => EmptyString
  | String c r => String (lower_ascii c) (lower_ascii_string r)
  end.

(** Truthiness of a string: only the empty string is falsy. *)
Definition truthy (s : string) : bool := negb (String.eqb s "").

(** The position of the first occurrence of [pat] in [s]. *)
Fixpoint indexOf (pat s : string) : option nat :=
  if String.prefix pat s then Some 0%nat
  else match s with
       | EmptyString => None
       | String _ r => option_map S (indexOf pat r)
       end.

(** The replacement text of [replace] for a string pattern
    ([GetSubstitution] without captures): [$$] stands for a dollar sign,
    [$&] for the matched text, [$`] for the text before the match and [$']
    for the text after it; every other character, a dollar sign that starts
    none of these included, stands for itself. *)
Fixpoint getSubstitution (matched before after template : string) : string :=
  match template with
  | EmptyString => EmptyString
  | String c rest =>
      if Ascii.eqb c "$"
      then match rest with
           | String d rest' =>
               if Ascii.eqb d "$"
               then String "$" (getSubstitution matched before after rest')
               else if Ascii.eqb d "&"
               then matched +:+ getSubstitution matched before after rest'
               else if Ascii.eqb d "`"
               then before +:+ getSubstitution matched before after rest'
               else if Ascii.eqb d "'"
               then after +:+ getSubstitution matched before after rest'
               else String c (getSubstitution matched before after rest)
           | EmptyString => String c EmptyString
           end
      else String c (getSubstitution matched before after rest)
  end.

(** [s.replace(pat, rep)] with a string pattern and a string replacement:
    the first occurrence only, the replacement text expanded. *)
Definition replace (pat rep s : string) : string :=
  match indexOf pat s with
  | None => s
  | Some position =>
      let before := String.substring 0 position s in
      let after := String.substring (position + String.length pat) (String.length s) s in
      before +:+ getSubstitution pat before after rep +:+ after
  end.

(** [new Date(a) > new Date(b)]: the time values are compared, and every
    comparison with [NaN] is false. *)
Definition date_gt {engine : Engine} (a b : string) : bool :=
  match dateValue a, dateValue b with
  | Some x, Some y => y <? x
  | _, _ => false
  end.

End Js.

(** ** [Set<string>]

  A JavaScript [Set] keeps its members in insertion order and never holds
  one twice.  It is modelled by the list of its members in that order;
  [Array.from] is the list itself. *)

Module JsSet.

Abbreviation t := (list string) (only parsing).

Definition empty : t := [].

Definition has (x : string) (s : t) : bool := bool_decide (x ∈ s).

Definition add (x : string) (s : t) : t := if has x s then s else s ++ [x].

Definition delete (x : string) (s : t) : t := filter (λ y, y ≠ x) s.

Definition size (s : t) : nat := length s.

(** [new Set(s)]: a fresh set with the members of [s]. *)
Definition copy (s : t) : t := s.

Definition to_array (s : t) : list string := s.

End JsSet.

(** ** The remote backend

  The hosted backend and its client library are not part of the sources.
  The views use them through one capability,
  [query(collection, filters, order, rangeOffset, rangeLimit, withCount)
  -> (records, totalCount?) | Error], plus row insertion and file upload.
  The query builder below records exactly the calls the views chain.
  [Remote] is an arbitrary backend: the properties of the handlers hold
  for every one.  [remote_of] is a backend that evaluates the queries over
  stored tables and fails where told to, for the properties that depend on
  what the filters mean. *)

Module Supabase.

Inductive Json :=
| JUndefined
| JNull
| JStr (s : string)
| JNum (n : Z)
| JArr (l : list string).

Definition Row : Type := list (string * Json).

Fixpoint get (column : string) (r : Row) : option string :=
  match r with
  | [] => None
  | (c, v) :: r' =>
      if String.eqb c column
      then match v with JStr s => Some s | _ => None end
      else get column r'
  end.

Inductive Filter :=
| Gte (column value : string)
| Lte (column value : string)
| Eq (column value : string)
| IsIn (column : string) (values : list (option string))
| Or (expr : string).

Record Query := {
  table : string;
  columns : string;
  exact_count : bool;
  filters : list Filter;
  ordering : option (string * bool);
  window : option (Z * Z);
  cap : option nat
}.

(** The builder: every method returns the query with one more clause. *)

Definition from (tbl : string) : Query :=
  {| table := tbl; columns := "*"; exact_count := false; filters := [];
     ordering := None; window := None; cap := None |}.

Definition select (cols : string) (with_count : bool) (q : Query) : Query :=
  {| table := table q; columns := cols; exact_count := with_count;
     filters := filters q; ordering := ordering q; window := window q;
     cap := cap q |}.

Definition add_filter (f : Filter) (q : Query) : Query :=
  {| table := table q; columns := columns q; exact_count := exact_count q;
     filters := filters q ++ [f]; ordering := ordering q; window := window q;
     cap := cap q |}.

Definition gte (column value : string) : Query → Query := add_filter (Gte column value).
Definition lte (column value : string) : Query → Query := add_filter (Lte column value).
Definition eq (column value : string) : Query → Query := add_filter (Eq column value).
Definition is_in (column : string) (values : list (option string)) : Query → Query :=
  add_filter (IsIn column values).
Definition or (expr : string) : Query → Query := add_filter (Or expr).

Definition order (column : string) (ascending : bool) (q : Query) : Query :=
  {| table := table q; columns := columns q; exact_count := exact_count q;
     filters := filters q; ordering := Some (column, ascending);
     window := window q; cap := cap q |}.

Definition range (lo hi : Z) (q : Query) : Query :=
  {| table := table q; columns := columns q; exact_count := exact_count q;
     filters := filters q; ordering := ordering q; window := Some (lo, hi);
     cap := cap q |}.

Definition limit (n : nat) (q : Query) : Query :=
  {| table := table q; columns := columns q; exact_count := exact_count q;
     filters := filters q; ordering := ordering q; window := window q;
     cap := Some n |}.

(** Remote calls and what comes back. *)

Definition File : Type := string.

Inductive Request :=
| Select (q : Query)
| Insert (tbl : string) (row : Row)
| Upload (bucket path : string) (file : File).

Record Error := { message : string }.

Record Response := {
  data : option (list Row);
  error : option Error;
  count : option Z
}.

(** An awaited call either resolves to a response (which may carry an
    [error]) or rejects. *)
Inductive Outcome :=
| Fulfilled (r : Response)
| Rejected (e : Error).

Definition Remote : Type := Request → Outcome.

(** *** Timestamps

    Modelled from the spec: the range filters compare an orderable field.
    The stored rows hold calendar days [YYYY-MM-DD] and timestamps
    [YYYY-MM-DDThh:mm:ss(.mmm)(Z)]; [instant] is the number of
    milliseconds since the epoch that such a literal denotes (midnight UTC
    when the time of day is absent), and [None] for anything else. *)

Definition digit (c : ascii) : option Z :=
  let n := nat_of_ascii c in
  if ((48 <=? n)%nat && (n <=? 57)%nat)%bool then Some (Z.of_nat n - 48) else None.

Fixpoint number (acc : Z) (cs : list ascii) : option Z :=
  match cs with
  | [] => Some acc
  | c :: r => match digit c with
              | Some d => number (10 * acc + d) r
              | None => None
              end
  end.

Definition days_from_civil (y m d : Z) : Z :=
  let y' := if m <=? 2 then y - 1 else y in
  let era := y' / 400 in
  let yoe := y' - era * 400 in
  let mp := (m + 9) mod 12 in
  let doy := (153 * mp + 2) / 5 + d - 1 in
  let doe := yoe * 365 + yoe / 4 - yoe / 100 + doy in
  era * 146097 + doe - 719468.

Definition parse_day (cs : list ascii) : option Z :=
  match cs with
  | [y1; y2; y3; y4; dash1; m1; m2; dash2; d1; d2] =>
      match number 0 [y1; y2; y3; y4], number 0 [m1; m2], number 0 [d1; d2] with
      | Some y, Some m, Some d =>
          if (Ascii.eqb dash1 "-" && Ascii.eqb dash2 "-"
              && (1 <=? m) && (m <=? 12) && (1 <=? d) && (d <=? 31))%bool
          then Some (days_from_civil y m d) else None
      | _, _, _ => None
      end
  | _ => None
  end.

Definition parse_clock (cs : list ascii) : option Z :=
  let hms h1 h2 m1 m2 s1 s2 frac :=
    match number 0 [h1; h2], number 0 [m1; m2], number 0 [s1; s2], number 0 frac with
    | Some h, Some m, Some s, Some f =>
        if ((h <=? 23) && (m <=? 59) && (s <=? 59))%bool
        then Some (((h * 60 + m) * 60 + s) * 1000 + f) else None
    | _, _, _, _ => None
    end in
  match cs with
  | [] => Some 0
  | ["T"; h1; h2; ":"; m1; m2; ":"; s1; s2]%char
  | ["T"; h1; h2; ":"; m1; m2; ":"; s1; s2; "Z"]%char => hms h1 h2 m1 m2 s1 s2 []
  | ["T"; h1; h2; ":"; m1; m2; ":"; s1; s2; "."; f1; f2; f3]%char
  | ["T"; h1; h2; ":"; m1; m2; ":"; s1; s2; "."; f1; f2; f3; "Z"]%char =>
      hms h1 h2 m1 m2 s1 s2 [f1; f2; f3]
  | _ => None
  end.

Definition instant (s : string) : option Z :=
  let cs := list_ascii_of_string s in
  match parse_day (firstn 10 cs), parse_clock (skipn 10 cs) with
  | Some d, Some ms => Some (d * 86400000 + ms)
  | _, _ => None
  end.

(** *** Evaluating a query over stored tables *)

Fixpoint contains (needle hay : string) : bool :=
  if String.prefix needle hay then true
  else match hay with
       | EmptyString => false
       | String _ r => contains needle r
       end.

(** [split_on sep s]: the pieces of [s] between occurrences of [sep]. *)
Fixpoint split_on (sep : ascii) (s : string) : list string :=
  match s with
  | EmptyString => [EmptyString]
  | String c r =>
      if Ascii.eqb c sep then EmptyString :: split_on sep r
      else match split_on sep r with
           | [] => [String c EmptyString]
           | p :: ps => String c p :: ps
           end
  end.

Definition strip_percent (s : string) : string :=
  let s1 := match s with String "%" r => r | _ => s end in
  let n := String.length s1 in
  if String.eqb (String.substring (n - 1) 1 s1) "%"
  then String.substring 0 (n - 1) s1 else s1.

(** One alternative of an [or] expression, [column.ilike.%text%]: the
    column holds [text] somewhere, letter case ignored. *)
Definition ilike_alternative (alt : string) (r : Row) : bool :=
  match split_on "." alt with
  | column :: "ilike" :: pattern =>
      match get column r with
      | Some v =>
          contains (Js.lower_ascii_string (strip_percent (String.concat "." pattern)))
                   (Js.lower_ascii_string v)
      | None => false
      end
  | _ => false
  end.

Definition timestamp_le (a b : string) : bool :=
  match instant a, instant b with
  | Some x, Some y => x <=? y
  | _, _ => false
  end.

(** Modelled from the spec: what the filters of the remote query
    capability mean, which the sources only call: range ([gte]/[lte] on a
    timestamp column), equality, set membership ([field ∈ values]) and
    case-insensitive substring match OR-ed across named columns. *)
Definition matches (r : Row) (f : Filter) : bool :=
  match f with
  | Gte column value =>
      match get column r with Some v => timestamp_le value v | None => false end
  | Lte column value =>
      match get column r with Some v => timestamp_le v value | None => false end
  | Eq column value =>
      match get column r with Some v => String.eqb v value | None => false end
  | IsIn column values =>
      match get column r with
      | Some v => bool_decide (Some v ∈ values)
      | None => false
      end
  | Or expr => existsb (λ alt, ilike_alternative alt r) (split_on "," expr)
  end.

Definition satisfies (fs : list Filter) (r : Row) : bool := forallb (matches r) fs.

(** Ordering by a timestamp column; rows without a readable value sort as
    the smallest.  The sort is a stable insertion sort. *)
Definition sort_key (column : string) (r : Row) : Z :=
  match get column r with
  | Some v => match instant v with Some x => x + 1 | None => 0 end
  | None => 0
  end.

Definition before (column : string) (ascending : bool) (a b : Row) : bool :=
  if ascending then sort_key column a <=? sort_key column b
  else sort_key column b <=? sort_key column a.

Fixpoint insert_row (column : string) (ascending : bool) (x : Row) (l : list Row) : list Row :=
  match l with
  | [] => [x]
  | y :: l' =>
      if before column ascending x y then x :: l
      else y :: insert_row column ascending x l'
  end.

Definition sort_rows (column : string) (ascending : bool) (l : list Row) : list Row :=
  foldr (insert_row column ascending) [] l.

(** Rows at offsets [lo] through [hi], both included. *)
Definition slice (lo hi : Z) (l : list Row) : list Row :=
  firstn (Z.to_nat (hi - lo + 1)) (skipn (Z.to_nat lo) l).

Fixpoint without_blanks (s : string) : string :=
  match s with
  | EmptyString => EmptyString
  | String c r => if Ascii.eqb c " " then without_blanks r else String c (without_blanks r)
  end.

(** The column names of a [select] list; the blanks of the list do not
    count. *)
Definition column_names (cols : string) : list string :=
  split_on "," (without_blanks cols).

Definition project (cols : string) (r : Row) : Row :=
  if String.prefix "*" cols then r
  else List.filter (λ cv, bool_decide (fst cv ∈ column_names cols)) r.

Definition Database : Type := string → list Row.

Definition no_content : Response := {| data := None; error := None; count := None |}.

Definition failed (e : Error) : Response := {| data := None; error := Some e; count := None |}.

(** Modelled from the spec: the remote query capability itself.  The rows
    of the collection that pass every filter are counted (when the exact
    count was asked for), ordered, cut to the requested range and capped;
    a negative offset is refused. *)
Definition run_select (db : Database) (q : Query) : Response :=
  let hits := List.filter (satisfies (filters q)) (db (table q)) in
  let sorted := match ordering q with
                | Some (column, ascending) => sort_rows column ascending hits
                | None => hits
                end in
  let total := if exact_count q then Some (Z.of_nat (length hits)) else None in
  match window q with
  | Some (lo, hi) =>
      if lo <? 0 then failed {| message := "OFFSET must not be negative" |}
      else
        let page := slice lo hi sorted in
        let page := match cap q with Some n => firstn n page | None => page end in
        {| data := Some (map (project (columns q)) page); error := None; count := total |}
  | None =>
      let page := match cap q with Some n => firstn n sorted | None => sorted end in
      {| data := Some (map (project (columns q)) page); error := None; count := total |}
  end.

(** How a call can go wrong: the response carries an error, or the
    awaited promise rejects. *)
Inductive Fault :=
| ErrorResponse (e : Error)
| Rejection (e : Error).

Record Backend := {
  db : Database;
  fault : Request → option Fault
}.

Definition remote_of (b : Backend) : Remote :=
  λ r,
    match fault b r with
    | Some (ErrorResponse e) => Fulfilled (failed e)
    | Some (Rejection e) => Rejected e
    | None =>
        match r with
        | Select q => Fulfilled (run_select (db b) q)
        | Insert _ _ | Upload _ _ _ => Fulfilled no_content
        end
    end.

End Supabase.

(** ** Asynchronous functions

  An [async] function runs against a world made of the component state,
  the remote calls sent so far, the notifications shown and the console.
  It finishes normally or by a thrown error. *)

Module Async.

Import Supabase.

Record World (S : Type) := {
  view : S;
  sent : list Request;
  notifications : list (string * string);
  console : list string
}.
Arguments view {S} _.
Arguments sent {S} _.
Arguments notifications {S} _.
Arguments console {S} _.

Definition M (S A : Type) : Type := World S → World S * (Error + A).

(** What the network decides.  Calls that are in flight together end in
    an order the program does not choose: of the failures of the promises
    handed to one [Promise.all], listed in the order of the promises,
    [first_failure] is the position of the one that arrives first. *)
Class Network := {
  first_failure : list Error → nat
}.

Section Ops.
Context {S : Type} {network : Network}.

Definition ret {A} (x : A) : M S A := λ w, (w, inr x).

Definition bind {A B} (m : M S A) (k : A → M S B) : M S B :=
  λ w, match m w with
       | (w', inr x) => k x w'
       | (w', inl e) => (w', inl e)
       end.

Definition throw {A} (e : Error) : M S A := λ w, (w, inl e).

(** A state setter. *)
Definition set (f : S → S) : M S unit :=
  λ w, ({| view := f (view w); sent := sent w;
           notifications := notifications w; console := console w |}, inr tt).

Definition read : M S S := λ w, (w, inr (view w)).

Definition send (r : Request) (w : World S) : World S :=
  {| view := view w; sent := sent w ++ [r];
     notifications := notifications w; console := console w |}.

(** [await] of a remote call: the call is sent, then the function
    resumes with the response or with the rejection thrown. *)
Definition await (remote : Remote) (r : Request) : M S Response :=
  λ w, match remote r with
       | Fulfilled x => (send r w, inr x)
       | Rejected e => (send r w, inl e)
       end.

(** [await Promise.all(requests.map(async r => after(await r)))]:
    every call is sent before any is awaited.  [settle] is how one of the
    promises ends; [all] is [Promise.all] over promises that have ended:
    the list of the results when none failed, else the failure that
    arrived first. *)
Definition settle {A} (remote : Remote) (after : Request → Response → Error + A)
    (r : Request) : Error + A :=
  match remote r with
  | Fulfilled x => after r x
  | Rejected e => inl e
  end.

Fixpoint failures {A} (l : list (Error + A)) : list Error :=
  match l with
  | [] => []
  | inl e :: l' => e :: failures l'
  | inr _ :: l' => failures l'
  end.

Fixpoint results {A} (l : list (Error + A)) : list A :=
  match l with
  | [] => []
  | inl _ :: l' => results l'
  | inr x :: l' => x :: results l'
  end.

Definition all {A} (l : list (Error + A)) : Error + list A :=
  match failures l with
  | [] => inr (results l)
  | e :: es => inl (nth (first_failure (e :: es)) (e :: es) e)
  end.

Definition await_all {A} (remote : Remote) (after : Request → Response → Error + A)
    (rs : list Request) : M S (list A) :=
  λ w, ({| view := view w; sent := sent w ++ rs;
           notifications := notifications w; console := console w |},
        all (map (settle remote after) rs)).

Definition showNotification (msg kind : string) : M S unit :=
  λ w, ({| view := view w; sent := sent w;
           notifications := notifications w ++ [(msg, kind)];
           console := console w |}, inr tt).

(** [try { body } catch (e) { handler e } finally { final }]. *)
Definition try_catch_finally {A} (body : M S A) (handler : Error → M S A)
    (final : M S unit) : M S A :=
  λ w, let '(w1, r1) := body w in
       let '(w2, r2) := match r1 with
                        | inr x => (w1, inr x)
                        | inl e => handler e w1
                        end in
       match final w2 with
       | (w3, inr _) => (w3, r2)
       | (w3, inl e) => (w3, inl e)
       end.

End Ops.

Definition world {S} (st : S) : World S :=
  {| view := st; sent := []; notifications := []; console := [] |}.

#[global] Instance M_ret {S} : MRet (M S) := λ A, ret.
#[global] Instance M_bind {S} : MBind (M S) := λ A B k m, bind m k.

End Async.


(** ** Shared declarations *)

Module Types.

Record AppPermission := {
  page_name : string;
  can_view : bool;
  can_create : bool;
  can_edit : bool;
  can_delete : bool;
  can_navigate : bool;
  can_export : bool
}.

(** [permissions[page]?.can_view]: falsy when the page has no record. *)
Definition may_view (p : option AppPermission) : bool :=
  match p with Some r => can_view r | None => false end.

Definition may_create (p : option AppPermission) : bool :=
  match p with Some r => can_create r | None => false end.

(** [count || 0] and [data || []]. *)
Definition count_or_zero (c : option Z) : Z := default 0 c.
Definition rows_or_empty (d : option (list Supabase.Row)) : list Supabase.Row := default [] d.

(** [Math.ceil(a / b)] for integers [a] and a positive [b]. *)
Definition ceil_div (a b : Z) : Z := - ((- a) / b).

(** What a report view shows below its filter bar. *)
Record Pager := {
  page_shown : Z;
  pages_shown : Z;
  previous_disabled : bool;
  next_disabled : bool
}.

Inductive Pane :=
| Spinner
| NoResults
| Cards (items : list Supabase.Row) (pager : option Pager).

End Types.

(** ** The insert report *)

Module ProductInsertReporting.

Import Types Async.

Definition ITEMS_PER_PAGE : Z := 6.

Record State := {
  inserts : list Supabase.Row;
  customers : list Supabase.Row;
  loading : bool;
  totalCount : Z;
  currentPage : Z;
  viewingImage : option string;
  startDate : string;
  endDate : string;
  selectedCustomerIds : JsSet.t
}.

Definition initial : State :=
  {| inserts := []; customers := []; loading := true; totalCount := 0;
     currentPage := 1; viewingImage := None; startDate := ""; endDate := "";
     selectedCustomerIds := JsSet.empty |}.

Definition setInserts (v : list Supabase.Row) (s : State) : State :=
  {| inserts := v; customers := customers s; loading := loading s;
     totalCount := totalCount s; currentPage := currentPage s;
     viewingImage := viewingImage s; startDate := startDate s;
     endDate := endDate s; selectedCustomerIds := selectedCustomerIds s |}.

Definition setCustomers (v : list Supabase.Row) (s : State) : State :=
  {| inserts := inserts s; customers := v; loading := loading s;
     totalCount := totalCount s; currentPage := currentPage s;
     viewingImage := viewingImage s; startDate := startDate s;
     endDate := endDate s; selectedCustomerIds := selectedCustomerIds s |}.

Definition setLoading (v : bool) (s : State) : State :=
  {| inserts := inserts s; customers := customers s; loading := v;
     totalCount := totalCount s; currentPage := currentPage s;
     viewingImage := viewingImage s; startDate := startDate s;
     endDate := endDate s; selectedCustomerIds := selectedCustomerIds s |}.

Definition setTotalCount (v : Z) (s : State) : State :=
  {| inserts := inserts s; customers := customers s; loading := loading s;
     totalCount := v; currentPage := currentPage s;
     viewingImage := viewingImage s; startDate := startDate s;
     endDate := endDate s; selectedCustomerIds := selectedCustomerIds s |}.

(** [setCurrentPage] takes a value or, as the page buttons do, an update
    of the previous value. *)
Definition setCurrentPage (f : Z → Z) (s : State) : State :=
  {| inserts := inserts s; customers := customers s; loading := loading s;
     totalCount := totalCount s; currentPage := f (currentPage s);
     viewingImage := viewingImage s; startDate := startDate s;
     endDate := endDate s; selectedCustomerIds := selectedCustomerIds s |}.

Definition setViewingImage (v : option string) (s : State) : State :=
  {| inserts := inserts s; customers := customers s; loading := loading s;
     totalCount := totalCount s; currentPage := currentPage s;
     viewingImage := v; startDate := startDate s;
     endDate := endDate s; selectedCustomerIds := selectedCustomerIds s |}.

Definition setStartDate (v : string) (s : State) : State :=
  {| inserts := inserts s; customers := customers s; loading := loading s;
     totalCount := totalCount s; currentPage := currentPage s;
     viewingImage := viewingImage s; startDate := v;
     endDate := endDate s; selectedCustomerIds := selectedCustomerIds s |}.

Definition setEndDate (v : string) (s : State) : State :=
  {| inserts := inserts s; customers := customers s; loading := loading s;
     totalCount := totalCount s; currentPage := currentPage s;
     viewingImage := viewingImage s; startDate := startDate s;
     endDate := v; selectedCustomerIds := selectedCustomerIds s |}.

Definition setSelectedCustomerIds (v : JsSet.t) (s : State) : State :=
  {| inserts := inserts s; customers := customers s; loading := loading s;
     totalCount := totalCount s; currentPage := currentPage s;
     viewingImage := viewingImage s; startDate := startDate s;
     endDate := endDate s; selectedCustomerIds := v |}.

(** The query [fetchInserts] composes from the filters and the page it
    closes over. *)
Definition insertsQuery (s : State) : Supabase.Query :=
  let query := Supabase.select "*, customer:customers(name)" true
                 (Supabase.from "product_inserts") in
  let query := if Js.truthy (startDate s)
               then Supabase.gte "end_date" (startDate s) query else query in
  let query := if Js.truthy (endDate s)
               then Supabase.lte "start_date" (endDate s) query else query in
  let query := if (0 <? JsSet.size (selectedCustomerIds s))%nat
               then Supabase.is_in "customer_id"
                      (map Some (JsSet.to_array (selectedCustomerIds s))) query
               else query in
  let startIndex := (currentPage s - 1) * ITEMS_PER_PAGE in
  Supabase.order "created_at" false
    (Supabase.range startIndex (startIndex + ITEMS_PER_PAGE - 1) query).

Definition fetchInserts (pagePermissions : option AppPermission)
    (remote : Supabase.Remote) : M State unit :=
  if negb (may_view pagePermissions) then set (setLoading false)
  else
    set (setLoading true);;
    try_catch_finally
      (s ← read;
       r ← await remote (Supabase.Select (insertsQuery s));
       match Supabase.error r with
       | Some e => throw e
       | None =>
           set (setInserts (rows_or_empty (Supabase.data r)));;
           set (setTotalCount (count_or_zero (Supabase.count r)))
       end)
      (λ e, showNotification ("Failed to load reports: " +:+ Supabase.message e) "error")
      (set (setLoading false)).

Definition handleCustomerToggle (id : string) (s : State) : State :=
  let newSet := JsSet.copy (selectedCustomerIds s) in
  let newSet := if JsSet.has id newSet then JsSet.delete id newSet
                else JsSet.add id newSet in
  setCurrentPage (λ _, 1) (setSelectedCustomerIds newSet s).

Definition handleResetFilters (s : State) : State :=
  setCurrentPage (λ _, 1)
    (setSelectedCustomerIds JsSet.empty (setEndDate "" (setStartDate "" s))).

(** Everything the user can do to the filter bar and the pager. *)
Inductive Action :=
| ChangeStartDate (v : string)
| ChangeEndDate (v : string)
| ToggleCustomer (id : string)
| ResetFilters
| PreviousPage
| NextPage.

Definition dispatch (a : Action) (s : State) : State :=
  match a with
  | ChangeStartDate v => setCurrentPage (λ _, 1) (setStartDate v s)
  | ChangeEndDate v => setCurrentPage (λ _, 1) (setEndDate v s)
  | ToggleCustomer id => handleCustomerToggle id s
  | ResetFilters => handleResetFilters s
  | PreviousPage => setCurrentPage (λ p, p - 1) s
  | NextPage => setCurrentPage (λ p, p + 1) s
  end.

Definition mutates_facet (a : Action) : bool :=
  match a with
  | PreviousPage | NextPage => false
  | _ => true
  end.

Definition facets (s : State) : string * string * JsSet.t :=
  (startDate s, endDate s, selectedCustomerIds s).

Definition totalPages (s : State) : Z := ceil_div (totalCount s) ITEMS_PER_PAGE.

(** The part of the render below the filter bar; [None] is the
    access-denied message. *)
Definition render (pagePermissions : option AppPermission) (s : State) : option Pane :=
  if negb (may_view pagePermissions) then None
  else Some
    (if loading s then Spinner
     else if (length (inserts s) =? 0)%nat then NoResults
     else Cards (inserts s)
            (if 1 <? totalPages s
             then Some {| page_shown := currentPage s;
                          pages_shown := totalPages s;
                          previous_disabled := currentPage s =? 1;
                          next_disabled := currentPage s =? totalPages s |}
             else None)).

(** The page buttons as the user meets them: a button that is not drawn
    or is [disabled] does nothing, an enabled one runs its [onClick]. *)
Definition clickPrevious (pagePermissions : option AppPermission) (s : State) : State :=
  match render pagePermissions s with
  | Some (Cards _ (Some pager)) =>
      if previous_disabled pager then s else setCurrentPage (λ p, p - 1) s
  | _ => s
  end.

Definition clickNext (pagePermissions : option AppPermission) (s : State) : State :=
  match render pagePermissions s with
  | Some (Cards _ (Some pager)) =>
      if next_disabled pager then s else setCurrentPage (λ p, p + 1) s
  | _ => s
  end.

Definition fetchInitialData (remote : Supabase.Remote) : M State unit :=
  try_catch_finally
    (r ← await remote
           (Supabase.Select
              (Supabase.order "name" true
                 (Supabase.select "id, name" false (Supabase.from "customers"))));
     match Supabase.error r with
     | Some e => throw e
     | None => set (setCustomers (rows_or_empty (Supabase.data r)))
     end)
    (λ e, showNotification ("Failed to load customers: " +:+ Supabase.message e) "error")
    (mret tt).

(** *** [MultiSelectDropdown]

    The component keeps one flag, [isOpen].  The button shows how many
    customers are selected, the open list shows every option with a checked
    or an empty box, a click on an option calls [onChange] (here
    [handleCustomerToggle]) and a mouse press outside the component closes
    the list. *)

Definition dropdownLabel (selectedIds : JsSet.t) : string :=
  let selectedCount := JsSet.size selectedIds in
  if (selectedCount =? 0)%nat then "All Customers"
  else pretty selectedCount +:+ " Selected".

Definition optionChecked (selectedIds : JsSet.t) (optionId : string) : bool :=
  JsSet.has optionId selectedIds.

Inductive DropdownEvent :=
| ButtonClicked
| MousePressed (inside : bool)
| OptionClicked (optionId : string).

(** The view state together with the dropdown's [isOpen]. *)
Definition dropdownStep (e : DropdownEvent) (st : State * bool) : State * bool :=
  let '(s, isOpen) := st in
  match e with
  | ButtonClicked => (s, negb isOpen)
  | MousePressed inside => (s, if inside then isOpen else false)
  | OptionClicked optionId =>
      if isOpen then (handleCustomerToggle optionId s, isOpen) else (s, isOpen)
  end.

End ProductInsertReporting.

(** ** The competitor price report *)

Module CompetitorPriceAnalysisReport.

Import Types Async.

Definition ITEMS_PER_PAGE : Z := 5.

Record Filters := {
  startDate : string;
  endDate : string;
  customerId : string;
  productIds : JsSet.t
}.

Definition initialFilters : Filters :=
  {| startDate := ""; endDate := ""; customerId := ""; productIds := JsSet.empty |}.

Record State := {
  reports : list Supabase.Row;
  customers : list Supabase.Row;
  allProducts : list Supabase.Row;
  loading : bool;
  totalCount : Z;
  currentPage : Z;
  viewingImage : option string;
  filters : Filters
}.

Definition initial : State :=
  {| reports := []; customers := []; allProducts := []; loading := true;
     totalCount := 0; currentPage := 1; viewingImage := None;
     filters := initialFilters |}.

Definition setReports (v : list Supabase.Row) (s : State) : State :=
  {| reports := v; customers := customers s; allProducts := allProducts s;
     loading := loading s; totalCount := totalCount s;
     currentPage := currentPage s; viewingImage := viewingImage s;
     filters := filters s |}.

Definition setCustomers (v : list Supabase.Row) (s : State) : State :=
  {| reports := reports s; customers := v; allProducts := allProducts s;
     loading := loading s; totalCount := totalCount s;
     currentPage := currentPage s; viewingImage := viewingImage s;
     filters := filters s |}.

Definition setAllProducts (v : list Supabase.Row) (s : State) : State :=
  {| reports := reports s; customers := customers s; allProducts := v;
     loading := loading s; totalCount := totalCount s;
     currentPage := currentPage s; viewingImage := viewingImage s;
     filters := filters s |}.

Definition setLoading (v : bool) (s : State) : State :=
  {| reports := reports s; customers := customers s; allProducts := allProducts s;
     loading := v; totalCount := totalCount s;
     currentPage := currentPage s; viewingImage := viewingImage s;
     filters := filters s |}.

Definition setTotalCount (v : Z) (s : State) : State :=
  {| reports := reports s; customers := customers s; allProducts := allProducts s;
     loading := loading s; totalCount := v;
     currentPage := currentPage s; viewingImage := viewingImage s;
     filters := filters s |}.

Definition setCurrentPage (f : Z → Z) (s : State) : State :=
  {| reports := reports s; customers := customers s; allProducts := allProducts s;
     loading := loading s; totalCount := totalCount s;
     currentPage := f (currentPage s); viewingImage := viewingImage s;
     filters := filters s |}.

Definition setFilters (f : Filters → Filters) (s : State) : State :=
  {| reports := reports s; customers := customers s; allProducts := allProducts s;
     loading := loading s; totalCount := totalCount s;
     currentPage := currentPage s; viewingImage := viewingImage s;
     filters := f (filters s) |}.

(** The three remote queries of [fetchReports]. *)

Definition itemsQuery (currentFilters : Filters) : Supabase.Query :=
  Supabase.is_in "product_id" (map Some (JsSet.to_array (productIds currentFilters)))
    (Supabase.select "analysis_id" false (Supabase.from "competitor_price_analysis_items")).

(** [analysisIdsQuery] before the product facet is applied. *)
Definition analysisIdsBase (currentFilters : Filters) : Supabase.Query :=
  let analysisIdsQuery :=
    Supabase.select "id" true (Supabase.from "competitor_price_analysis") in
  let analysisIdsQuery :=
    if Js.truthy (startDate currentFilters)
    then Supabase.gte "analysis_date" (startDate currentFilters +:+ "T00:00:00.000Z")
           analysisIdsQuery
    else analysisIdsQuery in
  let analysisIdsQuery :=
    if Js.truthy (endDate currentFilters)
    then Supabase.lte "analysis_date" (endDate currentFilters +:+ "T23:59:59.999Z")
           analysisIdsQuery
    else analysisIdsQuery in
  if Js.truthy (customerId currentFilters)
  then Supabase.eq "customer_id" (customerId currentFilters) analysisIdsQuery
  else analysisIdsQuery.

Definition detailQuery (page : Z) (idData : list Supabase.Row) : Supabase.Query :=
  let startIndex := (page - 1) * ITEMS_PER_PAGE in
  Supabase.range startIndex (startIndex + ITEMS_PER_PAGE - 1)
    (Supabase.order "analysis_date" false
       (Supabase.is_in "id" (map (Supabase.get "id") idData)
          (Supabase.select
             "*, customer:customers(name), items:competitor_price_analysis_items(*, product:products(*))"
             false (Supabase.from "competitor_price_analysis")))).

Definition fetchReports (pagePermissions : option AppPermission)
    (remote : Supabase.Remote) (page : Z) (currentFilters : Filters) : M State unit :=
  if negb (may_view pagePermissions) then set (setLoading false)
  else
    set (setLoading true);;
    try_catch_finally
      (analysisIdsQuery ←
         (if (0 <? JsSet.size (productIds currentFilters))%nat
          then
            items ← await remote (Supabase.Select (itemsQuery currentFilters));
            match Supabase.error items with
            | Some itemError => throw itemError
            | None =>
                let matchingAnalysisIds :=
                  map (Supabase.get "analysis_id") (rows_or_empty (Supabase.data items)) in
                mret (Supabase.is_in "id" matchingAnalysisIds (analysisIdsBase currentFilters))
            end
          else mret (analysisIdsBase currentFilters));
       ids ← await remote (Supabase.Select analysisIdsQuery);
       match Supabase.error ids with
       | Some idError => throw idError
       | None =>
           set (setTotalCount (count_or_zero (Supabase.count ids)));;
           match Supabase.data ids with
           | None | Some [] =>
               set (setReports []);;
               set (setLoading false)
           | Some idData =>
               r ← await remote (Supabase.Select (detailQuery page idData));
               match Supabase.error r with
               | Some e => throw e
               | None => set (setReports (rows_or_empty (Supabase.data r)))
               end
           end
       end)
      (λ e, showNotification ("Failed to load reports: " +:+ Supabase.message e) "error")
      (set (setLoading false)).

(** [useEffect(() => { fetchReports(currentPage, filters); }, ...)] *)
Definition loadEffect (pagePermissions : option AppPermission)
    (remote : Supabase.Remote) : M State unit :=
  s ← read;
  fetchReports pagePermissions remote (currentPage s) (filters s).

(** [handleFilterChange(field, value)]: the field and its new value. *)
Inductive FieldValue :=
| StartDate (v : string)
| EndDate (v : string)
| CustomerId (v : string)
| ProductIds (v : JsSet.t).

Definition assign (fv : FieldValue) (prev : Filters) : Filters :=
  match fv with
  | StartDate v =>
      {| startDate := v; endDate := endDate prev; customerId := customerId prev;
         productIds := productIds prev |}
  | EndDate v =>
      {| startDate := startDate prev; endDate := v; customerId := customerId prev;
         productIds := productIds prev |}
  | CustomerId v =>
      {| startDate := startDate prev; endDate := endDate prev; customerId := v;
         productIds := productIds prev |}
  | ProductIds v =>
      {| startDate := startDate prev; endDate := endDate prev;
         customerId := customerId prev; productIds := v |}
  end.

Definition handleFilterChange (fv : FieldValue) (s : State) : State :=
  setCurrentPage (λ _, 1) (setFilters (assign fv) s).

Definition handleProductFilterChange (productId : string) (s : State) : State :=
  let newSet := JsSet.copy (productIds (filters s)) in
  let newSet := if JsSet.has productId newSet then JsSet.delete productId newSet
                else JsSet.add productId newSet in
  handleFilterChange (ProductIds newSet) s.

Definition handleResetFilters (s : State) : State :=
  setCurrentPage (λ _, 1) (setFilters (λ _, initialFilters) s).

Inductive Action :=
| ChangeStartDate (v : string)
| ChangeEndDate (v : string)
| ChangeCustomer (v : string)
| ToggleProduct (productId : string)
| ResetFilters
| PreviousPage
| NextPage.

Definition dispatch (a : Action) (s : State) : State :=
  match a with
  | ChangeStartDate v => handleFilterChange (StartDate v) s
  | ChangeEndDate v => handleFilterChange (EndDate v) s
  | ChangeCustomer v => handleFilterChange (CustomerId v) s
  | ToggleProduct productId => handleProductFilterChange productId s
  | ResetFilters => handleResetFilters s
  | PreviousPage => setCurrentPage (λ p, p - 1) s
  | NextPage => setCurrentPage (λ p, p + 1) s
  end.

Definition mutates_facet (a : Action) : bool :=
  match a with
  | PreviousPage | NextPage => false
  | _ => true
  end.

Definition totalPages (s : State) : Z := ceil_div (totalCount s) ITEMS_PER_PAGE.

Definition render (pagePermissions : option AppPermission) (s : State) : option Pane :=
  if negb (may_view pagePermissions) then None
  else Some
    (if loading s then Spinner
     else if (length (reports s) =? 0)%nat then NoResults
     else Cards (reports s)
            (if 1 <? totalPages s
             then Some {| page_shown := currentPage s;
                          pages_shown := totalPages s;
                          previous_disabled := currentPage s =? 1;
                          next_disabled := currentPage s =? totalPages s |}
             else None)).

Definition clickPrevious (pagePermissions : option AppPermission) (s : State) : State :=
  match render pagePermissions s with
  | Some (Cards _ (Some pager)) =>
      if previous_disabled pager then s else setCurrentPage (λ p, p - 1) s
  | _ => s
  end.

Definition clickNext (pagePermissions : option AppPermission) (s : State) : State :=
  match render pagePermissions s with
  | Some (Cards _ (Some pager)) =>
      if next_disabled pager then s else setCurrentPage (λ p, p + 1) s
  | _ => s
  end.

(** [fetchDropdownData]: both lists are requested before either is
    awaited ([Promise.all]); only [data] is read off each response, so an
    [error] in a response is not looked at and only a rejection reaches the
    [catch]. *)
Definition customersQuery : Supabase.Query :=
  Supabase.order "name" true (Supabase.select "*" false (Supabase.from "customers")).

Definition productsQuery : Supabase.Query :=
  Supabase.order "name" true (Supabase.select "*" false (Supabase.from "products")).

Definition fetchDropdownData {network : Network} (remote : Supabase.Remote) : M State unit :=
  try_catch_finally
    (answers ← await_all remote (λ _ x, inr x)
                 [Supabase.Select customersQuery; Supabase.Select productsQuery];
     match answers with
     | [customersAnswer; productsAnswer] =>
         set (setCustomers (rows_or_empty (Supabase.data customersAnswer)));;
         set (setAllProducts (rows_or_empty (Supabase.data productsAnswer)))
     | _ => mret tt
     end)
    (λ e, showNotification ("Failed to load filter data: " +:+ Supabase.message e) "error")
    (mret tt).

(** The chips under the product select: one per selected identifier that
    [allProducts.find] resolves, in the order of selection, showing the
    product's name; an identifier without a product renders nothing. *)
Definition findProduct (id : string) (products : list Supabase.Row) : option Supabase.Row :=
  List.find (λ p, bool_decide (Supabase.get "id" p = Some id)) products.

Definition chips (s : State) : list (string * string) :=
  omap (λ id, match findProduct id (allProducts s) with
              | Some product => Some (id, default "" (Supabase.get "name" product))
              | None => None
              end)
       (JsSet.to_array (productIds (filters s))).

(** The remove button of the chip for [id]. *)
Definition clickChipRemove (id : string) (s : State) : State :=
  if bool_decide (id ∈ (chips s).*1) then handleProductFilterChange id s else s.

End CompetitorPriceAnalysisReport.

(** ** The insert form *)

Module ProductInsert.

Import Types Async.

Record State := {
  isSaving : bool;
  customerId : string;
  customerSearch : string;
  filteredCustomers : list Supabase.Row;
  isCustomerDropdownOpen : bool;
  productName : string;
  insertPrice : option Z;   (* [number | '']: the form stores the number and passes
                               it on, it never computes with it *)
  startDate : string;
  endDate : string;
  photoFiles : list Supabase.File
}.

Definition initial : State :=
  {| isSaving := false; customerId := ""; customerSearch := "";
     filteredCustomers := []; isCustomerDropdownOpen := false;
     productName := ""; insertPrice := None; startDate := ""; endDate := "";
     photoFiles := [] |}.

Definition setIsSaving (v : bool) (s : State) : State :=
  {| isSaving := v; customerId := customerId s; customerSearch := customerSearch s;
     filteredCustomers := filteredCustomers s;
     isCustomerDropdownOpen := isCustomerDropdownOpen s;
     productName := productName s; insertPrice := insertPrice s;
     startDate := startDate s; endDate := endDate s; photoFiles := photoFiles s |}.

Definition setCustomerId (v : string) (s : State) : State :=
  {| isSaving := isSaving s; customerId := v; customerSearch := customerSearch s;
     filteredCustomers := filteredCustomers s;
     isCustomerDropdownOpen := isCustomerDropdownOpen s;
     productName := productName s; insertPrice := insertPrice s;
     startDate := startDate s; endDate := endDate s; photoFiles := photoFiles s |}.

Definition setCustomerSearch (v : string) (s : State) : State :=
  {| isSaving := isSaving s; customerId := customerId s; customerSearch := v;
     filteredCustomers := filteredCustomers s;
     isCustomerDropdownOpen := isCustomerDropdownOpen s;
     productName := productName s; insertPrice := insertPrice s;
     startDate := startDate s; endDate := endDate s; photoFiles := photoFiles s |}.

Definition setFilteredCustomers (v : list Supabase.Row) (s : State) : State :=
  {| isSaving := isSaving s; customerId := customerId s;
     customerSearch := customerSearch s; filteredCustomers := v;
     isCustomerDropdownOpen := isCustomerDropdownOpen s;
     productName := productName s; insertPrice := insertPrice s;
     startDate := startDate s; endDate := endDate s; photoFiles := photoFiles s |}.

Definition setIsCustomerDropdownOpen (v : bool) (s : State) : State :=
  {| isSaving := isSaving s; customerId := customerId s;
     customerSearch := customerSearch s; filteredCustomers := filteredCustomers s;
     isCustomerDropdownOpen := v;
     productName := productName s; insertPrice := insertPrice s;
     startDate := startDate s; endDate := endDate s; photoFiles := photoFiles s |}.

Definition setProductName (v : string) (s : State) : State :=
  {| isSaving := isSaving s; customerId := customerId s;
     customerSearch := customerSearch s; filteredCustomers := filteredCustomers s;
     isCustomerDropdownOpen := isCustomerDropdownOpen s;
     productName := v; insertPrice := insertPrice s;
     startDate := startDate s; endDate := endDate s; photoFiles := photoFiles s |}.

Definition setInsertPrice (v : option Z) (s : State) : State :=
  {| isSaving := isSaving s; customerId := customerId s;
     customerSearch := customerSearch s; filteredCustomers := filteredCustomers s;
     isCustomerDropdownOpen := isCustomerDropdownOpen s;
     productName := productName s; insertPrice := v;
     startDate := startDate s; endDate := endDate s; photoFiles := photoFiles s |}.

Definition setStartDate (v : string) (s : State) : State :=
  {| isSaving := isSaving s; customerId := customerId s;
     customerSearch := customerSearch s; filteredCustomers := filteredCustomers s;
     isCustomerDropdownOpen := isCustomerDropdownOpen s;
     productName := productName s; insertPrice := insertPrice s;
     startDate := v; endDate := endDate s; photoFiles := photoFiles s |}.

Definition setEndDate (v : string) (s : State) : State :=
  {| isSaving := isSaving s; customerId := customerId s;
     customerSearch := customerSearch s; filteredCustomers := filteredCustomers s;
     isCustomerDropdownOpen := isCustomerDropdownOpen s;
     productName := productName s; insertPrice := insertPrice s;
     startDate := startDate s; endDate := v; photoFiles := photoFiles s |}.

Definition setPhotoFiles (v : list Supabase.File) (s : State) : State :=
  {| isSaving := isSaving s; customerId := customerId s;
     customerSearch := customerSearch s; filteredCustomers := filteredCustomers s;
     isCustomerDropdownOpen := isCustomerDropdownOpen s;
     productName := productName s; insertPrice := insertPrice s;
     startDate := startDate s; endDate := endDate s; photoFiles := v |}.

(** *** Saving *)

Section Save.

Context {engine : Js.Engine} {network : Network}.

(** What the application context and the libraries provide: the
    translation lookup, the signed-in profile's id ([profile?.id], absent
    when there is no profile), the identifiers [uuidv4] hands out (the
    i-th one drawn during a call) and the public address of a stored
    object. *)
Variable t : string → string.
Variable profile_id : option string.
Variable uuidv4 : nat → string.
Variable getPublicUrl : string → string.

Definition filePath (i : nat) : string :=
  "public/" +:+ default "undefined" profile_id +:+ "/insert/" +:+ uuidv4 i.

Definition uploadRequests (files : list Supabase.File) : list Supabase.Request :=
  imap (λ i file, Supabase.Upload "insert_photos" (filePath i) file) files.

Definition afterUpload (r : Supabase.Request) (x : Supabase.Response)
    : Supabase.Error + string :=
  match Supabase.error x with
  | Some uploadError =>
      inl {| Supabase.message := "Image upload failed: " +:+ Supabase.message uploadError |}
  | None =>
      match r with
      | Supabase.Upload _ path _ => inr (getPublicUrl path)
      | _ => inr ""
      end
  end.

Definition insertRow (s : State) (photoUrls : list string) : Supabase.Row :=
  [ ("customer_id", Supabase.JStr (customerId s));
    ("product_name", Supabase.JStr (productName s));
    ("insert_price", match insertPrice s with
                     | Some n => Supabase.JNum n
                     | None => Supabase.JNum 0
                     end);
    ("start_date", Supabase.JStr (startDate s));
    ("end_date", Supabase.JStr (endDate s));
    ("photo_urls", Supabase.JArr photoUrls);
    ("created_by", match profile_id with
                   | Some i => Supabase.JStr i
                   | None => Supabase.JUndefined
                   end) ].

Definition fieldsMissing (s : State) : bool :=
  negb (Js.truthy (customerId s)) || negb (Js.truthy (productName s))
  || match insertPrice s with None => true | Some _ => false end
  || negb (Js.truthy (startDate s)) || negb (Js.truthy (endDate s)).

Definition handleSave (pagePermissions : option AppPermission)
    (remote : Supabase.Remote) : M State unit :=
  s ← read;
  if negb (may_create pagePermissions) then mret tt
  else if fieldsMissing s
  then showNotification (t "productInsert.validation.fieldsRequired") "error"
  else if Js.date_gt (startDate s) (endDate s)
  then showNotification (t "productDisplay.validation.dateError") "error"
  else
    set (setIsSaving true);;
    try_catch_finally
      (photoUrls ←
         (if (0 <? length (photoFiles s))%nat
          then await_all remote afterUpload (uploadRequests (photoFiles s))
          else mret []);
       r ← await remote (Supabase.Insert "product_inserts" (insertRow s photoUrls));
       match Supabase.error r with
       | Some e => throw e
       | None =>
           showNotification (t "productInsert.saveSuccess") "success";;
           set (setCustomerId "");;
           set (setCustomerSearch "");;
           set (setProductName "");;
           set (setInsertPrice None);;
           set (setStartDate "");;
           set (setEndDate "");;
           set (setPhotoFiles [])
       end)
      (λ e, showNotification
              (Js.replace "{error}" (Supabase.message e) (t "productInsert.saveError"))
              "error")
      (set (setIsSaving false)).

End Save.

(** *** The debounced customer search

    The search lives in the event loop: the effect on [customerSearch]
    arms a timer, the timer callback sends the query and suspends at its
    [await], and the response resumes it later.  A [Session] holds the
    component state together with the armed timers, the [debounceTimeout]
    ref and the suspended callbacks, so that the events can be interleaved
    freely. *)

Record Timer := {
  timer_id : nat;
  due : nat;               (* milliseconds on the session clock *)
  search_text : string     (* the [customerSearch] the callback closes over *)
}.

Record Session := {
  ui : State;
  clock : nat;
  timers : list Timer;
  next_timer : nat;
  debounceTimeout : option nat;
  in_flight : list (nat * Supabase.Query);
  next_request : nat;
  sent : list Supabase.Request;
  console : list string
}.

Definition QUIET_PERIOD : nat := 300.

Definition with_ui (f : State → State) (s : Session) : Session :=
  {| ui := f (ui s); clock := clock s; timers := timers s;
     next_timer := next_timer s; debounceTimeout := debounceTimeout s;
     in_flight := in_flight s; next_request := next_request s;
     sent := sent s; console := console s |}.

Definition clearTimeout (id : nat) (s : Session) : Session :=
  {| ui := ui s; clock := clock s;
     timers := List.filter (λ tm, negb (timer_id tm =? id)%nat) (timers s);
     next_timer := next_timer s; debounceTimeout := debounceTimeout s;
     in_flight := in_flight s; next_request := next_request s;
     sent := sent s; console := console s |}.

(** [debounceTimeout.current = setTimeout(callback, ms)], the callback
    closing over [text]. *)
Definition setTimeout (text : string) (ms : nat) (s : Session) : Session :=
  {| ui := ui s; clock := clock s;
     timers := timers s ++ [{| timer_id := next_timer s; due := (clock s + ms)%nat;
                               search_text := text |}];
     next_timer := S (next_timer s); debounceTimeout := Some (next_timer s);
     in_flight := in_flight s; next_request := next_request s;
     sent := sent s; console := console s |}.

(** [if (debounceTimeout.current) clearTimeout(debounceTimeout.current)] *)
Definition clearPending (s : Session) : Session :=
  match debounceTimeout s with
  | Some id => clearTimeout id s
  | None => s
  end.

(** The body of the effect, run after a render in which [customerSearch]
    changed. *)
Definition effect (s : Session) : Session :=
  let s := clearPending s in
  if Js.truthy (customerSearch (ui s))
  then setTimeout (customerSearch (ui s)) QUIET_PERIOD s
  else with_ui (setFilteredCustomers []) s.

(** The function the effect returns. *)
Definition cleanup (s : Session) : Session := clearPending s.

(** After a handler ran: when [customerSearch] differs from the value of
    the previous render, the previous effect is cleaned up and the effect
    runs again. *)
Definition rerender (previous : string) (s : Session) : Session :=
  if String.eqb (customerSearch (ui s)) previous then s
  else effect (cleanup s).

Section Loop.

Context {engine : Js.Engine}.

Definition searchQuery (text : string) : Supabase.Query :=
  let lowercased := Js.toLowerCase text in
  Supabase.limit 10
    (Supabase.or
       ("name.ilike.%" +:+ lowercased +:+ "%,customer_code.ilike.%" +:+ lowercased +:+ "%")
       (Supabase.select "*" false (Supabase.from "customers"))).

(** The timer callback up to its [await]. *)
Definition fire (tm : Timer) (s : Session) : Session :=
  let q := searchQuery (search_text tm) in
  {| ui := ui s; clock := clock s; timers := timers s;
     next_timer := next_timer s; debounceTimeout := debounceTimeout s;
     in_flight := in_flight s ++ [(next_request s, q)];
     next_request := S (next_request s);
     sent := sent s ++ [Supabase.Select q]; console := console s |}.

(** The timer callback after its [await]. *)
Definition resume (o : Supabase.Outcome) (s : Session) : Session :=
  match o with
  | Supabase.Fulfilled r =>
      match Supabase.error r with
      | Some e =>
          {| ui := ui s; clock := clock s; timers := timers s;
             next_timer := next_timer s; debounceTimeout := debounceTimeout s;
             in_flight := in_flight s; next_request := next_request s;
             sent := sent s;
             console := console s ++ ["Customer search error: " +:+ Supabase.message e] |}
      | None => with_ui (setFilteredCustomers (rows_or_empty (Supabase.data r))) s
      end
  | Supabase.Rejected _ => s
  end.

Definition is_due (now : nat) (tm : Timer) : bool := (due tm <=? now)%nat.

Definition advance (ms : nat) (s : Session) : Session :=
  let now := (clock s + ms)%nat in
  let ready := List.filter (is_due now) (timers s) in
  let s := {| ui := ui s; clock := now;
              timers := List.filter (λ tm, negb (is_due now tm)) (timers s);
              next_timer := next_timer s; debounceTimeout := debounceTimeout s;
              in_flight := in_flight s; next_request := next_request s;
              sent := sent s; console := console s |} in
  fold_left (λ acc tm, fire tm acc) ready s.

Definition awaiting (request : nat) (s : Session) : bool :=
  existsb (λ p, (fst p =? request)%nat) (in_flight s).

Definition complete (request : nat) (o : Supabase.Outcome) (s : Session) : Session :=
  if awaiting request s
  then resume o
         {| ui := ui s; clock := clock s; timers := timers s;
            next_timer := next_timer s; debounceTimeout := debounceTimeout s;
            in_flight := List.filter (λ p, negb (fst p =? request)%nat) (in_flight s);
            next_request := next_request s; sent := sent s; console := console s |}
  else s.

Definition handleSelectCustomer (customer : Supabase.Row) (s : State) : State :=
  setIsCustomerDropdownOpen false
    (setCustomerSearch (default "" (Supabase.get "name" customer))
       (setCustomerId (default "" (Supabase.get "id" customer)) s)).

(** [onChange] of the search input. *)
Definition onSearchChange (value : string) (s : State) : State :=
  let s := setIsCustomerDropdownOpen true (setCustomerSearch value s) in
  if Js.truthy value then s else setCustomerId "" s.

Inductive Event :=
| Typed (value : string)
| Focused
| Picked (customer : Supabase.Row)
| Elapsed (ms : nat)
| Completed (request : nat) (o : Supabase.Outcome).

Definition step (s : Session) (e : Event) : Session :=
  match e with
  | Typed value => rerender (customerSearch (ui s)) (with_ui (onSearchChange value) s)
  | Focused => with_ui (setIsCustomerDropdownOpen true) s
  | Picked customer =>
      rerender (customerSearch (ui s)) (with_ui (handleSelectCustomer customer) s)
  | Elapsed ms => advance ms s
  | Completed request o => complete request o s
  end.

(** The session right after the first render: the effect has run once,
    on the empty search text. *)
Definition mount : Session :=
  effect {| ui := initial; clock := 0%nat; timers := []; next_timer := 1%nat;
            debounceTimeout := None; in_flight := []; next_request := 0%nat;
            sent := []; console := [] |}.

Definition run (events : list Event) : Session := fold_left step events mount.

End Loop.

(** Events that do not touch the search text. *)
Definition passive (e : Event) : bool :=
  match e with
  | Typed _ | Picked _ => false
  | _ => true
  end.

(** The candidate list is drawn when the dropdown is open and there is at
    least one candidate. *)
Definition dropdownShown (s : State) : bool :=
  isCustomerDropdownOpen s && (0 <? length (filteredCustomers s))%nat.

End ProductInsert.

(** ** Notions used to state the properties *)

(** Both toggle handlers replace the facet by the same function of it. *)
Definition toggled (id : string) (s : JsSet.t) : JsSet.t :=
  if JsSet.has id s then JsSet.delete id s else JsSet.add id s.

(** [handleSave] gets past its permission and validation guards. *)
Definition save_starts {engine : Js.Engine} (pagePermissions : option Types.AppPermission)
    (s : ProductInsert.State) : bool :=
  Types.may_create pagePermissions
  && negb (ProductInsert.fieldsMissing s)
  && negb (Js.date_gt (ProductInsert.startDate s) (ProductInsert.endDate s)).

(** The request a timer sends when it fires. *)
Definition request_of {engine : Js.Engine} (tm : ProductInsert.Timer) : Supabase.Request :=
  Supabase.Select (ProductInsert.searchQuery (ProductInsert.search_text tm)).

(** Every armed timer is the one the [debounceTimeout] ref names, and its
    identifier has been handed out already. *)
Definition tidy (s : ProductInsert.Session) : Prop :=
  Forall (λ tm, ProductInsert.debounceTimeout s = Some (ProductInsert.timer_id tm)
                ∧ (ProductInsert.timer_id tm < ProductInsert.next_timer s)%nat)
         (ProductInsert.timers s).

(** A successful response carrying [rows]. *)
Definition found (rows : list Supabase.Row) : Supabase.Outcome :=
  Supabase.Fulfilled
    {| Supabase.data := Some rows; Supabase.error := None; Supabase.count := None |}.

(** The filters that bound a timestamp column. *)
Definition is_bound (f : Supabase.Filter) : bool :=
  match f with
  | Supabase.Gte _ _ | Supabase.Lte _ _ => true
  | _ => false
  end.

(** The identifier query [fetchReports] awaits once the product facet has
    been resolved to [matching] parent identifiers. *)
Definition analysisIdsQuery (currentFilters : CompetitorPriceAnalysisReport.Filters)
    (matching : list (option string)) : Supabase.Query :=
  Supabase.is_in "id" matching
    (CompetitorPriceAnalysisReport.analysisIdsBase currentFilters).

(** The identifier query [fetchReports] awaits over stored tables that
    answer every call: the product facet, when set, has been resolved
    through the items table. *)
Definition resolvedIdsQuery (db : Supabase.Database)
    (currentFilters : CompetitorPriceAnalysisReport.Filters) : Supabase.Query :=
  if (0 <? JsSet.size (CompetitorPriceAnalysisReport.productIds currentFilters))%nat
  then analysisIdsQuery currentFilters
         (map (Supabase.get "analysis_id")
            (Types.rows_or_empty
               (Supabase.data
                  (Supabase.run_select db
                     (CompetitorPriceAnalysisReport.itemsQuery currentFilters)))))
  else CompetitorPriceAnalysisReport.analysisIdsBase currentFilters.

(** The analyses that pass every facet. *)
Definition matchingAnalyses (db : Supabase.Database)
    (currentFilters : CompetitorPriceAnalysisReport.Filters) : list Supabase.Row :=
  List.filter (Supabase.satisfies (Supabase.filters (resolvedIdsQuery db currentFilters)))
    (db "competitor_price_analysis").

(** Every analysis has an identifier and no two share one. *)
Definition keyed (db : Supabase.Database) : Prop :=
  Forall (λ r, is_Some (Supabase.get "id" r)) (db "competitor_price_analysis")
  ∧ NoDup (map (Supabase.get "id") (db "competitor_price_analysis")).

(** *** An engine and a network for the scenarios

    The engine lower-cases the letters A-Z and reads ISO days and
    timestamps; of several failures the network delivers the first in the
    list first. *)

Definition sample_engine : Js.Engine :=
  {| Js.toLowerCase := Js.lower_ascii_string; Js.dateValue := Supabase.instant |}.

Definition sample_network : Async.Network :=
  {| Async.first_failure := λ _, 0%nat |}.

(** *** A small stored backend for the scenarios

    Twelve analyses, one per month of 2024, and two items that both
    reference product [p1]. *)

Definition sample_analysis (id date : string) : Supabase.Row :=
  [ ("id", Supabase.JStr id);
    ("customer_id", Supabase.JStr "c1");
    ("analysis_date", Supabase.JStr date) ].

Definition sample_item (id analysis product : string) : Supabase.Row :=
  [ ("id", Supabase.JStr id);
    ("analysis_id", Supabase.JStr analysis);
    ("product_id", Supabase.JStr product) ].

Definition sample_db : Supabase.Database :=
  λ tbl,
    if String.eqb tbl "competitor_price_analysis"
    then [ sample_analysis "a01" "2024-01-15T09:00:00.000Z";
           sample_analysis "a02" "2024-02-15T09:00:00.000Z";
           sample_analysis "a03" "2024-03-15T09:00:00.000Z";
           sample_analysis "a04" "2024-04-15T09:00:00.000Z";
           sample_analysis "a05" "2024-05-15T09:00:00.000Z";
           sample_analysis "a06" "2024-06-15T09:00:00.000Z";
           sample_analysis "a07" "2024-07-15T09:00:00.000Z";
           sample_analysis "a08" "2024-08-15T09:00:00.000Z";
           sample_analysis "a09" "2024-09-15T09:00:00.000Z";
           sample_analysis "a10" "2024-10-15T09:00:00.000Z";
           sample_analysis "a11" "2024-11-15T09:00:00.000Z";
           sample_analysis "a12" "2024-12-15T09:00:00.000Z" ]
    else if String.eqb tbl "competitor_price_analysis_items"
    then [ sample_item "i1" "a03" "p1"; sample_item "i2" "a07" "p1" ]
    else [].

(** The backend answers every call. *)
Definition sample_up : Supabase.Backend :=
  {| Supabase.db := sample_db; Supabase.fault := λ _, None |}.

(** The items table still answers; queries on the analysis table time
    out. *)
Definition sample_flaky : Supabase.Backend :=
  {| Supabase.db := sample_db;
     Supabase.fault := λ r,
       match r with
       | Supabase.Select q =>
           if String.eqb (Supabase.table q) "competitor_price_analysis"
           then Some (Supabase.ErrorResponse {| Supabase.message := "timeout" |})
           else None
       | _ => None
       end |}.

Definition sample_viewer : option Types.AppPermission :=
  Some {| Types.page_name := "Competitor Price Analysis Report";
          Types.can_view := true; Types.can_create := false;
          Types.can_edit := false; Types.can_delete := false;
          Types.can_navigate := true; Types.can_export := false |}.

(** What is armed after some typing: nothing when the text is empty, else
    one timer for the text, due within the quiet period and not yet. *)
Definition armed_for (text : string) (s : ProductInsert.Session) : Prop :=
  match ProductInsert.timers s with
  | [] => Js.truthy text = false
  | [tm] => Js.truthy text = true ∧ ProductInsert.search_text tm = text
            ∧ (ProductInsert.clock s < ProductInsert.due tm
               ≤ ProductInsert.clock s + ProductInsert.QUIET_PERIOD)%nat
  | _ => False
  end.

(** Events that come from the clock and the network only. *)
Definition background (e : ProductInsert.Event) : bool :=
  match e with
  | ProductInsert.Elapsed _ | ProductInsert.Completed _ _ => true
  | _ => false
  end.

(** The world after a batch of calls has been sent. *)
Definition sends {S : Type} (rs : list Supabase.Request) (w : Async.World S) : Async.World S :=
  {| Async.view := Async.view w; Async.sent := Async.sent w ++ rs;
     Async.notifications := Async.notifications w; Async.console := Async.console w |}.

(** The public address [handleSave] records for an upload. *)
Definition uploadedUrl (getPublicUrl : string → string) (r : Supabase.Request) : string :=
  match r with
  | Supabase.Upload _ path _ => getPublicUrl path
  | _ => ""
  end.

(** The remote answers every call without an error. *)
Definition obliging (remote : Supabase.Remote) : Prop :=
  ∀ r, ∃ x, remote r = Supabase.Fulfilled x ∧ Supabase.error x = None.

(** The form after a successful save: the fields [handleSave] resets are
    empty, the candidate list and the dropdown flag are as they were. *)
Definition cleared_form (s : ProductInsert.State) : ProductInsert.State :=
  {| ProductInsert.isSaving := false;
     ProductInsert.customerId := "";
     ProductInsert.customerSearch := "";
     ProductInsert.filteredCustomers := ProductInsert.filteredCustomers s;
     ProductInsert.isCustomerDropdownOpen := ProductInsert.isCustomerDropdownOpen s;
     ProductInsert.productName := "";
     ProductInsert.insertPrice := None;
     ProductInsert.startDate := "";
     ProductInsert.endDate := "";
     ProductInsert.photoFiles := [] |}.

(** An insert passes the facets of the insert report: each facet that is
    set must hold, a facet that is not set asks nothing.  The date facets
    overlap the insert's period with the selected range. *)
Definition insertPasses (s : ProductInsertReporting.State) (r : Supabase.Row) : bool :=
  (negb (Js.truthy (ProductInsertReporting.startDate s))
   || match Supabase.get "end_date" r with
      | Some ends => Supabase.timestamp_le (ProductInsertReporting.startDate s) ends
      | None => false
      end)
  && (negb (Js.truthy (ProductInsertReporting.endDate s))
      || match Supabase.get "start_date" r with
         | Some starts => Supabase.timestamp_le starts (ProductInsertReporting.endDate s)
         | None => false
         end)
  && ((JsSet.size (ProductInsertReporting.selectedCustomerIds s) =? 0)%nat
      || match Supabase.get "customer_id" r with
         | Some customer =>
             bool_decide (customer ∈ ProductInsertReporting.selectedCustomerIds s)
         | None => false
         end).

(** The inserts that pass, most recently created first. *)
Definition matchingInserts (db : Supabase.Database) (s : ProductInsertReporting.State)
    : list Supabase.Row :=
  Supabase.sort_rows "created_at" false
    (List.filter (insertPasses s) (db "product_inserts")).

(** The page of inserts a load at page [p] leaves on display. *)
Definition loadedPage (perm : option Types.AppPermission) (b : Supabase.Backend)
    (s : ProductInsertReporting.State) (p : Z) : list Supabase.Row :=
  ProductInsertReporting.inserts
    (Async.view
       (fst (ProductInsertReporting.fetchInserts perm (Supabase.remote_of b)
               (Async.world (ProductInsertReporting.setCurrentPage (λ _, p) s))))).

(** A stored backend with inserts, for the scenarios of the insert report:
    eight inserts of three customers. *)
Definition sample_insert (id customer starts ends created : string) : Supabase.Row :=
  [ ("id", Supabase.JStr id);
    ("customer_id", Supabase.JStr customer);
    ("start_date", Supabase.JStr starts);
    ("end_date", Supabase.JStr ends);
    ("created_at", Supabase.JStr created) ].

Definition sample_inserts_db : Supabase.Database :=
  λ tbl,
    if String.eqb tbl "product_inserts"
    then [ sample_insert "n1" "c1" "2024-01-01" "2024-01-31" "2023-12-20T08:00:00.000Z";
           sample_insert "n2" "c2" "2024-01-15" "2024-02-15" "2023-12-21T08:00:00.000Z";
           sample_insert "n3" "c1" "2024-02-01" "2024-02-29" "2024-01-20T08:00:00.000Z";
           sample_insert "n4" "c3" "2024-03-01" "2024-03-31" "2024-02-20T08:00:00.000Z";
           sample_insert "n5" "c2" "2024-03-10" "2024-04-10" "2024-02-21T08:00:00.000Z";
           sample_insert "n6" "c1" "2024-04-01" "2024-04-30" "2024-03-20T08:00:00.000Z";
           sample_insert "n7" "c3" "2024-05-01" "2024-05-31" "2024-04-20T08:00:00.000Z";
           sample_insert "n8" "c2" "2024-06-01" "2024-06-30" "2024-05-20T08:00:00.000Z" ]
    else [].

Definition sample_inserts_up : Supabase.Backend :=
  {| Supabase.db := sample_inserts_db; Supabase.fault := λ _, None |}.

(** Some stored item references both one of the selected products and
    the analysis. *)
Definition involves (db : Supabase.Database) (productIds : JsSet.t) (analysis : string) : bool :=
  existsb
    (λ item,
       match Supabase.get "product_id" item with
       | Some product => bool_decide (product ∈ productIds)
       | None => false
       end
       && bool_decide (Supabase.get "analysis_id" item = Some analysis))
    (db "competitor_price_analysis_items").

(** An analysis passes the facets of the competitor report: each facet
    that is set must hold; the product facet asks for an item of the
    analysis that references a selected product. *)
Definition analysisPasses (db : Supabase.Database)
    (f : CompetitorPriceAnalysisReport.Filters) (r : Supabase.Row) : bool :=
  (negb (Js.truthy (CompetitorPriceAnalysisReport.startDate f))
   || match Supabase.get "analysis_date" r with
      | Some taken =>
          Supabase.timestamp_le
            (CompetitorPriceAnalysisReport.startDate f +:+ "T00:00:00.000Z") taken
      | None => false
      end)
  && (negb (Js.truthy (CompetitorPriceAnalysisReport.endDate f))
      || match Supabase.get "analysis_date" r with
         | Some taken =>
             Supabase.timestamp_le taken
               (CompetitorPriceAnalysisReport.endDate f +:+ "T23:59:59.999Z")
         | None => false
         end)
  && (negb (Js.truthy (CompetitorPriceAnalysisReport.customerId f))
      || match Supabase.get "customer_id" r with
         | Some customer => String.eqb customer (CompetitorPriceAnalysisReport.customerId f)
         | None => false
         end)
  && ((JsSet.size (CompetitorPriceAnalysisReport.productIds f) =? 0)%nat
      || match Supabase.get "id" r with
         | Some id => involves db (CompetitorPriceAnalysisReport.productIds f) id
         | None => false
         end).

(** Stage one of [fetchReports] against any backend: the identifier query
    it goes on with, or the error that stops it at the items lookup. *)
Definition stageOne (remote : Supabase.Remote) (f : CompetitorPriceAnalysisReport.Filters)
    : Supabase.Error + Supabase.Query :=
  if (0 <? JsSet.size (CompetitorPriceAnalysisReport.productIds f))%nat
  then match remote (Supabase.Select (CompetitorPriceAnalysisReport.itemsQuery f)) with
       | Supabase.Rejected e => inl e
       | Supabase.Fulfilled items =>
           match Supabase.error items with
           | Some e => inl e
           | None =>
               inr (analysisIdsQuery f
                      (map (Supabase.get "analysis_id")
                         (Types.rows_or_empty (Supabase.data items))))
           end
       end
  else inr (CompetitorPriceAnalysisReport.analysisIdsBase f).

(** The calls stage one sends. *)
Definition stageOneCalls (f : CompetitorPriceAnalysisReport.Filters) : list Supabase.Request :=
  if (0 <? JsSet.size (CompetitorPriceAnalysisReport.productIds f))%nat
  then [Supabase.Select (CompetitorPriceAnalysisReport.itemsQuery f)]
  else [].

(** How a call ended, read as the views read it: the rows and count of a
    response without error, or the error (in the response or thrown). *)
Definition answer (o : Supabase.Outcome) : Supabase.Error + Supabase.Response :=
  match o with
  | Supabase.Rejected e => inl e
  | Supabase.Fulfilled x =>
      match Supabase.error x with
      | Some e => inl e
      | None => inr x
      end
  end.

(** Unfolds the operations of an asynchronous function down to the
  worlds they produce. *)
Ltac run_async :=
  unfold Async.try_catch_finally, mbind, Async.M_bind, Async.bind, Async.await,
    mret, Async.M_ret, Async.ret, Async.set, Async.throw, Async.showNotification;
  cbn beta iota zeta.

(** *** Notions for the further properties *)

(** At most one timer is armed, no armed timer carries an empty text, and
    every request sent so far is the search query of a non-empty text. *)
Definition settled {engine : Js.Engine} (s : ProductInsert.Session) : Prop :=
  (length (ProductInsert.timers s) ≤ 1)%nat
  ∧ Forall (λ tm, ProductInsert.search_text tm ≠ "") (ProductInsert.timers s)
  ∧ Forall (λ r, ∃ text, text ≠ "" ∧ r = Supabase.Select (ProductInsert.searchQuery text))
           (ProductInsert.sent s).

(** A burst of typing: each value is followed by a pause. *)
Definition burst (keys : list (string * nat)) : list ProductInsert.Event :=
  flat_map (λ k, [ProductInsert.Typed (fst k); ProductInsert.Elapsed (snd k)]) keys.

(** Every value of the burst differs from the text before it, and every
    pause is shorter than the quiet period. *)
Fixpoint hasty (previous : string) (keys : list (string * nat)) : Prop :=
  match keys with
  | [] => True
  | (value, pause) :: rest =>
      value ≠ previous ∧ (pause < ProductInsert.QUIET_PERIOD)%nat ∧ hasty value rest
  end.

(** The text the burst ends on. *)
Definition final_text (previous : string) (keys : list (string * nat)) : string :=
  default previous (last (previous :: map fst keys)).

(** * Properties *)

Module PIR := ProductInsertReporting.
Module CPAR := CompetitorPriceAnalysisReport.
Module PI := ProductInsert.

(** ** Sanity checks on small inputs *)

Example lower_ascii_mixed : Js.lower_ascii_string "Acme-42 Ltd" = "acme-42 ltd".
Proof. reflexivity. Qed.

Example replace_first_only :
  Js.replace "{error}" "boom" "Failed: {error} ({error})" = "Failed: boom ({error})".
Proof. reflexivity. Qed.

Example replace_expands_dollars :
  Js.replace "{error}" "$$5 [$&] [$`] [$'] $1 $" "Failed: {error}!"
  = "Failed: $5 [{error}] [Failed: ] [!] $1 $!".
Proof. reflexivity. Qed.

Example replace_without_match : Js.replace "{error}" "boom" "Failed" = "Failed".
Proof. reflexivity. Qed.

Example instant_of_a_day : Supabase.instant "2024-01-01" = Some 1704067200000.
Proof. reflexivity. Qed.

Example instant_of_a_day_end : Supabase.instant "2024-01-31T23:59:59.999Z" = Some 1706745599999.
Proof. reflexivity. Qed.

Example instant_of_garbage : Supabase.instant "01/02/2024" = None.
Proof. reflexivity. Qed.

Example set_keeps_insertion_order :
  JsSet.delete "a" (JsSet.add "c" (JsSet.add "b" (JsSet.add "a" (JsSet.add "a" JsSet.empty))))
  = ["b"; "c"].
Proof. reflexivity. Qed.

Example ceil_div_values :
  Types.ceil_div 12 5 = 3 ∧ Types.ceil_div 10 5 = 2 ∧ Types.ceil_div 0 5 = 0
  ∧ Types.ceil_div 1 6 = 1.
Proof. repeat split. Qed.

Example search_query_text :
  let engine := sample_engine in
  Supabase.filters (PI.searchQuery "AcMe")
  = [Supabase.Or "name.ilike.%acme%,customer_code.ilike.%acme%"]
  ∧ Supabase.cap (PI.searchQuery "AcMe") = Some 10%nat.
Proof. split; reflexivity. Qed.

Example ilike_matches_either_column :
  let engine := sample_engine in
  let row := [("name", Supabase.JStr "ACME Market"); ("customer_code", Supabase.JStr "K-17")] in
  Supabase.satisfies (Supabase.filters (PI.searchQuery "acme")) row = true
  ∧ Supabase.satisfies (Supabase.filters (PI.searchQuery "k-1")) row = true
  ∧ Supabase.satisfies (Supabase.filters (PI.searchQuery "zz")) row = false.
Proof. vm_compute. repeat split. Qed.

(** Typing quickly sends one query, for the last text. *)
Example debounce_coalesces :
  let engine := sample_engine in
  PI.sent (PI.run [PI.Typed "a"; PI.Elapsed 100; PI.Typed "ac"; PI.Elapsed 100;
                   PI.Typed "acm"; PI.Elapsed 300])
  = [Supabase.Select (PI.searchQuery "acm")].
Proof. reflexivity. Qed.

(** Scenario 9 of the spec: "abc" typed, then cleared within the quiet
  period. *)
Example typed_then_cleared :
  let engine := sample_engine in
  let s := PI.run [PI.Typed "abc"; PI.Elapsed 200; PI.Typed ""; PI.Elapsed 1000] in
  PI.sent s = [] ∧ PI.filteredCustomers (PI.ui s) = [].
Proof. split; reflexivity. Qed.

(** The last page of the twelve stored analyses holds the two oldest. *)
Example last_page_of_sample :
  let w := fst (Async.set (CPAR.setCurrentPage (λ _, 3)) (Async.world CPAR.initial)) in
  let w' := fst (CPAR.loadEffect sample_viewer (Supabase.remote_of sample_up) w) in
  map (Supabase.get "id") (CPAR.reports (Async.view w')) = [Some "a02"; Some "a01"]
  ∧ length (Async.sent w') = 2%nat.
Proof. vm_compute. split; reflexivity. Qed.

(** A product facet that two analyses satisfy: three calls, two rows. *)
Example product_facet_of_sample :
  let f := CPAR.assign (CPAR.ProductIds ["p1"]) CPAR.initialFilters in
  let w' := fst (CPAR.fetchReports sample_viewer (Supabase.remote_of sample_up) 1 f
                   (Async.world CPAR.initial)) in
  map (Supabase.get "id") (CPAR.reports (Async.view w')) = [Some "a07"; Some "a03"]
  ∧ CPAR.totalCount (Async.view w') = 2
  ∧ length (Async.sent w') = 3%nat.
Proof. vm_compute. repeat split. Qed.

(** ** Membership facets *)

Section SetFacts.

Implicit Types (x y : string) (s : JsSet.t).

Lemma has_true x s : JsSet.has x s = true ↔ x ∈ s.
Proof. unfold JsSet.has. apply bool_decide_eq_true. Qed.

Lemma has_false x s : JsSet.has x s = false ↔ x ∉ s.
Proof. unfold JsSet.has. apply bool_decide_eq_false. Qed.

Lemma elem_of_delete x y s : y ∈ JsSet.delete x s ↔ y ∈ s ∧ y ≠ x.
Proof. unfold JsSet.delete. rewrite list_elem_of_filter. tauto. Qed.

Lemma elem_of_add x y s : y ∈ JsSet.add x s ↔ y ∈ s ∨ y = x.
Proof.
  unfold JsSet.add. destruct (JsSet.has x s) eqn:E.
  - apply has_true in E. split; [tauto | intros [? | ->]; done].
  - rewrite elem_of_app, list_elem_of_singleton. tauto.
Qed.

Lemma delete_absent x s : x ∉ s → JsSet.delete x s = s.
Proof.
  intros Hx. unfold JsSet.delete. induction s as [| a s IH]; [done |].
  apply not_elem_of_cons in Hx as [Hne Hs].
  rewrite filter_cons_True by congruence. by rewrite IH.
Qed.

Lemma NoDup_delete x s : NoDup s → NoDup (JsSet.delete x s).
Proof. apply NoDup_filter. Qed.

Lemma NoDup_add x s : NoDup s → NoDup (JsSet.add x s).
Proof.
  intros Hs. unfold JsSet.add. destruct (JsSet.has x s) eqn:E; [done |].
  apply has_false in E. apply NoDup_app. split_and!; [done | | apply NoDup_singleton].
  intros y Hy ->%list_elem_of_singleton. done.
Qed.

(** Deleting a member and adding it back moves it to the end. *)
Lemma delete_then_add x s :
  NoDup s → x ∈ s → JsSet.add x (JsSet.delete x s) ≡ₚ s.
Proof.
  intros Hs Hx.
  assert (Hout : JsSet.has x (JsSet.delete x s) = false).
  { apply has_false. rewrite elem_of_delete. tauto. }
  unfold JsSet.add. rewrite Hout. clear Hout. unfold JsSet.delete.
  induction Hs as [| a s Ha Hs IH].
  - by apply elem_of_nil in Hx.
  - destruct (decide (a = x)) as [-> | Hne].
    + rewrite filter_cons_False by tauto.
      fold (JsSet.delete x s). rewrite delete_absent by done.
      symmetry. apply Permutation_cons_append.
    + rewrite filter_cons_True by done. simpl. f_equiv. apply IH.
      apply elem_of_cons in Hx as [-> | Hx]; [done | exact Hx].
Qed.

(** Adding a new member and deleting it gives the very same list. *)
Lemma add_then_delete x s : x ∉ s → JsSet.delete x (JsSet.add x s) = s.
Proof.
  intros Hx. unfold JsSet.add.
  rewrite (proj2 (has_false x s) Hx).
  pose proof (delete_absent x s Hx) as Hs.
  unfold JsSet.delete in *. rewrite filter_app, Hs.
  rewrite filter_cons_False by tauto. apply app_nil_r.
Qed.

End SetFacts.

Section Toggle.

Implicit Types (id x : string) (s : JsSet.t).

Lemma customer_toggle_facet id (st : PIR.State) :
  PIR.selectedCustomerIds (PIR.handleCustomerToggle id st)
  = toggled id (PIR.selectedCustomerIds st).
Proof. reflexivity. Qed.

Lemma product_toggle_facet id (st : CPAR.State) :
  CPAR.productIds (CPAR.filters (CPAR.handleProductFilterChange id st))
  = toggled id (CPAR.productIds (CPAR.filters st)).
Proof. reflexivity. Qed.

Lemma elem_of_toggled id x s :
  x ∈ toggled id s ↔ (x ≠ id ∧ x ∈ s) ∨ (x = id ∧ id ∉ s).
Proof.
  unfold toggled. destruct (JsSet.has id s) eqn:E.
  - apply has_true in E. rewrite elem_of_delete.
    split; [tauto | intros [[] | [-> ?]]; tauto].
  - apply has_false in E. rewrite elem_of_add.
    destruct (decide (x = id)) as [-> | Hne]; tauto.
Qed.

Lemma NoDup_toggled id s : NoDup s → NoDup (toggled id s).
Proof.
  intros Hs. unfold toggled.
  destruct (JsSet.has id s); [by apply NoDup_delete | by apply NoDup_add].
Qed.

Lemma toggled_twice id s : NoDup s → toggled id (toggled id s) ≡ₚ s.
Proof.
  intros Hs. unfold toggled at 2. destruct (JsSet.has id s) eqn:E.
  - apply has_true in E. unfold toggled.
    replace (JsSet.has id (JsSet.delete id s)) with false.
    + by apply delete_then_add.
    + symmetry. apply has_false. rewrite elem_of_delete. tauto.
  - apply has_false in E. unfold toggled.
    replace (JsSet.has id (JsSet.add id s)) with true.
    + by rewrite add_then_delete.
    + symmetry. apply has_true. rewrite elem_of_add. tauto.
Qed.

(** Toggling twice never changes who is a member, duplicates or not. *)
Lemma toggled_twice_members id x s : x ∈ toggled id (toggled id s) ↔ x ∈ s.
Proof.
  rewrite !elem_of_toggled.
  destruct (decide (x = id)) as [-> | Hne]; [| tauto].
  destruct (decide (id ∈ s)); tauto.
Qed.

End Toggle.

(** C10.  Toggling an identifier twice gives back the membership facet it
  started from, in both report views: one application puts [id] in
  exactly when it was absent, leaves every other member alone and keeps the
  set free of repetitions; the second application yields a set with the
  same members, each once (a member taken out and put back moves to the
  end of the insertion order).  [id] is any string, the empty one of the
  placeholder option included. *)
Theorem toggle_twice_restores_facet (id : string) (p : PIR.State) (c : CPAR.State)
  (Hp : NoDup (PIR.selectedCustomerIds p))
  (Hc : NoDup (CPAR.productIds (CPAR.filters c))) :
  let p1 := PIR.handleCustomerToggle id p in
  let p2 := PIR.handleCustomerToggle id p1 in
  let c1 := CPAR.handleProductFilterChange id c in
  let c2 := CPAR.handleProductFilterChange id c1 in
  ((id ∈ PIR.selectedCustomerIds p1 ↔ id ∉ PIR.selectedCustomerIds p)
   ∧ (∀ x, x ≠ id → x ∈ PIR.selectedCustomerIds p1 ↔ x ∈ PIR.selectedCustomerIds p)
   ∧ NoDup (PIR.selectedCustomerIds p1)
   ∧ PIR.selectedCustomerIds p2 ≡ₚ PIR.selectedCustomerIds p
   ∧ (∀ x, x ∈ PIR.selectedCustomerIds p2 ↔ x ∈ PIR.selectedCustomerIds p))
  ∧ ((id ∈ CPAR.productIds (CPAR.filters c1) ↔ id ∉ CPAR.productIds (CPAR.filters c))
     ∧ (∀ x, x ≠ id →
          x ∈ CPAR.productIds (CPAR.filters c1) ↔ x ∈ CPAR.productIds (CPAR.filters c))
     ∧ NoDup (CPAR.productIds (CPAR.filters c1))
     ∧ CPAR.productIds (CPAR.filters c2) ≡ₚ CPAR.productIds (CPAR.filters c)
     ∧ (∀ x, x ∈ CPAR.productIds (CPAR.filters c2) ↔ x ∈ CPAR.productIds (CPAR.filters c))).
Proof.
  intros p1 p2 c1 c2. subst p1 p2 c1 c2.
  rewrite !customer_toggle_facet, !product_toggle_facet.
  split.
  - split_and!.
    + rewrite elem_of_toggled. tauto.
    + intros x Hx. rewrite elem_of_toggled. tauto.
    + by apply NoDup_toggled.
    + by apply toggled_twice.
    + intros x. apply toggled_twice_members.
  - split_and!.
    + rewrite elem_of_toggled. tauto.
    + intros x Hx. rewrite elem_of_toggled. tauto.
    + by apply NoDup_toggled.
    + by apply toggled_twice.
    + intros x. apply toggled_twice_members.
Qed.

(** The placeholder's empty identifier, toggled on a customer facet holding
  one customer and on a product facet already holding it. *)
Lemma toggle_twice_restores_facet_witness :
  let p := PIR.setSelectedCustomerIds ["c1"] PIR.initial in
  let c := CPAR.setFilters (CPAR.assign (CPAR.ProductIds [""; "p1"])) CPAR.initial in
  PIR.selectedCustomerIds (PIR.handleCustomerToggle "" (PIR.handleCustomerToggle "" p))
    ≡ₚ ["c1"]
  ∧ CPAR.productIds (CPAR.filters
      (CPAR.handleProductFilterChange "" (CPAR.handleProductFilterChange "" c)))
    ≡ₚ [""; "p1"].
Proof.
  intros p c.
  assert (Hp : NoDup (PIR.selectedCustomerIds p)) by (apply (bool_decide_unpack _); vm_compute; reflexivity).
  assert (Hc : NoDup (CPAR.productIds (CPAR.filters c))) by (apply (bool_decide_unpack _); vm_compute; reflexivity).
  pose proof (toggle_twice_restores_facet "" p c Hp Hc) as H.
  split; [apply H | apply H].
Defined.

(** ** Facets and the page cursor *)

(** C5.  In both report views every action on a facet (either date bound,
  the customer selection or toggle, the product toggle, the reset) leaves
  the page cursor at 1, and the two page buttons leave every facet as it
  was. *)
Theorem facet_change_resets_cursor_paging_keeps_facets :
  (∀ (a : PIR.Action) (s : PIR.State),
     if PIR.mutates_facet a
     then PIR.currentPage (PIR.dispatch a s) = 1
     else PIR.facets (PIR.dispatch a s) = PIR.facets s)
  ∧ (∀ (a : CPAR.Action) (s : CPAR.State),
       if CPAR.mutates_facet a
       then CPAR.currentPage (CPAR.dispatch a s) = 1
       else CPAR.filters (CPAR.dispatch a s) = CPAR.filters s).
Proof.
  split; intros a s; destruct a; reflexivity.
Qed.

(** The facet actions, one by one, for the record. *)
Lemma facet_actions_reset_cursor (v id : string) (p : PIR.State) (c : CPAR.State) :
  PIR.currentPage (PIR.dispatch (PIR.ChangeStartDate v) p) = 1
  ∧ PIR.currentPage (PIR.dispatch (PIR.ChangeEndDate v) p) = 1
  ∧ PIR.currentPage (PIR.handleCustomerToggle id p) = 1
  ∧ PIR.currentPage (PIR.handleResetFilters p) = 1
  ∧ CPAR.currentPage (CPAR.handleFilterChange (CPAR.StartDate v) c) = 1
  ∧ CPAR.currentPage (CPAR.handleFilterChange (CPAR.EndDate v) c) = 1
  ∧ CPAR.currentPage (CPAR.handleFilterChange (CPAR.CustomerId v) c) = 1
  ∧ CPAR.currentPage (CPAR.handleProductFilterChange id c) = 1
  ∧ CPAR.currentPage (CPAR.handleResetFilters c) = 1.
Proof. repeat split. Qed.

(** ** Page arithmetic and the pager *)

Section Paging.

Lemma ceil_div_bounds (a b : Z) :
  0 < b → (Types.ceil_div a b - 1) * b < a ≤ Types.ceil_div a b * b.
Proof.
  intros Hb. unfold Types.ceil_div.
  pose proof (Z.div_mod (- a) b ltac:(lia)) as Hdm.
  pose proof (Z.mod_pos_bound (- a) b Hb) as Hm.
  nia.
Qed.

(** [ceil_div a b] is the only integer in that position: it is the
  ceiling of the exact quotient. *)
Lemma ceil_div_unique (a b n : Z) :
  0 < b → (n - 1) * b < a ≤ n * b → n = Types.ceil_div a b.
Proof.
  intros Hb Hn. pose proof (ceil_div_bounds a b Hb) as Hc. nia.
Qed.

(** How a pager reads against a page cursor and a number of pages. *)
Lemma pager_reads (page pages : Z) :
  let pager := if 1 <? pages
               then Some {| Types.page_shown := page; Types.pages_shown := pages;
                            Types.previous_disabled := page =? 1;
                            Types.next_disabled := page =? pages |}
               else None in
  (pager = None ↔ pages ≤ 1)
  ∧ ∀ pg, pager = Some pg →
      Types.page_shown pg = page
      ∧ Types.pages_shown pg = pages
      ∧ (Types.previous_disabled pg = true ↔ page = 1)
      ∧ (Types.next_disabled pg = true ↔ page = pages).
Proof.
  cbn zeta. destruct (1 <? pages) eqn:E.
  - apply Z.ltb_lt in E. split; [split; [done | lia] |].
    intros pg [= <-]. cbn. rewrite !Z.eqb_eq. done.
  - apply Z.ltb_ge in E. split; [done | done].
Qed.

Lemma pir_pager (perm : option Types.AppPermission) (s : PIR.State) :
  Types.may_view perm = true → PIR.loading s = false →
  (PIR.inserts s = [] → PIR.render perm s = Some Types.NoResults)
  ∧ (PIR.inserts s ≠ [] →
       ∃ pager, PIR.render perm s = Some (Types.Cards (PIR.inserts s) pager)
         ∧ (pager = None ↔ PIR.totalPages s ≤ 1)
         ∧ ∀ pg, pager = Some pg →
             Types.page_shown pg = PIR.currentPage s
             ∧ Types.pages_shown pg = PIR.totalPages s
             ∧ (Types.previous_disabled pg = true ↔ PIR.currentPage s = 1)
             ∧ (Types.next_disabled pg = true ↔ PIR.currentPage s = PIR.totalPages s)).
Proof.
  intros Hview Hloaded. unfold PIR.render. rewrite Hview, Hloaded. cbn [negb].
  split.
  - by intros ->.
  - intros Hrows. destruct (PIR.inserts s) as [| r rows] eqn:E; [done |].
    cbn [length Nat.eqb]. eexists. split; [reflexivity |].
    apply pager_reads.
Qed.

Lemma cpar_pager (perm : option Types.AppPermission) (s : CPAR.State) :
  Types.may_view perm = true → CPAR.loading s = false →
  (CPAR.reports s = [] → CPAR.render perm s = Some Types.NoResults)
  ∧ (CPAR.reports s ≠ [] →
       ∃ pager, CPAR.render perm s = Some (Types.Cards (CPAR.reports s) pager)
         ∧ (pager = None ↔ CPAR.totalPages s ≤ 1)
         ∧ ∀ pg, pager = Some pg →
             Types.page_shown pg = CPAR.currentPage s
             ∧ Types.pages_shown pg = CPAR.totalPages s
             ∧ (Types.previous_disabled pg = true ↔ CPAR.currentPage s = 1)
             ∧ (Types.next_disabled pg = true ↔ CPAR.currentPage s = CPAR.totalPages s)).
Proof.
  intros Hview Hloaded. unfold CPAR.render. rewrite Hview, Hloaded. cbn [negb].
  split.
  - by intros ->.
  - intros Hrows. destruct (CPAR.reports s) as [| r rows] eqn:E; [done |].
    cbn [length Nat.eqb]. eexists. split; [reflexivity |].
    apply pager_reads.
Qed.

Lemma pir_window (s : PIR.State) :
  Supabase.window (PIR.insertsQuery s)
  = Some ((PIR.currentPage s - 1) * PIR.ITEMS_PER_PAGE,
          PIR.currentPage s * PIR.ITEMS_PER_PAGE - 1).
Proof.
  unfold PIR.insertsQuery. simpl. f_equal. f_equal. unfold PIR.ITEMS_PER_PAGE. lia.
Qed.

Lemma cpar_window (page : Z) (idData : list Supabase.Row) :
  Supabase.window (CPAR.detailQuery page idData)
  = Some ((page - 1) * CPAR.ITEMS_PER_PAGE, page * CPAR.ITEMS_PER_PAGE - 1).
Proof.
  unfold CPAR.detailQuery. simpl. f_equal. f_equal. unfold CPAR.ITEMS_PER_PAGE. lia.
Qed.

End Paging.

(** ** The in-flight flag and the permission gate *)

Section Lifecycle.

Import Async.

Context {S : Type}.

(** Whatever the body and the handler do, the state after a
  [try/catch/finally] whose [finally] is one setter is an image of that
  setter, and no error escapes when the handler raises none. *)
Lemma finally_runs {A} (body : M S A) (handler : Supabase.Error → M S A)
    (f : S → S) (w : World S) :
  ∃ s, view (fst (try_catch_finally body handler (set f) w)) = f s.
Proof.
  unfold try_catch_finally.
  destruct (body w) as [w1 [e | x]]; simpl.
  - destruct (handler e w1) as [w2 r2]. simpl. by eexists.
  - by eexists.
Qed.

Lemma bind_set {A} (f : S → S) (k : unit → M S A) (w : World S) :
  (set f ≫= k) w = k tt (fst (set f w)).
Proof. reflexivity. Qed.

Lemma bind_read {A} (k : S → M S A) (w : World S) :
  (read ≫= k) w = k (view w) w.
Proof. reflexivity. Qed.

Lemma bind_ret {A B} (x : A) (k : A → M S B) (w : World S) :
  (mret x ≫= k) w = k x w.
Proof. reflexivity. Qed.

Lemma caught_by_notification (body : M S unit) (msg : Supabase.Error → string)
    (kind : string) (f : S → S) (w : World S) :
  snd (try_catch_finally body (λ e, showNotification (msg e) kind) (set f) w) = inr tt.
Proof.
  unfold try_catch_finally.
  destruct (body w) as [w1 [e | []]]; reflexivity.
Qed.

End Lifecycle.

(** C8.  Every run of the two report loaders ends with [loading] false and
  every run of [handleSave] that raised [isSaving] ends with it false,
  whatever the remote calls answer, error responses and rejections
  included: the flag is cleared in the [finally] block.  A run of
  [handleSave] stopped by a guard returns before raising the flag and
  leaves it as it was, so a run started with the flag down (the Save
  button is disabled while it is up) always ends with it down.  No run
  ends by an escaped error. *)
Theorem in_flight_flag_always_cleared
  {engine : Js.Engine} {network : Async.Network}
  (perm : option Types.AppPermission) (remote : Supabase.Remote) :
  (∀ w, PIR.loading (Async.view (fst (PIR.fetchInserts perm remote w))) = false
        ∧ snd (PIR.fetchInserts perm remote w) = inr tt)
  ∧ (∀ page currentFilters w,
       CPAR.loading (Async.view (fst (CPAR.fetchReports perm remote page currentFilters w)))
       = false
       ∧ snd (CPAR.fetchReports perm remote page currentFilters w) = inr tt)
  ∧ (∀ t profile_id uuidv4 getPublicUrl w,
       let run := PI.handleSave t profile_id uuidv4 getPublicUrl perm remote w in
       PI.isSaving (Async.view (fst run))
       = (if save_starts perm (Async.view w) then false else PI.isSaving (Async.view w))
       ∧ (PI.isSaving (Async.view w) = false → PI.isSaving (Async.view (fst run)) = false)
       ∧ snd run = inr tt).
Proof.
  split_and!.
  - intros w. unfold PIR.fetchInserts.
    destruct (negb (Types.may_view perm)); [by split |].
    rewrite bind_set. split.
    + match goal with
      | |- context [Async.try_catch_finally ?b ?h (Async.set ?f) ?w0] =>
          destruct (finally_runs b h f w0) as [s ->]
      end. reflexivity.
    + apply caught_by_notification.
  - intros page currentFilters w. unfold CPAR.fetchReports.
    destruct (negb (Types.may_view perm)); [by split |].
    rewrite bind_set. split.
    + match goal with
      | |- context [Async.try_catch_finally ?b ?h (Async.set ?f) ?w0] =>
          destruct (finally_runs b h f w0) as [s ->]
      end. reflexivity.
    + apply caught_by_notification.
  - intros t profile_id uuidv4 getPublicUrl w run. subst run.
    unfold PI.handleSave, save_starts. rewrite bind_read.
    destruct (Types.may_create perm); cbn [negb andb]; [| by split_and!].
    destruct (PI.fieldsMissing (Async.view w)); cbn [negb andb]; [by split_and! |].
    destruct (Js.date_gt _ _); cbn [negb andb]; [by split_and! |].
    rewrite bind_set.
    match goal with
    | |- context [Async.try_catch_finally ?b ?h (Async.set ?f) ?w0] =>
        destruct (finally_runs b h f w0) as [s Hs]
    end.
    split_and!.
    + rewrite Hs. reflexivity.
    + intros _. rewrite Hs. reflexivity.
    + apply caught_by_notification.
Qed.

(** C9.  A loader whose page permission is absent or has [can_view] false
  sends no remote call and leaves [loading] false, touching nothing else;
  [handleSave] without [can_create] does nothing at all: no upload, no
  insert, no notification, no state change. *)
Theorem permission_gate_sends_nothing
  {engine : Js.Engine} {network : Async.Network}
  (insertsPermission reportsPermission formPermission : option Types.AppPermission)
  (remote : Supabase.Remote)
  (Hinserts : Types.may_view insertsPermission = false)
  (Hreports : Types.may_view reportsPermission = false)
  (Hform : Types.may_create formPermission = false) :
  (∀ w, let w' := fst (PIR.fetchInserts insertsPermission remote w) in
        Async.sent w' = Async.sent w
        ∧ Async.view w' = PIR.setLoading false (Async.view w)
        ∧ PIR.loading (Async.view w') = false)
  ∧ (∀ page currentFilters w,
       let w' := fst (CPAR.fetchReports reportsPermission remote page currentFilters w) in
       Async.sent w' = Async.sent w
       ∧ Async.view w' = CPAR.setLoading false (Async.view w)
       ∧ CPAR.loading (Async.view w') = false)
  ∧ (∀ t profile_id uuidv4 getPublicUrl w,
       PI.handleSave t profile_id uuidv4 getPublicUrl formPermission remote w
       = (w, inr tt)).
Proof.
  split_and!.
  - intros w. unfold PIR.fetchInserts. rewrite Hinserts. by split_and!.
  - intros page currentFilters w. unfold CPAR.fetchReports. rewrite Hreports.
    by split_and!.
  - intros t profile_id uuidv4 getPublicUrl w.
    unfold PI.handleSave. rewrite bind_read, Hform. reflexivity.
Qed.

(** No record for the insert report, a record without [can_view] for the
  competitor report, a record with [can_view] but without [can_create] for
  the form; the remote would answer every call. *)
Lemma permission_gate_sends_nothing_witness :
  let engine := sample_engine in
  let network := sample_network in
  let viewer := {| Types.page_name := "Product Insert"; Types.can_view := true;
                   Types.can_create := false; Types.can_edit := false;
                   Types.can_delete := false; Types.can_navigate := true;
                   Types.can_export := false |} in
  let nobody := {| Types.page_name := "Competitor Price Analysis Report";
                   Types.can_view := false; Types.can_create := true;
                   Types.can_edit := true; Types.can_delete := true;
                   Types.can_navigate := true; Types.can_export := true |} in
  let remote := λ _ : Supabase.Request, Supabase.Fulfilled Supabase.no_content in
  Async.sent (fst (PIR.fetchInserts None remote (Async.world PIR.initial))) = []
  ∧ Async.sent (fst (CPAR.fetchReports (Some nobody) remote 1 CPAR.initialFilters
                       (Async.world CPAR.initial))) = []
  ∧ PI.handleSave id None (λ _, "u") id (Some viewer) remote (Async.world PI.initial)
    = (Async.world PI.initial, inr tt).
Proof.
  intros engine network viewer nobody remote.
  pose proof (permission_gate_sends_nothing None (Some nobody) (Some viewer) remote
                eq_refl eq_refl eq_refl) as (H1 & H2 & H3).
  split_and!.
  - apply (H1 (Async.world PIR.initial)).
  - apply (H2 1 CPAR.initialFilters (Async.world CPAR.initial)).
  - apply H3.
Defined.

(** ** The debounced search *)

Section Search.

Import ProductInsert.

Context {engine : Js.Engine}.

Implicit Types (s : Session) (tm : Timer) (e : Event).

Lemma fire_all_fields (ready : list Timer) s :
  let s' := fold_left (λ acc tm, fire tm acc) ready s in
  sent s' = sent s ++ map request_of ready
  ∧ ui s' = ui s ∧ timers s' = timers s ∧ clock s' = clock s
  ∧ debounceTimeout s' = debounceTimeout s ∧ next_timer s' = next_timer s
  ∧ console s' = console s.
Proof.
  revert s. induction ready as [| tm ready IH]; intros s; simpl.
  - rewrite app_nil_r. done.
  - destruct (IH (fire tm s)) as (H1 & H2 & H3 & H4 & H5 & H6 & H7).
    rewrite H1, H2, H3, H4, H5, H6, H7. simpl.
    rewrite <- app_assoc. done.
Qed.

Lemma advance_sent (ms : nat) s :
  sent (advance ms s)
  = sent s ++ map request_of (List.filter (is_due (clock s + ms)) (timers s)).
Proof. unfold advance. by rewrite (proj1 (fire_all_fields _ _)). Qed.

Lemma advance_timers (ms : nat) s :
  timers (advance ms s)
  = List.filter (λ tm, negb (is_due (clock s + ms) tm)) (timers s).
Proof.
  unfold advance.
  destruct (fire_all_fields (List.filter (is_due (clock s + ms)) (timers s))
    {| ui := ui s; clock := (clock s + ms)%nat;
       timers := List.filter (λ tm, negb (is_due (clock s + ms) tm)) (timers s);
       next_timer := next_timer s; debounceTimeout := debounceTimeout s;
       in_flight := in_flight s; next_request := next_request s;
       sent := sent s; console := console s |}) as (_ & _ & H & _).
  exact H.
Qed.

Lemma advance_ui (ms : nat) s : ui (advance ms s) = ui s.
Proof. unfold advance. by rewrite (proj1 (proj2 (fire_all_fields _ _))). Qed.

Lemma advance_ref (ms : nat) s :
  debounceTimeout (advance ms s) = debounceTimeout s
  ∧ next_timer (advance ms s) = next_timer s.
Proof.
  unfold advance.
  match goal with
  | |- context [fold_left _ ?r ?s0] =>
      destruct (fire_all_fields r s0) as (_ & _ & _ & _ & H5 & H6 & _)
  end.
  by rewrite H5, H6.
Qed.

Lemma complete_fields (request : nat) (o : Supabase.Outcome) s :
  let s' := complete request o s in
  sent s' = sent s ∧ timers s' = timers s ∧ clock s' = clock s
  ∧ debounceTimeout s' = debounceTimeout s ∧ next_timer s' = next_timer s.
Proof.
  unfold complete. destruct (awaiting request s); [| done].
  destruct o as [r | err]; simpl; [| done].
  destruct (Supabase.error r); done.
Qed.

(** *** The ref names every armed timer *)

Lemma clearPending_empties s : tidy s → timers (clearPending s) = [].
Proof.
  unfold tidy, clearPending. intros Ht.
  destruct (debounceTimeout s) as [id |] eqn:E.
  - simpl. induction Ht as [| tm l [Hid _] _ IH]; [done |].
    simpl. injection Hid as ->. by rewrite Nat.eqb_refl.
  - destruct Ht as [| tm l [Hid _] _]; [done | discriminate].
Qed.

Lemma clearPending_fields s :
  ui (clearPending s) = ui s ∧ clock (clearPending s) = clock s
  ∧ next_timer (clearPending s) = next_timer s ∧ sent (clearPending s) = sent s
  ∧ debounceTimeout (clearPending s) = debounceTimeout s.
Proof.
  unfold clearPending. destruct (debounceTimeout s) eqn:E; simpl; auto.
Qed.

Lemma tidy_no_timers s : timers s = [] → tidy s.
Proof. unfold tidy. intros ->. constructor. Qed.

(** What the effect leaves behind when it runs in a tidy session. *)
Lemma effect_cleanup s :
  tidy s →
  let s' := effect (cleanup s) in
  sent s' = sent s ∧ clock s' = clock s
  ∧ (if Js.truthy (customerSearch (ui s))
     then timers s' = [{| timer_id := next_timer s; due := (clock s + QUIET_PERIOD)%nat;
                          search_text := customerSearch (ui s) |}]
          ∧ debounceTimeout s' = Some (next_timer s)
          ∧ next_timer s' = S (next_timer s)
          ∧ ui s' = ui s
     else timers s' = [] ∧ ui s' = setFilteredCustomers [] (ui s)).
Proof.
  intros Ht. unfold effect, cleanup.
  pose proof (clearPending_empties s Ht) as H0.
  destruct (clearPending_fields s) as (Hu & Hc & Hn & Hs & Hr).
  pose proof (clearPending_empties (clearPending s) (tidy_no_timers _ H0)) as H1.
  destruct (clearPending_fields (clearPending s)) as (Hu' & Hc' & Hn' & Hs' & Hr').
  rewrite Hu', Hu. destruct (Js.truthy (customerSearch (ui s))); simpl.
  - rewrite H1, Hs', Hs, Hc', Hc, Hn', Hn, Hu', Hu. done.
  - rewrite H1, Hs', Hs, Hc', Hc, Hu', Hu. done.
Qed.

Lemma effect_cleanup_tidy s : tidy s → tidy (effect (cleanup s)).
Proof.
  intros Ht. destruct (effect_cleanup s Ht) as (_ & _ & H).
  destruct (Js.truthy (customerSearch (ui s))).
  - destruct H as (Htm & Href & Hnext & _). unfold tidy.
    rewrite Htm, Href, Hnext. repeat constructor.
  - destruct H as [Htm _]. by apply tidy_no_timers.
Qed.

Lemma rerender_tidy (previous : string) s : tidy s → tidy (rerender previous s).
Proof.
  intros Ht. unfold rerender. destruct (String.eqb _ _); [done |].
  by apply effect_cleanup_tidy.
Qed.

Lemma step_tidy s e : tidy s → tidy (step s e).
Proof.
  intros Ht. destruct e as [value | | customer | ms | request o]; simpl.
  - by apply rerender_tidy.
  - exact Ht.
  - by apply rerender_tidy.
  - unfold tidy. rewrite advance_timers.
    destruct (advance_ref ms s) as [-> ->].
    unfold tidy in Ht. rewrite Forall_forall in Ht |- *.
    intros tm [Htm _]%list_elem_of_In%filter_In. apply Ht. by apply list_elem_of_In.
  - unfold tidy.
    destruct (complete_fields request o s) as (_ & -> & _ & -> & ->). exact Ht.
Qed.

Lemma mount_tidy : tidy mount.
Proof. apply tidy_no_timers. reflexivity. Qed.

Lemma run_tidy (events : list Event) : tidy (run events).
Proof.
  unfold run. induction events as [| e events IH] using rev_ind.
  - apply mount_tidy.
  - rewrite fold_left_app. simpl. by apply step_tidy.
Qed.

(** *** Input changes *)

Lemma truthy_spec (v : string) : Js.truthy v = true ↔ v ≠ "".
Proof.
  unfold Js.truthy. destruct (String.eqb_spec v ""); simpl; split; congruence.
Qed.

Lemma onSearchChange_search (value : string) (st : State) :
  customerSearch (onSearchChange value st) = value
  ∧ filteredCustomers (onSearchChange value st) = filteredCustomers st.
Proof. unfold onSearchChange. destruct (Js.truthy value); done. Qed.

Lemma with_ui_tidy (f : State → State) s : tidy s → tidy (with_ui f s).
Proof. done. Qed.

(** A changed search text always goes through cleanup and effect. *)
Lemma typed_changed (value : string) s :
  value ≠ customerSearch (ui s) →
  step s (Typed value) = effect (cleanup (with_ui (onSearchChange value) s)).
Proof.
  intros Hne. simpl. unfold rerender.
  replace (customerSearch (ui (with_ui (onSearchChange value) s))) with value
    by (symmetry; apply onSearchChange_search).
  destruct (String.eqb_spec value (customerSearch (ui s))); [done | reflexivity].
Qed.

(** Between two changes of the search text, only armed timers send. *)
Lemma passive_step_sends_armed s e :
  passive e = true →
  ∃ extra, sent (step s e) = sent s ++ extra
           ∧ (∀ r, r ∈ extra → ∃ tm, tm ∈ timers s ∧ r = request_of tm)
           ∧ (∀ tm, tm ∈ timers (step s e) → tm ∈ timers s).
Proof.
  destruct e as [value | | customer | ms | request o]; simpl; try done; intros _.
  - exists []. rewrite app_nil_r. split_and!; [done | | done].
    intros r Hr. by apply elem_of_nil in Hr.
  - exists (map request_of (List.filter (is_due (clock s + ms)) (timers s))).
    split_and!.
    + apply advance_sent.
    + intros r (tm & -> & Htm)%list_elem_of_fmap.
      exists tm. split; [| done].
      apply list_elem_of_In in Htm. apply filter_In in Htm as [Htm _].
      by apply list_elem_of_In.
    + intros tm. rewrite advance_timers. intros Htm.
      apply list_elem_of_In in Htm. apply filter_In in Htm as [Htm _].
      by apply list_elem_of_In.
  - destruct (complete_fields request o s) as (-> & -> & _).
    exists []. rewrite app_nil_r. split_and!; [done | | done].
    intros r Hr. by apply elem_of_nil in Hr.
Qed.

Lemma passive_run_sends_armed (later : list Event) s :
  forallb passive later = true →
  ∃ extra, sent (fold_left step later s) = sent s ++ extra
           ∧ ∀ r, r ∈ extra → ∃ tm, tm ∈ timers s ∧ r = request_of tm.
Proof.
  revert s. induction later as [| e later IH]; intros s Hp; simpl.
  - exists []. rewrite app_nil_r. split; [done |].
    intros r Hr. by apply elem_of_nil in Hr.
  - simpl in Hp. apply andb_prop in Hp as [He Hl].
    destruct (passive_step_sends_armed s e He) as (x1 & Hs1 & Hx1 & Ht1).
    destruct (IH (step s e) Hl) as (x2 & Hs2 & Hx2).
    exists (x1 ++ x2). rewrite Hs2, Hs1, <- app_assoc. split; [done |].
    intros r [Hr | Hr]%elem_of_app.
    + by apply Hx1.
    + destruct (Hx2 r Hr) as (tm & Htm & ->). exists tm. split; [by apply Ht1 | done].
Qed.

Lemma passive_run_no_timers (later : list Event) s :
  timers s = [] → forallb passive later = true →
  sent (fold_left step later s) = sent s.
Proof.
  intros Hnone Hp.
  destruct (passive_run_sends_armed later s Hp) as (extra & -> & Hx).
  destruct extra as [| r extra]; [apply app_nil_r |].
  destruct (Hx r) as (tm & Htm & _); [left |].
  rewrite Hnone in Htm. by apply elem_of_nil in Htm.
Qed.

(** What one change of the search text does to a session that was reached
  from the mount. *)
Lemma input_change_facts (events : list Event) (value : string) :
  value ≠ customerSearch (ui (run events)) →
  let s := run events in
  let s' := step s (Typed value) in
  sent s' = sent s
  ∧ clock s' = clock s
  ∧ (∀ tm, tm ∈ timers s → tm ∉ timers s')
  ∧ (if Js.truthy value
     then timers s' = [{| timer_id := next_timer s; due := (clock s + QUIET_PERIOD)%nat;
                          search_text := value |}]
     else timers s' = [] ∧ filteredCustomers (ui s') = []).
Proof.
  intros Hchange s s'. subst s'. rewrite (typed_changed value s Hchange).
  pose proof (run_tidy events) as Ht. fold s in Ht.
  pose proof (with_ui_tidy (onSearchChange value) s Ht) as Ht1.
  destruct (effect_cleanup _ Ht1) as (Hsent & Hclock & Hrest).
  simpl in Hsent, Hclock.
  replace (customerSearch (ui (with_ui (onSearchChange value) s)))
    with value in Hrest by (symmetry; apply onSearchChange_search).
  split_and!; [exact Hsent | exact Hclock | |].
  - intros tm Htm Htm'.
    unfold tidy in Ht. rewrite Forall_forall in Ht.
    apply Ht in Htm as [_ Hlt].
    destruct (Js.truthy value).
    + destruct Hrest as (Hnew & _). rewrite Hnew in Htm'.
      apply list_elem_of_singleton in Htm'. subst tm. simpl in Hlt. lia.
    + destruct Hrest as (Hnone & _). rewrite Hnone in Htm'.
      by apply elem_of_nil in Htm'.
  - destruct (Js.truthy value).
    + destruct Hrest as (Hnew & _). exact Hnew.
    + destruct Hrest as (Hnone & Hui). split; [exact Hnone | by rewrite Hui].
Qed.

End Search.

(** C2.  In any session, a change of the search text sends nothing by
  itself and cancels every armed timer.  A non-empty text arms exactly one
  timer, for that text, due one quiet period (300 ms) later: nothing is
  sent before the period is over, and once it is, exactly one request is
  sent, the resolution carrying that text: a selection of every column of
  [customers], at most 10 rows, whose name or customer code holds the
  lower-cased text.  An empty text clears the candidate list at once, arms
  no timer, and nothing is sent afterwards until the text changes again. *)
Theorem input_change_reschedules_or_clears
  {engine : Js.Engine}
  (events : list PI.Event) (value : string)
  (Hchange : value ≠ PI.customerSearch (PI.ui (PI.run events))) :
  let s := PI.run events in
  let s' := PI.step s (PI.Typed value) in
  let lowercased := Js.toLowerCase value in
  let resolution :=
    Supabase.Select
      {| Supabase.table := "customers";
         Supabase.columns := "*";
         Supabase.exact_count := false;
         Supabase.filters :=
           [Supabase.Or ("name.ilike.%" +:+ lowercased
                         +:+ "%,customer_code.ilike.%" +:+ lowercased +:+ "%")];
         Supabase.ordering := None;
         Supabase.window := None;
         Supabase.cap := Some 10%nat |} in
  PI.sent s' = PI.sent s
  ∧ PI.QUIET_PERIOD = 300%nat
  ∧ (∀ tm, tm ∈ PI.timers s → tm ∉ PI.timers s')
  ∧ (if Js.truthy value
     then PI.timers s' = [{| PI.timer_id := PI.next_timer s;
                             PI.due := (PI.clock s + 300)%nat;
                             PI.search_text := value |}]
          ∧ (∀ ms, (ms < 300)%nat →
               PI.sent (PI.step s' (PI.Elapsed ms)) = PI.sent s
               ∧ PI.timers (PI.step s' (PI.Elapsed ms)) = PI.timers s')
          ∧ (∀ ms, (300 ≤ ms)%nat →
               PI.sent (PI.step s' (PI.Elapsed ms)) = PI.sent s ++ [resolution]
               ∧ PI.timers (PI.step s' (PI.Elapsed ms)) = [])
     else PI.filteredCustomers (PI.ui s') = []
          ∧ PI.timers s' = []
          ∧ (∀ later, forallb PI.passive later = true →
               PI.sent (fold_left PI.step later s') = PI.sent s)).
Proof.
  intros s s' lowercased resolution.
  destruct (input_change_facts events value Hchange) as (Hsent & Hclock & Hgone & Hnew).
  fold s in Hsent, Hclock, Hgone, Hnew. fold s' in Hsent, Hclock, Hgone, Hnew.
  split_and!; [exact Hsent | reflexivity | exact Hgone |].
  destruct (Js.truthy value).
  - split_and!; [exact Hnew | |].
    + intros ms Hms. simpl. rewrite advance_sent, advance_timers, Hnew, Hsent, Hclock.
      unfold PI.is_due. simpl.
      replace (PI.clock s + PI.QUIET_PERIOD <=? PI.clock s + ms)%nat with false
        by (symmetry; apply Nat.leb_gt; unfold PI.QUIET_PERIOD; lia).
      simpl. by rewrite app_nil_r.
    + intros ms Hms. simpl. rewrite advance_sent, advance_timers, Hnew, Hsent, Hclock.
      unfold PI.is_due. simpl.
      replace (PI.clock s + PI.QUIET_PERIOD <=? PI.clock s + ms)%nat with true
        by (symmetry; apply Nat.leb_le; unfold PI.QUIET_PERIOD; lia).
      done.
  - destruct Hnew as (Hnone & Hui). split_and!; [exact Hui | exact Hnone |].
    intros later Hp. rewrite (passive_run_no_timers later _ Hnone Hp). exact Hsent.
Qed.

(** The user has typed "a" and, 100 ms later, types "Ab": the timer for
  "a" is cancelled and 300 ms later the one request sent asks for "ab".
  In the other session "ac" was typed and its request sent; the text is
  then deleted. *)
Lemma input_change_reschedules_or_clears_witness :
  let engine := sample_engine in
  let s := PI.run [PI.Typed "a"; PI.Elapsed 100] in
  let s' := PI.step s (PI.Typed "Ab") in
  let t := PI.run [PI.Typed "ac"; PI.Elapsed 300] in
  (PI.timers s = [{| PI.timer_id := 1; PI.due := 300; PI.search_text := "a" |}]
   ∧ PI.timers s' = [{| PI.timer_id := 2; PI.due := 400; PI.search_text := "Ab" |}]
   ∧ PI.sent (PI.step s' (PI.Elapsed 299)) = []
   ∧ PI.sent (PI.step s' (PI.Elapsed 300))
     = [Supabase.Select
          {| Supabase.table := "customers";
             Supabase.columns := "*";
             Supabase.exact_count := false;
             Supabase.filters :=
               [Supabase.Or "name.ilike.%ab%,customer_code.ilike.%ab%"];
             Supabase.ordering := None;
             Supabase.window := None;
             Supabase.cap := Some 10%nat |}])
  ∧ (PI.filteredCustomers (PI.ui (PI.step t (PI.Typed ""))) = []
     ∧ PI.timers (PI.step t (PI.Typed "")) = []
     ∧ PI.sent (PI.step t (PI.Typed "")) = PI.sent t).
Proof.
  intros engine s s' t. split.
  - assert (Hchange : "Ab" ≠ PI.customerSearch (PI.ui (PI.run [PI.Typed "a"; PI.Elapsed 100])))
      by (vm_compute; discriminate).
    pose proof (input_change_reschedules_or_clears [PI.Typed "a"; PI.Elapsed 100] "Ab" Hchange)
      as (_ & _ & _ & Harmed).
    cbn zeta in Harmed.
    change (Js.truthy "Ab") with true in Harmed. cbn iota in Harmed.
    destruct Harmed as (Htimers & Hearly & Hlate).
    split_and!.
    + reflexivity.
    + exact Htimers.
    + apply (Hearly 299%nat). lia.
    + apply (Hlate 300%nat). lia.
  - assert (Hchange : "" ≠ PI.customerSearch (PI.ui (PI.run [PI.Typed "ac"; PI.Elapsed 300])))
      by (vm_compute; discriminate).
    pose proof (input_change_reschedules_or_clears [PI.Typed "ac"; PI.Elapsed 300] "" Hchange)
      as (Hsent & _ & _ & Hclear).
    simpl in Hclear. destruct Hclear as (Hnone & Htimers & _).
    split_and!; [exact Hnone | exact Htimers | exact Hsent].
Defined.

(** C6.  A search request that comes back with an error changes nothing
  the form shows: the candidate list (and every other piece of component
  state) is what it was, and the error goes to the console.  A rejected
  request changes nothing either. *)
Theorem failed_search_keeps_results
  {engine : Js.Engine}
  (s : PI.Session) (request : nat) (e : Supabase.Error)
  (d : option (list Supabase.Row)) (c : option Z) :
  let failure :=
    Supabase.Fulfilled {| Supabase.data := d; Supabase.error := Some e; Supabase.count := c |} in
  let s' := PI.step s (PI.Completed request failure) in
  PI.filteredCustomers (PI.ui s') = PI.filteredCustomers (PI.ui s)
  ∧ PI.ui s' = PI.ui s
  ∧ PI.console s'
    = (if PI.awaiting request s
       then PI.console s ++ ["Customer search error: " +:+ Supabase.message e]
       else PI.console s)
  ∧ PI.ui (PI.step s (PI.Completed request (Supabase.Rejected e))) = PI.ui s.
Proof.
  intros failure s'. subst failure s'. simpl. unfold PI.complete.
  destruct (PI.awaiting request s); done.
Qed.

(** C1, as the spec states it, fails.  First trace: "a" is typed and its
  query dispatched, then "ab" is typed and dispatched; the answer to "ab"
  arrives, then the answer to "a", and the list on display is the one for
  "a" although the text is "ab".  Second trace: "a" is dispatched, the
  text is deleted (which empties the list), and the late answer fills the
  list again under an empty search box. *)
Lemma stale_completion_overwrites_results :
  let engine := sample_engine in
  let acme := [("id", Supabase.JStr "1"); ("name", Supabase.JStr "Acme")] in
  let abel := [("id", Supabase.JStr "2"); ("name", Supabase.JStr "Abel")] in
  let raced := PI.run [PI.Typed "a"; PI.Elapsed 300; PI.Typed "ab"; PI.Elapsed 300;
                       PI.Completed 1 (found [abel]);
                       PI.Completed 0 (found [acme; abel])] in
  let cleared := PI.run [PI.Typed "a"; PI.Elapsed 300; PI.Typed "";
                         PI.Completed 0 (found [acme; abel])] in
  (PI.sent raced = [Supabase.Select (PI.searchQuery "a");
                    Supabase.Select (PI.searchQuery "ab")]
   ∧ PI.customerSearch (PI.ui raced) = "ab"
   ∧ PI.filteredCustomers (PI.ui raced) = [acme; abel]
   ∧ PI.filteredCustomers (PI.ui raced) ≠ [abel])
  ∧ (PI.customerSearch (PI.ui cleared) = ""
     ∧ PI.filteredCustomers (PI.ui cleared) = [acme; abel]
     ∧ PI.filteredCustomers (PI.ui cleared) ≠ []).
Proof.
  vm_compute. split_and!; try reflexivity; discriminate.
Qed.

(** C1, amended.  What protects the list is the cancellation of the timer,
  not a check on completion.  A resolution still waiting in the quiet
  period when the text changes is cancelled: its timer is gone, and every
  request sent from then on, until the text changes again, is the one for
  the new text.  A resolution already dispatched is applied when it
  completes successfully, whatever was typed or dispatched in between: the
  candidate list becomes its rows. *)
Theorem dispatched_result_applied_pending_one_cancelled
  {engine : Js.Engine}
  (s : PI.Session) (request : nat) (rows : list Supabase.Row) (c : option Z)
  (events later : list PI.Event) (value : string)
  (Hflight : PI.awaiting request s = true)
  (Hchange : value ≠ PI.customerSearch (PI.ui (PI.run events)))
  (Hlater : forallb PI.passive later = true) :
  let success :=
    Supabase.Fulfilled {| Supabase.data := Some rows; Supabase.error := None;
                          Supabase.count := c |} in
  PI.filteredCustomers (PI.ui (PI.step s (PI.Completed request success))) = rows
  ∧ (let s0 := PI.run events in
     let s1 := PI.step s0 (PI.Typed value) in
     (∀ tm, tm ∈ PI.timers s0 → tm ∉ PI.timers s1)
     ∧ ∃ extra, PI.sent (fold_left PI.step later s1) = PI.sent s0 ++ extra
                ∧ ∀ r, r ∈ extra → r = Supabase.Select (PI.searchQuery value)).
Proof.
  intros success. split.
  - subst success. simpl. unfold PI.complete. rewrite Hflight. reflexivity.
  - intros s0 s1.
    destruct (input_change_facts events value Hchange) as (Hsent & _ & Hgone & Htimers).
    fold s0 in Hsent, Hgone, Htimers. fold s1 in Hsent, Hgone, Htimers.
    split; [exact Hgone |].
    destruct (passive_run_sends_armed later s1 Hlater) as (extra & Hx & Hfrom).
    exists extra. rewrite Hx, Hsent. split; [done |].
    intros r Hr. destruct (Hfrom r Hr) as (tm & Htm & ->).
    destruct (Js.truthy value).
    + rewrite Htimers in Htm. apply list_elem_of_singleton in Htm. by subst tm.
    + destruct Htimers as [Hnone _]. rewrite Hnone in Htm. by apply elem_of_nil in Htm.
Qed.

(** The query for "a" is in flight and "ab" has been typed since; in the
  other session the timer for "a" is still armed when "ab" is typed. *)
Lemma dispatched_result_applied_pending_one_cancelled_witness :
  let engine := sample_engine in
  let acme := [("id", Supabase.JStr "1"); ("name", Supabase.JStr "Acme")] in
  let s := PI.run [PI.Typed "a"; PI.Elapsed 300; PI.Typed "ab"] in
  PI.customerSearch (PI.ui s) = "ab"
  ∧ PI.filteredCustomers (PI.ui (PI.step s (PI.Completed 0 (found [acme])))) = [acme].
Proof.
  intros engine acme s. split; [reflexivity |].
  assert (Hchange : "ab" ≠ PI.customerSearch (PI.ui (PI.run [PI.Typed "a"])))
    by (vm_compute; discriminate).
  pose proof (dispatched_result_applied_pending_one_cancelled s 0 [acme] None
                [PI.Typed "a"] [PI.Elapsed 300] "ab" eq_refl Hchange eq_refl) as [H _].
  exact H.
Defined.

(** ** The date-range facet *)

Section DateRange.

Lemma list_ascii_of_string_app (a b : string) :
  list_ascii_of_string (a +:+ b) = list_ascii_of_string a ++ list_ascii_of_string b.
Proof. induction a as [| c a IH]; simpl; [done | by rewrite IH]. Qed.

Lemma parse_day_length (cs : list ascii) (day : Z) :
  Supabase.parse_day cs = Some day → length cs = 10%nat.
Proof.
  do 11 (destruct cs as [| ? cs]; [discriminate || reflexivity |]).
  discriminate.
Qed.

(** A day literal denotes its midnight, with or without an explicit
  midnight time of day. *)
Lemma instant_of_day (d : string) (day : Z) :
  Supabase.parse_day (list_ascii_of_string d) = Some day →
  Supabase.instant d = Some (day * 86400000)
  ∧ Supabase.instant (d +:+ "T00:00:00") = Some (day * 86400000)
  ∧ Supabase.instant (d +:+ "T00:00:00.000Z") = Some (day * 86400000).
Proof.
  intros Hd. pose proof (parse_day_length _ _ Hd) as Hlen.
  unfold Supabase.instant. rewrite !list_ascii_of_string_app.
  rewrite !take_app_length' by done.
  rewrite !drop_app_length' by done.
  rewrite firstn_all2 by (rewrite Hlen; done).
  rewrite skipn_all2 by (rewrite Hlen; done).
  rewrite Hd.
  replace (Supabase.parse_clock (list_ascii_of_string "T00:00:00")) with (Some 0)
    by (vm_compute; reflexivity).
  replace (Supabase.parse_clock (list_ascii_of_string "T00:00:00.000Z")) with (Some 0)
    by (vm_compute; reflexivity).
  cbn [Supabase.parse_clock]. rewrite Z.add_0_r. done.
Qed.

Lemma gte_alone (column bound : string) (low : Z) (r : Supabase.Row) :
  Supabase.instant bound = Some low →
  Supabase.satisfies [Supabase.Gte column bound] r = true
  ↔ ∃ v x, Supabase.get column r = Some v ∧ Supabase.instant v = Some x ∧ low ≤ x.
Proof.
  intros Hb. unfold Supabase.satisfies. simpl. rewrite andb_true_r.
  unfold Supabase.timestamp_le. rewrite Hb.
  destruct (Supabase.get column r) as [v |].
  - destruct (Supabase.instant v) as [x |] eqn:Ev.
    + rewrite Z.leb_le. split.
      * intros Hle. exists v, x. done.
      * intros (v' & x' & [= <-] & Hx & Hle). congruence.
    + split; [done |]. intros (v' & x' & [= <-] & Hx & _). congruence.
  - split; [done |]. intros (v' & x' & Hv & _). done.
Qed.

Lemma pir_bounds_start_only (d : string) (p0 : PIR.State) :
  d ≠ "" →
  List.filter is_bound
    (Supabase.filters (PIR.insertsQuery (PIR.setEndDate "" (PIR.setStartDate d p0))))
  = [Supabase.Gte "end_date" d].
Proof.
  intros Hd%truthy_spec. unfold PIR.insertsQuery. simpl. rewrite Hd.
  destruct (0 <? JsSet.size (PIR.selectedCustomerIds p0))%nat; reflexivity.
Qed.

Lemma cpar_bounds_start_only (d : string) (f0 : CPAR.Filters) :
  d ≠ "" →
  List.filter is_bound
    (Supabase.filters
       (CPAR.analysisIdsBase (CPAR.assign (CPAR.EndDate "") (CPAR.assign (CPAR.StartDate d) f0))))
  = [Supabase.Gte "analysis_date" (d +:+ "T00:00:00.000Z")].
Proof.
  intros Hd%truthy_spec. unfold CPAR.analysisIdsBase. simpl. rewrite Hd.
  destruct (Js.truthy (CPAR.customerId f0)); reflexivity.
Qed.

End DateRange.

(** C7.  With the start date set to a day [d] and no end date, the date
  range contributes exactly one constraint to each report query: a lower
  bound on [end_date] (insert report, bound [d]) or on [analysis_date]
  (competitor report, bound [d] at 00:00:00.000Z), and no upper bound.
  Both bounds denote the midnight that starts [d], so a row passes them
  exactly when its timestamp is at or after [d]T00:00:00.  The product
  facet adds no bound to the identifier query, and the detail query has
  none. *)
Theorem start_date_only_is_a_lower_bound
  (d : string) (day : Z) (p0 : PIR.State) (f0 : CPAR.Filters)
  (Hd : Supabase.parse_day (list_ascii_of_string d) = Some day) :
  let p := PIR.setEndDate "" (PIR.setStartDate d p0) in
  let f := CPAR.assign (CPAR.EndDate "") (CPAR.assign (CPAR.StartDate d) f0) in
  let midnight := day * 86400000 in
  Supabase.instant (d +:+ "T00:00:00") = Some midnight
  ∧ List.filter is_bound (Supabase.filters (PIR.insertsQuery p))
    = [Supabase.Gte "end_date" d]
  ∧ List.filter is_bound (Supabase.filters (CPAR.analysisIdsBase f))
    = [Supabase.Gte "analysis_date" (d +:+ "T00:00:00.000Z")]
  ∧ (∀ matching, List.filter is_bound (Supabase.filters (analysisIdsQuery f matching))
                 = [Supabase.Gte "analysis_date" (d +:+ "T00:00:00.000Z")])
  ∧ (∀ page idData, List.filter is_bound (Supabase.filters (CPAR.detailQuery page idData)) = [])
  ∧ (∀ r, Supabase.satisfies (List.filter is_bound (Supabase.filters (PIR.insertsQuery p))) r
          = true
          ↔ ∃ v x, Supabase.get "end_date" r = Some v ∧ Supabase.instant v = Some x ∧ midnight ≤ x)
  ∧ (∀ r, Supabase.satisfies (List.filter is_bound (Supabase.filters (CPAR.analysisIdsBase f))) r
          = true
          ↔ ∃ v x, Supabase.get "analysis_date" r = Some v ∧ Supabase.instant v = Some x
                   ∧ midnight ≤ x).
Proof.
  intros p f midnight. subst p f midnight.
  destruct (instant_of_day d day Hd) as (Hday & Hmid & Hz).
  assert (Hne : d ≠ "") by (intros ->; discriminate).
  pose proof (pir_bounds_start_only d p0 Hne) as Hp.
  pose proof (cpar_bounds_start_only d f0 Hne) as Hc.
  split_and!.
  - exact Hmid.
  - exact Hp.
  - exact Hc.
  - intros matching. unfold analysisIdsQuery, Supabase.is_in, Supabase.add_filter.
    cbn [Supabase.filters]. rewrite List.filter_app, Hc. reflexivity.
  - reflexivity.
  - intros r. rewrite Hp. by apply gte_alone.
  - intros r. rewrite Hc. by apply gte_alone.
Qed.

(** The scenario of the spec: the start date is 2024-01-01, day 19723 of
  the epoch, and the bound is 2024-01-01T00:00:00. *)
Lemma start_date_only_is_a_lower_bound_witness :
  let p := PIR.setEndDate "" (PIR.setStartDate "2024-01-01" PIR.initial) in
  let f := CPAR.assign (CPAR.EndDate "")
             (CPAR.assign (CPAR.StartDate "2024-01-01") CPAR.initialFilters) in
  Supabase.instant "2024-01-01T00:00:00" = Some 1704067200000
  ∧ List.filter is_bound (Supabase.filters (PIR.insertsQuery p))
    = [Supabase.Gte "end_date" "2024-01-01"]
  ∧ List.filter is_bound (Supabase.filters (CPAR.analysisIdsBase f))
    = [Supabase.Gte "analysis_date" "2024-01-01T00:00:00.000Z"].
Proof.
  intros p f.
  pose proof (start_date_only_is_a_lower_bound "2024-01-01" 19723 PIR.initial
                CPAR.initialFilters eq_refl) as (H1 & H2 & H3 & _).
  split_and!; [exact H1 | exact H2 | exact H3].
Defined.

(** ** The competitor report against stored tables *)

Section Stored.

Implicit Types (db : Supabase.Database) (r : Supabase.Row) (f : CPAR.Filters).

Lemma satisfies_app (fs gs : list Supabase.Filter) r :
  Supabase.satisfies (fs ++ gs) r = Supabase.satisfies fs r && Supabase.satisfies gs r.
Proof. unfold Supabase.satisfies. apply forallb_app. Qed.

(** No row is a member of the empty identifier list. *)
Lemma satisfies_in_nothing (fs : list Supabase.Filter) (column : string) r :
  Supabase.satisfies (fs ++ [Supabase.IsIn column []]) r = false.
Proof.
  rewrite satisfies_app. unfold Supabase.satisfies at 2. simpl.
  destruct (Supabase.get column r); simpl; apply andb_false_r.
Qed.

Lemma filter_nothing {A} (p : A → bool) (l : list A) :
  (∀ x, p x = false) → List.filter p l = [].
Proof.
  intros Hp. induction l as [| x l IH]; simpl; [done |]. by rewrite Hp.
Qed.

Lemma analysisIdsBase_shape f :
  let q := CPAR.analysisIdsBase f in
  Supabase.table q = "competitor_price_analysis"
  ∧ Supabase.columns q = "id"
  ∧ Supabase.exact_count q = true
  ∧ Supabase.ordering q = None
  ∧ Supabase.window q = None
  ∧ Supabase.cap q = None.
Proof.
  unfold CPAR.analysisIdsBase.
  destruct (Js.truthy (CPAR.startDate f)), (Js.truthy (CPAR.endDate f)),
    (Js.truthy (CPAR.customerId f)); done.
Qed.

(** The rows of the analysis table that pass a list of filters. *)
Lemma run_select_ids db (q : Supabase.Query) :
  Supabase.columns q = "id" → Supabase.exact_count q = true →
  Supabase.ordering q = None → Supabase.window q = None → Supabase.cap q = None →
  let hits := List.filter (Supabase.satisfies (Supabase.filters q)) (db (Supabase.table q)) in
  Supabase.run_select db q
  = {| Supabase.data := Some (map (Supabase.project "id") hits);
       Supabase.error := None;
       Supabase.count := Some (Z.of_nat (length hits)) |}.
Proof.
  intros Hc He Ho Hw Hcap hits. unfold Supabase.run_select.
  rewrite Hc, He, Ho, Hw, Hcap. reflexivity.
Qed.

Lemma run_select_no_ids db f :
  Supabase.run_select db (analysisIdsQuery f [])
  = {| Supabase.data := Some []; Supabase.error := None; Supabase.count := Some 0 |}.
Proof.
  destruct (analysisIdsBase_shape f) as (Ht & Hc & He & Ho & Hw & Hcap).
  rewrite run_select_ids by done.
  unfold analysisIdsQuery. cbn [Supabase.is_in Supabase.add_filter Supabase.filters].
  rewrite filter_nothing by (intros r; apply satisfies_in_nothing).
  reflexivity.
Qed.

Lemma analysisIdsQuery_shape f (matching : list (option string)) :
  let q := analysisIdsQuery f matching in
  Supabase.table q = "competitor_price_analysis"
  ∧ Supabase.columns q = "id"
  ∧ Supabase.exact_count q = true
  ∧ Supabase.ordering q = None
  ∧ Supabase.window q = None
  ∧ Supabase.cap q = None.
Proof. apply analysisIdsBase_shape. Qed.

Lemma resolvedIdsQuery_shape db f :
  let q := resolvedIdsQuery db f in
  Supabase.table q = "competitor_price_analysis"
  ∧ Supabase.columns q = "id"
  ∧ Supabase.exact_count q = true
  ∧ Supabase.ordering q = None
  ∧ Supabase.window q = None
  ∧ Supabase.cap q = None.
Proof.
  unfold resolvedIdsQuery.
  destruct (0 <? JsSet.size (CPAR.productIds f))%nat;
    [apply analysisIdsQuery_shape | apply analysisIdsBase_shape].
Qed.

Lemma run_select_resolved db f :
  Supabase.run_select db (resolvedIdsQuery db f)
  = {| Supabase.data := Some (map (Supabase.project "id") (matchingAnalyses db f));
       Supabase.error := None;
       Supabase.count := Some (Z.of_nat (length (matchingAnalyses db f))) |}.
Proof.
  destruct (resolvedIdsQuery_shape db f) as (Ht & Hc & He & Ho & Hw & Hcap).
  rewrite run_select_ids by done. unfold matchingAnalyses. by rewrite Ht.
Qed.

(** Selecting the [id] column keeps the identifier. *)
Lemma get_id_project r : Supabase.get "id" (Supabase.project "id" r) = Supabase.get "id" r.
Proof.
  unfold Supabase.project. cbn [String.prefix].
  change (Supabase.column_names "id") with ["id"].
  induction r as [| [c v] r IH]; [done |].
  cbn [List.filter fst Supabase.get].
  destruct (String.eqb_spec c "id") as [-> | Hne].
  - rewrite bool_decide_eq_true_2 by (apply list_elem_of_singleton; done).
    reflexivity.
  - rewrite bool_decide_eq_false_2 by (rewrite list_elem_of_singleton; done).
    exact IH.
Qed.

Lemma NoDup_map_injective {A B} (key : A → B) (l : list A) (x y : A) :
  NoDup (map key l) → x ∈ l → y ∈ l → key x = key y → x = y.
Proof.
  induction l as [| a l IH]; intros Hnd Hx Hy Hk; [by apply elem_of_nil in Hx |].
  cbn [map] in Hnd. apply NoDup_cons in Hnd as [Ha Hnd].
  apply elem_of_cons in Hx as [-> | Hx]; apply elem_of_cons in Hy as [-> | Hy].
  - done.
  - exfalso. apply Ha. rewrite Hk. apply list_elem_of_fmap. by exists y.
  - exfalso. apply Ha. rewrite <- Hk. apply list_elem_of_fmap. by exists x.
  - by apply IH.
Qed.

(** Over keyed rows, asking for the identifiers of the rows that pass a
  test gives back exactly those rows. *)
Lemma filter_by_identifier (p : Supabase.Row → bool) (l : list Supabase.Row) :
  Forall (λ r, is_Some (Supabase.get "id" r)) l →
  NoDup (map (Supabase.get "id") l) →
  List.filter
    (Supabase.satisfies [Supabase.IsIn "id" (map (Supabase.get "id") (List.filter p l))]) l
  = List.filter p l.
Proof.
  intros Hsome Hnd. apply List.filter_ext_in. intros r Hr%list_elem_of_In.
  rewrite Forall_forall in Hsome. destruct (Hsome r Hr) as [v Hv].
  unfold Supabase.satisfies. cbn [forallb Supabase.matches]. rewrite Hv, andb_true_r.
  destruct (p r) eqn:Hp.
  - apply bool_decide_eq_true_2. rewrite <- Hv. apply list_elem_of_fmap.
    exists r. split; [done |]. apply list_elem_of_In, filter_In.
    split; [by apply list_elem_of_In | done].
  - apply bool_decide_eq_false_2. rewrite <- Hv.
    intros (y & Hk & Hy)%list_elem_of_fmap.
    apply list_elem_of_In, filter_In in Hy as [Hy%list_elem_of_In Hpy].
    assert (r = y) by (by eapply NoDup_map_injective). congruence.
Qed.

Lemma length_insert_row (column : string) (ascending : bool) r (l : list Supabase.Row) :
  length (Supabase.insert_row column ascending r l) = S (length l).
Proof.
  induction l as [| y l IH]; [done |]. simpl.
  destruct (Supabase.before column ascending r y); simpl; [done | by rewrite IH].
Qed.

Lemma length_sort_rows (column : string) (ascending : bool) (l : list Supabase.Row) :
  length (Supabase.sort_rows column ascending l) = length l.
Proof.
  unfold Supabase.sort_rows. induction l as [| r l IH]; [done |].
  simpl. by rewrite length_insert_row, IH.
Qed.

Lemma length_slice (lo hi : Z) (l : list Supabase.Row) :
  length (Supabase.slice lo hi l)
  = (Z.to_nat (hi - lo + 1) `min` (length l - Z.to_nat lo))%nat.
Proof. unfold Supabase.slice. by rewrite length_take, length_drop. Qed.

(** The detail query over keyed rows: the requested slice of the matching
  analyses, most recent first. *)
Lemma run_select_detail db (page : Z) (hits : list Supabase.Row) :
  0 < page →
  Forall (λ r, is_Some (Supabase.get "id" r)) (db "competitor_price_analysis") →
  NoDup (map (Supabase.get "id") (db "competitor_price_analysis")) →
  ∀ p, hits = List.filter p (db "competitor_price_analysis") →
  Supabase.run_select db (CPAR.detailQuery page (map (Supabase.project "id") hits))
  = {| Supabase.data :=
         Some (Supabase.slice ((page - 1) * CPAR.ITEMS_PER_PAGE)
                 ((page - 1) * CPAR.ITEMS_PER_PAGE + CPAR.ITEMS_PER_PAGE - 1)
                 (Supabase.sort_rows "analysis_date" false hits));
       Supabase.error := None;
       Supabase.count := None |}.
Proof.
  intros Hpage Hsome Hnd p ->.
  unfold Supabase.run_select, CPAR.detailQuery.
  cbn [Supabase.range Supabase.order Supabase.is_in Supabase.add_filter Supabase.select
       Supabase.from Supabase.filters Supabase.table Supabase.ordering Supabase.window
       Supabase.cap Supabase.exact_count Supabase.columns app].
  rewrite map_map. rewrite (map_ext _ _ get_id_project).
  rewrite filter_by_identifier by done.
  replace ((page - 1) * CPAR.ITEMS_PER_PAGE <? 0) with false
    by (symmetry; apply Z.ltb_ge; unfold CPAR.ITEMS_PER_PAGE; lia).
  f_equal. f_equal. unfold Supabase.project. cbn [String.prefix].
  apply map_id.
Qed.

Lemma run_select_unwindowed db (q : Supabase.Query) :
  Supabase.window q = None → Supabase.error (Supabase.run_select db q) = None.
Proof. intros Hw. unfold Supabase.run_select. by rewrite Hw. Qed.

Lemma slice_nil (lo hi : Z) : Supabase.slice lo hi [] = [].
Proof. unfold Supabase.slice. by rewrite drop_nil, take_nil. Qed.

Lemma remote_of_up (b : Supabase.Backend) (q : Supabase.Query) :
  (∀ req, Supabase.fault b req = None) →
  Supabase.remote_of b (Supabase.Select q)
  = Supabase.Fulfilled (Supabase.run_select (Supabase.db b) q).
Proof. intros Hup. unfold Supabase.remote_of. by rewrite Hup. Qed.

(** Over keyed tables that answer every call, a load leaves exactly the
  requested slice of the matching analyses, most recent first, and their
  number. *)
Lemma fetchReports_stored (perm : option Types.AppPermission) (b : Supabase.Backend)
    (page : Z) f (w : Async.World CPAR.State) :
  Types.may_view perm = true →
  (∀ req, Supabase.fault b req = None) →
  keyed (Supabase.db b) →
  0 < page →
  let hits := matchingAnalyses (Supabase.db b) f in
  Async.view (fst (CPAR.fetchReports perm (Supabase.remote_of b) page f w))
  = CPAR.setLoading false
      (CPAR.setReports
         (Supabase.slice ((page - 1) * CPAR.ITEMS_PER_PAGE)
            ((page - 1) * CPAR.ITEMS_PER_PAGE + CPAR.ITEMS_PER_PAGE - 1)
            (Supabase.sort_rows "analysis_date" false hits))
         (CPAR.setTotalCount (Z.of_nat (length hits)) (Async.view w))).
Proof.
  intros Hview Hup [Hsome Hnd] Hpage hits.
  pose proof (run_select_resolved (Supabase.db b) f) as Hres. fold hits in Hres.
  pose proof (run_select_detail (Supabase.db b) page hits Hpage Hsome Hnd _ eq_refl) as Hdet.
  unfold CPAR.fetchReports. rewrite Hview. cbn [negb].
  unfold resolvedIdsQuery, analysisIdsQuery in Hres.
  run_async.
  destruct (0 <? JsSet.size (CPAR.productIds f))%nat.
  - rewrite remote_of_up by done. cbn beta iota zeta.
    rewrite run_select_unwindowed by reflexivity. cbn beta iota zeta.
    rewrite remote_of_up, Hres by done.
    cbn beta iota zeta. cbn [Supabase.error Supabase.data Supabase.count].
    destruct (map (Supabase.project "id") hits) as [| i0 ids] eqn:Eids.
    + apply map_eq_nil in Eids. rewrite Eids. cbn. rewrite slice_nil. reflexivity.
    + cbn beta iota. rewrite remote_of_up, Hdet by done. cbn. reflexivity.
  - rewrite remote_of_up, Hres by done.
    cbn beta iota zeta. cbn [Supabase.error Supabase.data Supabase.count].
    destruct (map (Supabase.project "id") hits) as [| i0 ids] eqn:Eids.
    + apply map_eq_nil in Eids. rewrite Eids. cbn. rewrite slice_nil. reflexivity.
    + cbn beta iota. rewrite remote_of_up, Hdet by done. cbn. reflexivity.
Qed.

End Stored.

(** A load that fails after the items lookup.  The report has loaded its
  first page (five of twelve analyses); the user then ticks product [p9],
  which no item references, so the lookup on the items table yields no
  parent identifier; the identifier query that follows times out.  As
  after any failed load, the page still shows the five analyses and the
  total is still 12. *)
Lemma failed_count_query_keeps_stale_page :
  let w1 := fst (CPAR.loadEffect sample_viewer (Supabase.remote_of sample_up)
                   (Async.world CPAR.initial)) in
  let w2 := fst (Async.set (CPAR.handleProductFilterChange "p9") w1) in
  let w3 := fst (CPAR.loadEffect sample_viewer (Supabase.remote_of sample_flaky) w2) in
  (CPAR.productIds (CPAR.filters (Async.view w2)) = ["p9"]
   ∧ Supabase.remote_of sample_flaky
       (Supabase.Select (CPAR.itemsQuery (CPAR.filters (Async.view w2))))
     = Supabase.Fulfilled
         {| Supabase.data := Some []; Supabase.error := None; Supabase.count := None |})
  ∧ (length (CPAR.reports (Async.view w3)) = 5%nat
     ∧ CPAR.totalCount (Async.view w3) = 12
     ∧ CPAR.loading (Async.view w3) = false
     ∧ CPAR.render sample_viewer (Async.view w3)
       = Some (Types.Cards (CPAR.reports (Async.view w3))
                 (Some {| Types.page_shown := 1; Types.pages_shown := 3;
                          Types.previous_disabled := true;
                          Types.next_disabled := false |}))).
Proof. vm_compute. repeat split. Qed.

(** C3.  With a product facet set, when the lookup on the items table
  answers without error and without rows, [fetchReports] sends exactly two
  calls, that lookup and the identifier query restricted to an empty
  identifier list, and never the paginated detail query; [loading] ends
  false.  With the identifier query answered, the page is empty,
  [totalCount] is 0 and the view shows its no-results message.  (When the
  identifier query fails the load is a failed load: page and total stay
  what they were; the detail query is not sent then either.) *)
Theorem no_matching_items_short_circuits
  (perm : option Types.AppPermission) (b : Supabase.Backend) (page : Z)
  (f : CPAR.Filters) (w : Async.World CPAR.State) (items : Supabase.Response)
  (Hview : Types.may_view perm = true)
  (Hfacet : CPAR.productIds f ≠ [])
  (Hitems : Supabase.remote_of b (Supabase.Select (CPAR.itemsQuery f))
            = Supabase.Fulfilled items)
  (Hnoerr : Supabase.error items = None)
  (Hnone : Types.rows_or_empty (Supabase.data items) = []) :
  let w' := fst (CPAR.fetchReports perm (Supabase.remote_of b) page f w) in
  Async.sent w' = Async.sent w ++ [Supabase.Select (CPAR.itemsQuery f);
                                   Supabase.Select (analysisIdsQuery f [])]
  ∧ CPAR.loading (Async.view w') = false
  ∧ match Supabase.fault b (Supabase.Select (analysisIdsQuery f [])) with
    | None =>
        CPAR.reports (Async.view w') = []
        ∧ CPAR.totalCount (Async.view w') = 0
        ∧ CPAR.render perm (Async.view w') = Some Types.NoResults
    | Some _ =>
        CPAR.reports (Async.view w') = CPAR.reports (Async.view w)
        ∧ CPAR.totalCount (Async.view w') = CPAR.totalCount (Async.view w)
    end.
Proof.
  intros w'. subst w'.
  assert (Hsize : (0 <? JsSet.size (CPAR.productIds f))%nat = true).
  { destruct (CPAR.productIds f); [done | reflexivity]. }
  unfold CPAR.fetchReports, CPAR.render. rewrite Hview, Hsize. cbn [negb].
  run_async. rewrite Hitems. cbn beta iota. rewrite Hnoerr, Hnone. cbn [map].
  fold (analysisIdsQuery f []).
  destruct (Supabase.fault b (Supabase.Select (analysisIdsQuery f []))) as [[e | e] |] eqn:Ef.
  - assert (Hq : Supabase.remote_of b (Supabase.Select (analysisIdsQuery f []))
                 = Supabase.Fulfilled (Supabase.failed e))
      by (unfold Supabase.remote_of; by rewrite Ef).
    rewrite !Hq. cbn. rewrite <- app_assoc. done.
  - assert (Hq : Supabase.remote_of b (Supabase.Select (analysisIdsQuery f []))
                 = Supabase.Rejected e)
      by (unfold Supabase.remote_of; by rewrite Ef).
    rewrite !Hq. cbn. rewrite <- app_assoc. done.
  - assert (Hq : Supabase.remote_of b (Supabase.Select (analysisIdsQuery f []))
                 = Supabase.Fulfilled
                     {| Supabase.data := Some []; Supabase.error := None;
                        Supabase.count := Some 0 |})
      by (unfold Supabase.remote_of; by rewrite Ef, run_select_no_ids).
    rewrite !Hq. cbn. rewrite <- app_assoc. done.
Qed.

(** The first page is on display (five of twelve analyses) when the user
  ticks product [p9], which no stored item references; the backend answers
  every call. *)
Lemma no_matching_items_short_circuits_witness :
  let w1 := fst (CPAR.loadEffect sample_viewer (Supabase.remote_of sample_up)
                   (Async.world CPAR.initial)) in
  let f := CPAR.assign (CPAR.ProductIds ["p9"]) CPAR.initialFilters in
  let w' := fst (CPAR.fetchReports sample_viewer (Supabase.remote_of sample_up) 1 f w1) in
  (length (CPAR.reports (Async.view w1)) = 5%nat ∧ CPAR.totalCount (Async.view w1) = 12)
  ∧ Async.sent w' = Async.sent w1 ++ [Supabase.Select (CPAR.itemsQuery f);
                                      Supabase.Select (analysisIdsQuery f [])]
  ∧ CPAR.loading (Async.view w') = false
  ∧ CPAR.reports (Async.view w') = []
  ∧ CPAR.totalCount (Async.view w') = 0
  ∧ CPAR.render sample_viewer (Async.view w') = Some Types.NoResults.
Proof.
  intros w1 f w'.
  pose proof (no_matching_items_short_circuits sample_viewer sample_up 1 f w1
                {| Supabase.data := Some []; Supabase.error := None; Supabase.count := None |}
                eq_refl ltac:(discriminate) eq_refl eq_refl eq_refl) as (H1 & H2 & H3).
  cbn zeta in H3. cbn [Supabase.fault sample_up] in H3.
  destruct H3 as (H3 & H4 & H5).
  split; [vm_compute; split; reflexivity |].
  split_and!; [exact H1 | exact H2 | exact H3 | exact H4 | exact H5].
Defined.

(** C4.  In both report views [totalPages] is the ceiling of [totalCount]
  over the page size (6 for inserts, 5 for competitor analyses).  A view
  that may be seen, is not loading and holds at least one row draws its
  rows and, exactly when there is more than one page, a pager with
  "previous" disabled exactly on page 1 and "next" exactly on the last
  page (with no row it draws its no-results message and no pager).  The
  page requested is the window of offsets [(page-1)*size] through
  [page*size - 1].
  Scenario: over keyed tables that answer every call and hold twelve
  matching analyses, loading page 3 of the competitor report leaves a total
  of 12, a page of exactly 2 records, 3 pages, "previous" enabled and
  "next" disabled. *)
Theorem pagination_bounds_and_last_page :
  (CPAR.ITEMS_PER_PAGE = 5 ∧ PIR.ITEMS_PER_PAGE = 6)
  ∧ (∀ s : PIR.State,
       (PIR.totalPages s - 1) * PIR.ITEMS_PER_PAGE
       < PIR.totalCount s ≤ PIR.totalPages s * PIR.ITEMS_PER_PAGE)
  ∧ (∀ s : CPAR.State,
       (CPAR.totalPages s - 1) * CPAR.ITEMS_PER_PAGE
       < CPAR.totalCount s ≤ CPAR.totalPages s * CPAR.ITEMS_PER_PAGE)
  ∧ (∀ perm (s : PIR.State),
       Types.may_view perm = true → PIR.loading s = false →
       (PIR.inserts s = [] → PIR.render perm s = Some Types.NoResults)
       ∧ (PIR.inserts s ≠ [] →
            ∃ pager, PIR.render perm s = Some (Types.Cards (PIR.inserts s) pager)
              ∧ (pager = None ↔ PIR.totalPages s ≤ 1)
              ∧ ∀ pg, pager = Some pg →
                  Types.page_shown pg = PIR.currentPage s
                  ∧ Types.pages_shown pg = PIR.totalPages s
                  ∧ (Types.previous_disabled pg = true ↔ PIR.currentPage s = 1)
                  ∧ (Types.next_disabled pg = true
                     ↔ PIR.currentPage s = PIR.totalPages s)))
  ∧ (∀ perm (s : CPAR.State),
       Types.may_view perm = true → CPAR.loading s = false →
       (CPAR.reports s = [] → CPAR.render perm s = Some Types.NoResults)
       ∧ (CPAR.reports s ≠ [] →
            ∃ pager, CPAR.render perm s = Some (Types.Cards (CPAR.reports s) pager)
              ∧ (pager = None ↔ CPAR.totalPages s ≤ 1)
              ∧ ∀ pg, pager = Some pg →
                  Types.page_shown pg = CPAR.currentPage s
                  ∧ Types.pages_shown pg = CPAR.totalPages s
                  ∧ (Types.previous_disabled pg = true ↔ CPAR.currentPage s = 1)
                  ∧ (Types.next_disabled pg = true
                     ↔ CPAR.currentPage s = CPAR.totalPages s)))
  ∧ (∀ s : PIR.State,
       Supabase.window (PIR.insertsQuery s)
       = Some ((PIR.currentPage s - 1) * PIR.ITEMS_PER_PAGE,
               PIR.currentPage s * PIR.ITEMS_PER_PAGE - 1))
  ∧ (∀ page idData,
       Supabase.window (CPAR.detailQuery page idData)
       = Some ((page - 1) * CPAR.ITEMS_PER_PAGE, page * CPAR.ITEMS_PER_PAGE - 1))
  ∧ (∀ perm (b : Supabase.Backend) (w : Async.World CPAR.State),
       Types.may_view perm = true →
       (∀ req, Supabase.fault b req = None) →
       keyed (Supabase.db b) →
       CPAR.currentPage (Async.view w) = 3 →
       length (matchingAnalyses (Supabase.db b) (CPAR.filters (Async.view w))) = 12%nat →
       let w' := fst (CPAR.loadEffect perm (Supabase.remote_of b) w) in
       CPAR.totalCount (Async.view w') = 12
       ∧ length (CPAR.reports (Async.view w')) = 2%nat
       ∧ CPAR.totalPages (Async.view w') = 3
       ∧ CPAR.render perm (Async.view w')
         = Some (Types.Cards (CPAR.reports (Async.view w'))
                   (Some {| Types.page_shown := 3; Types.pages_shown := 3;
                            Types.previous_disabled := false;
                            Types.next_disabled := true |}))).
Proof.
  split; [done |].
  split; [intros s; by apply ceil_div_bounds |].
  split; [intros s; by apply ceil_div_bounds |].
  split; [apply pir_pager |].
  split; [apply cpar_pager |].
  split; [apply pir_window |].
  split; [apply cpar_window |].
  - intros perm b w Hview Hup Hkeyed Hpage Htotal w'.
    assert (Hfinal : Async.view w'
              = CPAR.setLoading false
                  (CPAR.setReports
                     (Supabase.slice 10 14
                        (Supabase.sort_rows "analysis_date" false
                           (matchingAnalyses (Supabase.db b) (CPAR.filters (Async.view w)))))
                     (CPAR.setTotalCount 12 (Async.view w)))).
    { subst w'. unfold CPAR.loadEffect. rewrite bind_read, Hpage.
      rewrite fetchReports_stored by done. by rewrite Htotal. }
    assert (Hlen : length (CPAR.reports (Async.view w')) = 2%nat).
    { rewrite Hfinal. cbn [CPAR.reports CPAR.setLoading CPAR.setReports].
      rewrite length_slice, length_sort_rows, Htotal. reflexivity. }
    split_and!.
    + by rewrite Hfinal.
    + exact Hlen.
    + by rewrite Hfinal.
    + unfold CPAR.render. rewrite Hview, Hlen. rewrite Hfinal.
      cbn [CPAR.loading CPAR.setLoading CPAR.reports CPAR.setReports negb Nat.eqb].
      unfold CPAR.totalPages.
      cbn [CPAR.totalCount CPAR.setLoading CPAR.setReports CPAR.setTotalCount
           CPAR.currentPage].
      rewrite Hpage. reflexivity.
Qed.

(** Page 3 of the twelve stored analyses, no facet set; and page 2 of an
  insert report that holds one row of thirteen on display. *)
Lemma pagination_bounds_and_last_page_witness :
  let w := fst (Async.set (CPAR.setCurrentPage (λ _, 3)) (Async.world CPAR.initial)) in
  let w' := fst (CPAR.loadEffect sample_viewer (Supabase.remote_of sample_up) w) in
  let row := sample_insert "n1" "c1" "2024-01-01" "2024-01-31" "2023-12-20T08:00:00.000Z" in
  let s := PIR.setLoading false
             (PIR.setCurrentPage (λ _, 2)
                (PIR.setTotalCount 13 (PIR.setInserts [row] PIR.initial))) in
  (CPAR.totalCount (Async.view w') = 12
   ∧ length (CPAR.reports (Async.view w')) = 2%nat
   ∧ CPAR.totalPages (Async.view w') = 3
   ∧ CPAR.render sample_viewer (Async.view w')
     = Some (Types.Cards (CPAR.reports (Async.view w'))
               (Some {| Types.page_shown := 3; Types.pages_shown := 3;
                        Types.previous_disabled := false;
                        Types.next_disabled := true |})))
  ∧ ∃ pager, PIR.render sample_viewer s = Some (Types.Cards [row] pager)
      ∧ (pager = None ↔ PIR.totalPages s ≤ 1)
      ∧ ∀ pg, pager = Some pg →
          Types.page_shown pg = 2
          ∧ Types.pages_shown pg = 3
          ∧ (Types.previous_disabled pg = true ↔ PIR.currentPage s = 1)
          ∧ (Types.next_disabled pg = true ↔ PIR.currentPage s = PIR.totalPages s).
Proof.
  intros w w' row s.
  assert (Hkeyed : keyed (Supabase.db sample_up)).
  { split; apply (bool_decide_unpack _); vm_compute; reflexivity. }
  destruct pagination_bounds_and_last_page as (_ & _ & _ & Hpir & _ & _ & _ & H).
  split.
  - exact (H sample_viewer sample_up w eq_refl (λ _, eq_refl) Hkeyed eq_refl eq_refl).
  - destruct (Hpir sample_viewer s eq_refl eq_refl) as [_ Hrows].
    apply Hrows. discriminate.
Defined.

(** * Further properties of the views *)

(** ** The search session *)

Section SearchMore.

Import ProductInsert.

Context {engine : Js.Engine}.

Implicit Types (s : Session) (tm : Timer) (e : Event).

Lemma effect_cleanup_settled s : tidy s → settled s → settled (effect (cleanup s)).
Proof.
  intros Ht (_ & _ & Hsent). destruct (effect_cleanup s Ht) as (Hs & _ & Hrest).
  unfold settled. rewrite Hs.
  destruct (Js.truthy (customerSearch (ui s))) eqn:Etext.
  - destruct Hrest as (-> & _). apply truthy_spec in Etext.
    split_and!; [simpl; lia | by repeat constructor | done].
  - destruct Hrest as (-> & _). split_and!; [simpl; lia | constructor | done].
Qed.

Lemma step_settled s e : tidy s → settled s → settled (step s e).
Proof.
  intros Ht Hs. destruct e as [value | | customer | ms | request o]; simpl.
  - unfold rerender. destruct (String.eqb _ _); [done |].
    by apply effect_cleanup_settled.
  - done.
  - unfold rerender. destruct (String.eqb _ _); [done |].
    by apply effect_cleanup_settled.
  - destruct Hs as (Hlen & Htext & Hsent). unfold settled.
    rewrite advance_timers, advance_sent. split_and!.
    + etransitivity; [apply List.filter_length_le | done].
    + rewrite Forall_forall in Htext. rewrite Forall_forall.
      intros tm [Htm _]%list_elem_of_In%filter_In. by apply Htext, list_elem_of_In.
    + apply Forall_app. split; [done |].
      rewrite Forall_forall in Htext. rewrite Forall_forall.
      intros r (tm & -> & Htm)%list_elem_of_fmap.
      apply list_elem_of_In, filter_In in Htm as [Htm _].
      exists (search_text tm). split; [by apply Htext, list_elem_of_In | done].
  - unfold settled.
    destruct (complete_fields request o s) as (-> & -> & _). done.
Qed.

Lemma run_snoc (events : list Event) e : run (events ++ [e]) = step (run events) e.
Proof. unfold run. by rewrite fold_left_app. Qed.

Lemma run_app (events more : list Event) :
  run (events ++ more) = fold_left step more (run events).
Proof. unfold run. by rewrite fold_left_app. Qed.

Lemma run_settled (events : list Event) : settled (run events).
Proof.
  induction events as [| e events IH] using rev_ind.
  - unfold settled. vm_compute. split_and!; [lia | constructor | constructor].
  - rewrite run_snoc. apply step_settled; [apply run_tidy | done].
Qed.

End SearchMore.

(** X1.  Whatever the user does and whenever the responses arrive, the
  search keeps at most one timer armed, never arms one for an empty text,
  and everything it has sent is the customer query of a non-empty text. *)
Theorem search_never_queues_nor_sends_empty
  {engine : Js.Engine} (events : list PI.Event) :
  let s := PI.run events in
  (length (PI.timers s) ≤ 1)%nat
  ∧ (∀ tm, tm ∈ PI.timers s → PI.search_text tm ≠ "")
  ∧ (∀ r, r ∈ PI.sent s → ∃ text, text ≠ "" ∧ r = Supabase.Select (PI.searchQuery text)).
Proof.
  intros s. destruct (run_settled events) as (Hlen & Htext & Hsent).
  rewrite Forall_forall in Htext. rewrite Forall_forall in Hsent. done.
Qed.

Section Coalescing.

Import ProductInsert.

Context {engine : Js.Engine}.

Implicit Types (s : Session) (tm : Timer) (e : Event).

Lemma effect_search s : customerSearch (ui (effect s)) = customerSearch (ui s).
Proof.
  unfold effect. destruct (clearPending_fields s) as (Hu & _).
  destruct (Js.truthy (customerSearch (ui (clearPending s)))); simpl; by rewrite Hu.
Qed.

Lemma rerender_search (previous : string) s :
  customerSearch (ui (rerender previous s)) = customerSearch (ui s).
Proof.
  unfold rerender. destruct (String.eqb _ _); [done |].
  rewrite effect_search. unfold cleanup.
  by destruct (clearPending_fields s) as (-> & _).
Qed.

Lemma typed_search (value : string) s : customerSearch (ui (step s (Typed value))) = value.
Proof. simpl. rewrite rerender_search. apply onSearchChange_search. Qed.

Lemma keystroke_facts (events : list Event) (value : string) (pause : nat) :
  value ≠ customerSearch (ui (run events)) →
  (pause < QUIET_PERIOD)%nat →
  let s := run events in
  let s' := run (events ++ [Typed value; Elapsed pause]) in
  sent s' = sent s ∧ customerSearch (ui s') = value ∧ armed_for value s'.
Proof.
  intros Hchange Hpause s s'.
  destruct (input_change_facts events value Hchange) as (Hsent & Hclock & _ & Hnew).
  fold s in Hsent, Hclock, Hnew.
  assert (Hs' : s' = advance pause (step s (Typed value))).
  { subst s' s. rewrite run_app. reflexivity. }
  rewrite Hs'. unfold armed_for.
  rewrite advance_sent, advance_timers, advance_ui, typed_search.
  assert (Hck : clock (advance pause (step s (Typed value))) = (clock s + pause)%nat).
  { unfold advance.
    match goal with
    | |- context [fold_left _ ?r ?s0] =>
        destruct (fire_all_fields r s0) as (_ & _ & _ & -> & _)
    end. cbn [clock]. by rewrite Hclock. }
  rewrite Hck, Hclock, Hsent.
  destruct (Js.truthy value).
  - rewrite Hnew. unfold is_due. simpl.
    replace (clock s + QUIET_PERIOD <=? clock s + pause)%nat with false
      by (symmetry; apply Nat.leb_gt; lia).
    simpl. rewrite app_nil_r. split_and!; try done; lia.
  - destruct Hnew as [-> _]. simpl. by rewrite app_nil_r.
Qed.

Lemma final_text_cons (previous value : string) (pause : nat) (rest : list (string * nat)) :
  final_text previous ((value, pause) :: rest) = final_text value rest.
Proof.
  unfold final_text. cbn [map fst].
  change (previous :: value :: map fst rest) with ([previous] ++ value :: map fst rest).
  rewrite last_app_cons. simpl.
  destruct (last (value :: map fst rest)) eqn:E; [done |].
  by apply last_None in E.
Qed.

Lemma burst_facts (keys : list (string * nat)) :
  ∀ events : list Event,
    keys ≠ [] →
    hasty (customerSearch (ui (run events))) keys →
    let s := run events in
    let s' := run (events ++ burst keys) in
    let final := final_text (customerSearch (ui s)) keys in
    sent s' = sent s ∧ customerSearch (ui s') = final ∧ armed_for final s'.
Proof.
  induction keys as [| [value pause] rest IH]; intros events Hne Hh; [done |].
  destruct Hh as (Hchange & Hpause & Hrest).
  destruct (keystroke_facts events value pause Hchange Hpause) as (Hsent & Htext & Harmed).
  cbn zeta. rewrite final_text_cons.
  destruct rest as [| k rest].
  - unfold burst. simpl. done.
  - replace (events ++ burst ((value, pause) :: k :: rest))
      with ((events ++ [Typed value; Elapsed pause]) ++ burst (k :: rest))
      by (rewrite <- app_assoc; reflexivity).
    destruct (IH (events ++ [Typed value; Elapsed pause])) as (Hs & Ht & Ha);
      [done | by rewrite Htext |].
    rewrite Htext in Ht, Ha. rewrite Hs, Hsent. done.
Qed.

End Coalescing.

(** X2.  Debounce coalescing.  Starting from any session, a burst of
  keystrokes (each changing the text, each followed by a pause shorter than
  the quiet period) sends nothing; once a full quiet period has passed
  after it, exactly one request has been sent, the customer query (every
  column of [customers], at most 10 rows, name or customer code holding
  the lower-cased text) for the text the burst ended on, or none at all
  when that text is empty. *)
Theorem burst_sends_only_the_final_text
  {engine : Js.Engine}
  (events : list PI.Event) (keys : list (string * nat)) (ms : nat)
  (Hkeys : keys ≠ [])
  (Hhasty : hasty (PI.customerSearch (PI.ui (PI.run events))) keys)
  (Hquiet : (PI.QUIET_PERIOD ≤ ms)%nat) :
  let final := final_text (PI.customerSearch (PI.ui (PI.run events))) keys in
  let lowercased := Js.toLowerCase final in
  let resolution :=
    Supabase.Select
      {| Supabase.table := "customers";
         Supabase.columns := "*";
         Supabase.exact_count := false;
         Supabase.filters :=
           [Supabase.Or ("name.ilike.%" +:+ lowercased
                         +:+ "%,customer_code.ilike.%" +:+ lowercased +:+ "%")];
         Supabase.ordering := None;
         Supabase.window := None;
         Supabase.cap := Some 10%nat |} in
  PI.sent (PI.run (events ++ burst keys)) = PI.sent (PI.run events)
  ∧ PI.customerSearch (PI.ui (PI.run (events ++ burst keys))) = final
  ∧ PI.sent (PI.run (events ++ burst keys ++ [PI.Elapsed ms]))
    = PI.sent (PI.run events) ++ (if Js.truthy final then [resolution] else []).
Proof.
  intros final lowercased resolution.
  destruct (burst_facts keys events Hkeys Hhasty) as (Hsent & Hfinal & Harmed).
  fold final in Harmed, Hfinal. split_and!; [exact Hsent | exact Hfinal |].
  rewrite app_assoc, run_snoc. simpl. rewrite advance_sent, Hsent.
  unfold armed_for in Harmed.
  destruct (PI.timers (PI.run (events ++ burst keys))) as [| tm [| tm' l]]; [| | done].
  - rewrite Harmed. reflexivity.
  - destruct Harmed as (-> & Htext & Hdue). cbn [List.filter]. unfold PI.is_due.
    replace (PI.due tm <=? PI.clock (PI.run (events ++ burst keys)) + ms)%nat with true
      by (symmetry; apply Nat.leb_le; lia).
    cbn [map]. unfold request_of. by rewrite Htext.
Qed.

(** "a", "aC", "aCm" typed 100 ms apart right after the mount. *)
Lemma burst_sends_only_the_final_text_witness :
  let engine := sample_engine in
  PI.sent (PI.run ([] ++ burst [("a", 100%nat); ("aC", 100%nat); ("aCm", 100%nat)]))
  = []
  ∧ PI.sent (PI.run ([] ++ burst [("a", 100%nat); ("aC", 100%nat); ("aCm", 100%nat)]
                        ++ [PI.Elapsed 300]))
    = [Supabase.Select
         {| Supabase.table := "customers";
            Supabase.columns := "*";
            Supabase.exact_count := false;
            Supabase.filters :=
              [Supabase.Or "name.ilike.%acm%,customer_code.ilike.%acm%"];
            Supabase.ordering := None;
            Supabase.window := None;
            Supabase.cap := Some 10%nat |}].
Proof.
  intros engine.
  assert (Hh : hasty (PI.customerSearch (PI.ui (PI.run [])))
                 [("a", 100%nat); ("aC", 100%nat); ("aCm", 100%nat)]).
  { vm_compute. repeat split; (discriminate || lia). }
  pose proof (burst_sends_only_the_final_text []
                [("a", 100%nat); ("aC", 100%nat); ("aCm", 100%nat)] 300
                ltac:(discriminate) Hh ltac:(vm_compute; lia)) as (H1 & _ & H2).
  split; [exact H1 | exact H2].
Defined.

Section Picking.

Import ProductInsert.

Context {engine : Js.Engine}.

Implicit Types (s : Session) (e : Event).

Lemma effect_cleanup_ui s :
  ui (effect (cleanup s)) = ui s
  ∨ ui (effect (cleanup s)) = setFilteredCustomers [] (ui s).
Proof.
  unfold effect, cleanup.
  destruct (clearPending_fields s) as (Hu & _).
  destruct (clearPending_fields (clearPending s)) as (Hu' & _).
  destruct (Js.truthy _); simpl; rewrite Hu', Hu; auto.
Qed.

Lemma rerender_ui (previous : string) s :
  ui (rerender previous s) = ui s
  ∨ ui (rerender previous s) = setFilteredCustomers [] (ui s).
Proof.
  unfold rerender. destruct (String.eqb _ _); [by left | apply effect_cleanup_ui].
Qed.

Lemma background_step_open s e :
  background e = true →
  isCustomerDropdownOpen (ui (step s e)) = isCustomerDropdownOpen (ui s)
  ∧ customerId (ui (step s e)) = customerId (ui s)
  ∧ customerSearch (ui (step s e)) = customerSearch (ui s).
Proof.
  destruct e as [value | | customer | ms | request o]; try done; intros _; simpl.
  - by rewrite advance_ui.
  - unfold complete. destruct (awaiting request s); [| done].
    destruct o as [r | err]; simpl; [| done].
    destruct (Supabase.error r); done.
Qed.

Lemma background_run_open (later : list Event) s :
  forallb background later = true →
  isCustomerDropdownOpen (ui (fold_left step later s)) = isCustomerDropdownOpen (ui s)
  ∧ customerId (ui (fold_left step later s)) = customerId (ui s)
  ∧ customerSearch (ui (fold_left step later s)) = customerSearch (ui s).
Proof.
  revert s. induction later as [| e later IH]; intros s Hb; [done |].
  simpl in Hb. apply andb_prop in Hb as [He Hl]. simpl.
  destruct (IH (step s e) Hl) as (-> & -> & ->). by apply background_step_open.
Qed.

End Picking.

(** X3.  Choosing a candidate commits its identifier, puts its name in the
  search box and closes the list, without sending anything.  Because the
  text changed, the choice itself arms a new search, for the name (a name
  equal to the text already typed arms nothing).  Whatever then happens in
  the background, the timer firing, responses arriving, the list stays
  hidden and the committed identifier stays. *)
Theorem picking_commits_and_searches_the_name
  {engine : Js.Engine}
  (events later : list PI.Event) (customer : Supabase.Row) :
  let s := PI.run events in
  let s' := PI.step s (PI.Picked customer) in
  let name := default "" (Supabase.get "name" customer) in
  PI.customerId (PI.ui s') = default "" (Supabase.get "id" customer)
  ∧ PI.customerSearch (PI.ui s') = name
  ∧ PI.isCustomerDropdownOpen (PI.ui s') = false
  ∧ PI.sent s' = PI.sent s
  ∧ (if String.eqb name (PI.customerSearch (PI.ui s))
     then PI.timers s' = PI.timers s
     else if Js.truthy name
     then PI.timers s' = [{| PI.timer_id := PI.next_timer s;
                             PI.due := (PI.clock s + PI.QUIET_PERIOD)%nat;
                             PI.search_text := name |}]
     else PI.timers s' = [])
  ∧ (if forallb background later
     then PI.dropdownShown (PI.ui (fold_left PI.step later s')) = false
          ∧ PI.customerId (PI.ui (fold_left PI.step later s'))
            = default "" (Supabase.get "id" customer)
     else True).
Proof.
  intros s s' name.
  assert (Hui : PI.ui s' = PI.handleSelectCustomer customer (PI.ui s)
                ∨ PI.ui s' = PI.setFilteredCustomers []
                               (PI.handleSelectCustomer customer (PI.ui s))).
  { subst s'. simpl. apply rerender_ui. }
  assert (Hid : PI.customerId (PI.ui s') = default "" (Supabase.get "id" customer))
    by (destruct Hui as [-> | ->]; reflexivity).
  assert (Hopen : PI.isCustomerDropdownOpen (PI.ui s') = false)
    by (destruct Hui as [-> | ->]; reflexivity).
  split_and!.
  - exact Hid.
  - destruct Hui as [-> | ->]; reflexivity.
  - exact Hopen.
  - subst s'. simpl. unfold PI.rerender. destruct (String.eqb _ _); [done |].
    pose proof (with_ui_tidy (PI.handleSelectCustomer customer) s (run_tidy events)) as Ht.
    by destruct (effect_cleanup _ Ht) as (-> & _).
  - subst s'. simpl. unfold PI.rerender. cbn [PI.ui PI.with_ui].
    change (PI.customerSearch (PI.handleSelectCustomer customer (PI.ui s))) with name.
    destruct (String.eqb name (PI.customerSearch (PI.ui s))); [done |].
    pose proof (with_ui_tidy (PI.handleSelectCustomer customer) s (run_tidy events)) as Ht.
    destruct (effect_cleanup _ Ht) as (_ & _ & Hrest). cbn [PI.ui PI.with_ui] in Hrest.
    change (PI.customerSearch (PI.handleSelectCustomer customer (PI.ui s))) with name in Hrest.
    destruct (Js.truthy name); [apply Hrest | apply Hrest].
  - destruct (forallb background later) eqn:Hb; [| done].
    destruct (background_run_open later s' Hb) as (Ho & Hc & _).
    unfold PI.dropdownShown. rewrite Ho, Hc, Hopen. done.
Qed.

(** X4.  Editing the search text after a choice keeps the committed
  identifier as long as the text is not empty, so a save made then records
  the customer chosen earlier, whatever the box shows; emptying the text
  clears the identifier. *)
Theorem edited_text_keeps_committed_customer
  {engine : Js.Engine}
  (s : PI.Session) (value : string) (profile_id : option string)
  (photoUrls : list string) :
  let s' := PI.step s (PI.Typed value) in
  PI.customerSearch (PI.ui s') = value
  ∧ PI.customerId (PI.ui s') = (if Js.truthy value then PI.customerId (PI.ui s) else "")
  ∧ Supabase.get "customer_id" (PI.insertRow profile_id (PI.ui s') photoUrls)
    = Some (if Js.truthy value then PI.customerId (PI.ui s) else "").
Proof.
  intros s'.
  assert (Hid : PI.customerId (PI.ui s')
                = (if Js.truthy value then PI.customerId (PI.ui s) else "")).
  { subst s'. simpl.
    destruct (rerender_ui (PI.customerSearch (PI.ui s))
                (PI.with_ui (PI.onSearchChange value) s)) as [-> | ->];
      cbn [PI.ui PI.with_ui]; unfold PI.onSearchChange; destruct (Js.truthy value); done. }
  split_and!; [apply typed_search | exact Hid |].
  unfold PI.insertRow. cbn [Supabase.get String.eqb Ascii.eqb Bool.eqb]. by rewrite Hid.
Qed.

(** ** Saving the form *)

Section Saving.

Import Async.

Context {engine : Js.Engine} {network : Network}.

Variable t : string → string.
Variable profile_id : option string.
Variable uuidv4 : nat → string.
Variable getPublicUrl : string → string.

Abbreviation uploadsOf files := (PI.uploadRequests profile_id uuidv4 files).
Abbreviation settled_uploads remote files :=
  (all (map (settle remote (PI.afterUpload getPublicUrl)) (uploadsOf files))).

Lemma bind_unfold {S A B} (m : M S A) (k : A → M S B) (w : World S) :
  (m ≫= k) w = match m w with
               | (w', inr x) => k x w'
               | (w', inl e) => (w', inl e)
               end.
Proof. reflexivity. Qed.

Lemma failures_inr {A} (xs : list A) :
  failures (map (@inr Supabase.Error A) xs) = [] ∧ results (map (@inr Supabase.Error A) xs) = xs.
Proof. induction xs as [| x xs [IH1 IH2]]; simpl; [done | by rewrite IH1, IH2]. Qed.

Lemma all_inr {A} (xs : list A) : all (map inr xs) = inr xs.
Proof. unfold all. destruct (failures_inr xs) as [-> ->]. reflexivity. Qed.

Lemma elem_of_failures {A} (l : list (Supabase.Error + A)) (e : Supabase.Error) :
  e ∈ failures l ↔ inl e ∈ l.
Proof.
  induction l as [| [e0 | x] l IH]; simpl.
  - split; intros H; by apply elem_of_nil in H.
  - rewrite !elem_of_cons, IH. split; intros [H | H]; auto; left; congruence.
  - rewrite elem_of_cons, IH. split; [auto | intros [H | H]; [done | auto]].
Qed.

(** [Promise.all] rejects with one of the failures of its promises. *)
Lemma all_inl {A} (l : list (Supabase.Error + A)) (e : Supabase.Error) :
  all l = inl e → inl e ∈ l.
Proof.
  unfold all. destruct (failures l) as [| e0 es] eqn:E; [done |].
  intros [= <-]. apply elem_of_failures. rewrite E.
  destruct (first_failure (e0 :: es)) as [| m]; [left |].
  destruct (nth_in_or_default m es e0) as [Hin | ->]; [right; by apply list_elem_of_In | left].
Qed.

(** It rejects as soon as one of them fails. *)
Lemma all_fails {A} (l : list (Supabase.Error + A)) (e : Supabase.Error) :
  inl e ∈ l → ∃ e', all l = inl e'.
Proof.
  intros He%elem_of_failures. unfold all.
  destruct (failures l) as [| e0 es]; [by apply elem_of_nil in He | by eexists].
Qed.

Lemma all_inr_length {A} (l : list (Supabase.Error + A)) (xs : list A) :
  all l = inr xs → l = map inr xs.
Proof.
  unfold all. destruct (failures l) as [| e0 es] eqn:E; [| done].
  intros [= <-]. induction l as [| [e0 | x] l IH]; simpl in *; [done | done |].
  by rewrite <- IH.
Qed.

Lemma uploads_are_uploads (files : list Supabase.File) (r : Supabase.Request) :
  r ∈ uploadsOf files →
  ∃ i file, r = Supabase.Upload "insert_photos" (PI.filePath profile_id uuidv4 i) file
            ∧ files !! i = Some file.
Proof.
  unfold PI.uploadRequests. intros (i & file & -> & Hi)%elem_of_lookup_imap.
  by exists i, file.
Qed.

Lemma length_uploads (files : list Supabase.File) : length (uploadsOf files) = length files.
Proof. unfold PI.uploadRequests. apply length_imap. Qed.

(** When every call is answered, every upload yields its public address. *)
Lemma settled_uploads_obliging (remote : Supabase.Remote) (files : list Supabase.File) :
  obliging remote →
  settled_uploads remote files = inr (map (uploadedUrl getPublicUrl) (uploadsOf files)).
Proof.
  intros Hob. rewrite <- all_inr. f_equal. rewrite map_map.
  apply map_ext_in. intros r Hr%list_elem_of_In.
  destruct (uploads_are_uploads files r Hr) as (i & file & -> & _).
  unfold settle. destruct (Hob (Supabase.Upload "insert_photos"
                                  (PI.filePath profile_id uuidv4 i) file)) as (x & -> & Hx).
  unfold PI.afterUpload. by rewrite Hx.
Qed.

(** The uploads of [handleSave], run or skipped: all are sent, and the
  result is that of [Promise.all] over them. *)
Lemma uploads_step (remote : Supabase.Remote) (files : list Supabase.File)
    (w : World PI.State) :
  (if (0 <? length files)%nat
   then await_all remote (PI.afterUpload getPublicUrl) (uploadsOf files)
   else mret []) w
  = (sends (uploadsOf files) w, settled_uploads remote files).
Proof.
  destruct files as [| file files].
  - destruct w. unfold sends. simpl. by rewrite app_nil_r.
  - reflexivity.
Qed.

(** [handleSave] once past its guards, by the outcome of the uploads and
  of the insert. *)
Lemma handleSave_started (perm : option Types.AppPermission) (remote : Supabase.Remote)
    (w : World PI.State) :
  save_starts perm (view w) = true →
  let s := view w in
  let saving := fst (set (PI.setIsSaving true) (sends (uploadsOf (PI.photoFiles s)) w)) in
  let failure (e : Supabase.Error) (w0 : World PI.State) :=
    fst (set (PI.setIsSaving false)
           (fst (showNotification
                   (Js.replace "{error}" (Supabase.message e) (t "productInsert.saveError"))
                   "error" w0))) in
  fst (PI.handleSave t profile_id uuidv4 getPublicUrl perm remote w)
  = match settled_uploads remote (PI.photoFiles s) with
    | inl e => failure e saving
    | inr photoUrls =>
        let row := Supabase.Insert "product_inserts" (PI.insertRow profile_id s photoUrls) in
        match remote row with
        | Supabase.Rejected e => failure e (send row saving)
        | Supabase.Fulfilled x =>
            match Supabase.error x with
            | Some e => failure e (send row saving)
            | None =>
                {| view := cleared_form s;
                   sent := sent w ++ uploadsOf (PI.photoFiles s) ++ [row];
                   notifications :=
                     notifications w ++ [(t "productInsert.saveSuccess", "success")];
                   console := console w |}
            end
        end
    end.
Proof.
  intros Hstart s saving failure. subst s saving failure.
  unfold save_starts in Hstart.
  apply andb_prop in Hstart as [Hstart Hdates]. apply andb_prop in Hstart as [Hperm Hfields].
  apply negb_true_iff in Hdates, Hfields.
  unfold PI.handleSave. rewrite bind_read. rewrite Hperm, Hfields, Hdates.
  cbn [negb]. rewrite bind_set.
  unfold try_catch_finally. rewrite bind_unfold, uploads_step.
  destruct (settled_uploads remote (PI.photoFiles (view w))) as [e | photoUrls];
    [reflexivity |].
  cbn beta iota. rewrite bind_unfold. unfold await.
  destruct (remote _) as [x | e]; [| reflexivity].
  cbn beta iota. destruct (Supabase.error x) as [e |]; [reflexivity |].
  cbn. unfold send, sends. cbn. by rewrite <- app_assoc.
Qed.

Lemma append_inv_head (p a b : string) : p +:+ a = p +:+ b → a = b.
Proof. induction p as [| c p IH]; simpl; [done | intros [= H]; by apply IH]. Qed.

(** Two paths coincide only when [uuidv4] gave the same identifier. *)
Lemma filePath_inj (i j : nat) :
  PI.filePath profile_id uuidv4 i = PI.filePath profile_id uuidv4 j → uuidv4 i = uuidv4 j.
Proof.
  unfold PI.filePath. intros H.
  by do 3 apply append_inv_head in H.
Qed.

Lemma length_append (a b : string) :
  String.length (a +:+ b) = (String.length a + String.length b)%nat.
Proof. induction a as [| c a IH]; simpl; [done | by rewrite IH]. Qed.

Lemma substring_skip (pre y : string) (n m : nat) :
  String.substring (String.length pre + n) m (pre +:+ y) = String.substring n m y.
Proof. induction pre as [| c pre IH]; simpl; [done | exact IH]. Qed.

Lemma substring_all (y : string) (m : nat) :
  (String.length y ≤ m)%nat → String.substring 0 m y = y.
Proof.
  revert m. induction y as [| c y IH]; intros m Hm; simpl.
  - by destruct m.
  - destruct m as [| m]; [simpl in Hm; lia |]. simpl. rewrite IH; [done | simpl in Hm; lia].
Qed.

Lemma substring_prefix (pre y : string) :
  String.substring 0 (String.length pre) (pre +:+ y) = pre.
Proof.
  induction pre as [| c pre IH]; simpl; [by destruct y | by rewrite IH].
Qed.

(** A replacement text without a dollar sign stands for itself. *)
Lemma getSubstitution_plain (matched before after template : string) :
  "$"%char ∉ list_ascii_of_string template →
  Js.getSubstitution matched before after template = template.
Proof.
  induction template as [| c template IH]; simpl; [done |].
  intros [Hc Hrest]%not_elem_of_cons.
  destruct (Ascii.eqb_spec c "$") as [-> | _]; [done |].
  by rewrite IH.
Qed.

(** Where the pattern first occurs at the end of [before] and the
  replacement has no dollar sign, [replace] puts the replacement in its
  place. *)
Lemma replace_plain (pat rep before after : string) :
  Js.indexOf pat (before +:+ pat +:+ after) = Some (String.length before) →
  "$"%char ∉ list_ascii_of_string rep →
  Js.replace pat rep (before +:+ pat +:+ after) = before +:+ rep +:+ after.
Proof.
  intros Hat Hplain. unfold Js.replace. rewrite Hat.
  rewrite substring_prefix, getSubstitution_plain by done.
  rewrite substring_skip.
  replace (String.length pat) with (String.length pat + 0)%nat at 1 by lia.
  rewrite substring_skip, substring_all; [done |].
  rewrite !length_append. lia.
Qed.

Lemma date_gt_spec (a b : string) :
  Js.date_gt a b = true
  ↔ ∃ x y, Js.dateValue a = Some x ∧ Js.dateValue b = Some y ∧ y < x.
Proof.
  unfold Js.date_gt.
  destruct (Js.dateValue a) as [x |], (Js.dateValue b) as [y |].
  - rewrite Z.ltb_lt. split; [intros H; by exists x, y |].
    intros (x' & y' & [= <-] & [= <-] & H). exact H.
  - split; [done | intros (x' & y' & _ & [=] & _)].
  - split; [done | intros (x' & y' & [=] & _)].
  - split; [done | intros (x' & y' & [=] & _)].
Qed.

(** The guards of [handleSave], spelled out. *)
Lemma save_starts_spec (perm : option Types.AppPermission) (s : PI.State) :
  save_starts perm s = true
  ↔ Types.may_create perm = true
    ∧ PI.fieldsMissing s = false
    ∧ ¬ ∃ starts ends, Js.dateValue (PI.startDate s) = Some starts
                       ∧ Js.dateValue (PI.endDate s) = Some ends
                       ∧ ends < starts.
Proof.
  unfold save_starts. rewrite !andb_true_iff, !negb_true_iff.
  rewrite <- date_gt_spec.
  destruct (Js.date_gt (PI.startDate s) (PI.endDate s)); split.
  - intros [_ ?]. done.
  - intros (_ & _ & H). by destruct H.
  - intros [[? ?] _]. done.
  - intros (? & ? & _). done.
Qed.

End Saving.

(** X5.  A permitted save that fails validation sends nothing and changes
  nothing: with at least one of customer, product name, price, start date,
  end date missing, or with a start date later than the end date, the only
  effect is one error notification (the required-fields message first,
  else the date message).  The date guard compares the time values the
  engine reads off the two dates: it fires exactly when both are valid and
  the start is the later one, so equal dates pass, and so does a date the
  engine cannot read. *)
Theorem invalid_save_only_notifies
  {engine : Js.Engine} {network : Async.Network}
  (t : string → string) (profile_id : option string) (uuidv4 : nat → string)
  (getPublicUrl : string → string)
  (perm : option Types.AppPermission) (remote : Supabase.Remote)
  (w : Async.World PI.State)
  (Hcreate : Types.may_create perm = true)
  (Hinvalid : PI.fieldsMissing (Async.view w) = true
              ∨ ∃ starts ends,
                  Js.dateValue (PI.startDate (Async.view w)) = Some starts
                  ∧ Js.dateValue (PI.endDate (Async.view w)) = Some ends
                  ∧ ends < starts) :
  let s := Async.view w in
  let run := PI.handleSave t profile_id uuidv4 getPublicUrl perm remote w in
  Async.view (fst run) = s
  ∧ Async.sent (fst run) = Async.sent w
  ∧ Async.notifications (fst run)
    = Async.notifications w
      ++ [(t (if PI.fieldsMissing s then "productInsert.validation.fieldsRequired"
              else "productDisplay.validation.dateError"), "error")]
  ∧ (PI.fieldsMissing s = true
     ↔ PI.customerId s = "" ∨ PI.productName s = "" ∨ PI.insertPrice s = None
       ∨ PI.startDate s = "" ∨ PI.endDate s = "")
  ∧ (∀ a b, Js.date_gt a b = true
            ↔ ∃ x y, Js.dateValue a = Some x ∧ Js.dateValue b = Some y ∧ y < x)
  ∧ (∀ day, Js.date_gt day day = false)
  ∧ (∀ a b, Js.dateValue a = None ∨ Js.dateValue b = None → Js.date_gt a b = false).
Proof.
  intros s run. subst s run.
  assert (Hcase : PI.fieldsMissing (Async.view w) = true
                  ∨ (PI.fieldsMissing (Async.view w) = false
                     ∧ Js.date_gt (PI.startDate (Async.view w)) (PI.endDate (Async.view w))
                       = true)).
  { destruct (PI.fieldsMissing (Async.view w)) eqn:E; [by left | right].
    split; [done |]. destruct Hinvalid as [? | Hdates]; [done |].
    by apply date_gt_spec. }
  unfold PI.handleSave. rewrite bind_read. rewrite Hcreate. cbn [negb].
  split_and!.
  - destruct Hcase as [-> | [-> ->]]; reflexivity.
  - destruct Hcase as [-> | [-> ->]]; reflexivity.
  - destruct Hcase as [-> | [-> ->]]; reflexivity.
  - unfold PI.fieldsMissing.
    rewrite !orb_true_iff, !negb_true_iff.
    assert (Hfalsy : ∀ v, Js.truthy v = false ↔ v = "").
    { intros v. unfold Js.truthy. destruct (String.eqb_spec v ""); simpl; split; congruence. }
    rewrite !Hfalsy. destruct (PI.insertPrice (Async.view w)); split; intros H; try tauto.
    + destruct H as [[[[H | H] | H] | H] | H]; auto. discriminate.
    + destruct H as [H | [H | [H | [H | H]]]]; auto. discriminate.
  - apply date_gt_spec.
  - intros day. unfold Js.date_gt. destruct (Js.dateValue day); [apply Z.ltb_irrefl | done].
  - intros a b [Ha | Hb]; unfold Js.date_gt.
    + by rewrite Ha.
    + rewrite Hb. by destruct (Js.dateValue a).
Qed.

(** Everything filled in, but the insert would start in March and end in
  January. *)
Lemma invalid_save_only_notifies_witness :
  let engine := sample_engine in
  let network := sample_network in
  let form := PI.setEndDate "2024-01-31" (PI.setStartDate "2024-03-01"
                (PI.setInsertPrice (Some 1250) (PI.setProductName "Tea"
                   (PI.setCustomerId "c1" PI.initial)))) in
  let creator := Some {| Types.page_name := "Product Insert"; Types.can_view := true;
                         Types.can_create := true; Types.can_edit := false;
                         Types.can_delete := false; Types.can_navigate := true;
                         Types.can_export := false |} in
  let run := PI.handleSave id None (λ _, "u") id creator
               (λ _, Supabase.Fulfilled Supabase.no_content) (Async.world form) in
  Async.view (fst run) = form
  ∧ Async.sent (fst run) = []
  ∧ Async.notifications (fst run) = [("productDisplay.validation.dateError", "error")].
Proof.
  intros engine network form creator run.
  assert (Hdates : PI.fieldsMissing (Async.view (Async.world form)) = true
                   ∨ ∃ starts ends,
                       Js.dateValue (PI.startDate (Async.view (Async.world form))) = Some starts
                       ∧ Js.dateValue (PI.endDate (Async.view (Async.world form))) = Some ends
                       ∧ ends < starts).
  { right. exists 1709251200000, 1706659200000.
    split_and!; [reflexivity | reflexivity | lia]. }
  pose proof (invalid_save_only_notifies id None (λ _, "u") id creator
                (λ _, Supabase.Fulfilled Supabase.no_content) (Async.world form)
                eq_refl Hdates) as (H1 & H2 & H3 & _).
  split_and!; [exact H1 | exact H2 | exact H3].
Defined.

(** X6.  A save that passes the guards (permission, no field missing, the
  start date not read as later than the end date), on a backend that
  answers every call, sends one upload per photo to the [insert_photos]
  bucket, the i-th photo to the path made of the profile id and of the
  i-th identifier [uuidv4] hands out (so two photos share a path only if
  [uuidv4] gives the same identifier twice), then exactly one insert whose
  [photo_urls] are the public addresses of those paths in the same order;
  the user sees the success notification, the form fields are emptied and
  [isSaving] is down. *)
Theorem save_uploads_then_inserts_and_resets
  {engine : Js.Engine} {network : Async.Network}
  (t : string → string) (profile_id : option string) (uuidv4 : nat → string)
  (getPublicUrl : string → string)
  (perm : option Types.AppPermission) (remote : Supabase.Remote)
  (w : Async.World PI.State)
  (Hvalid : save_starts perm (Async.view w) = true)
  (Hobliging : obliging remote) :
  let s := Async.view w in
  let uploads := PI.uploadRequests profile_id uuidv4 (PI.photoFiles s) in
  let photoUrls := map (uploadedUrl getPublicUrl) uploads in
  let w' := fst (PI.handleSave t profile_id uuidv4 getPublicUrl perm remote w) in
  Async.sent w'
  = Async.sent w ++ uploads
    ++ [Supabase.Insert "product_inserts" (PI.insertRow profile_id s photoUrls)]
  ∧ length uploads = length (PI.photoFiles s)
  ∧ (∀ i file, PI.photoFiles s !! i = Some file →
       uploads !! i
       = Some (Supabase.Upload "insert_photos" (PI.filePath profile_id uuidv4 i) file))
  ∧ (∀ i, PI.filePath profile_id uuidv4 i
          = "public/" +:+ default "undefined" profile_id +:+ "/insert/" +:+ uuidv4 i)
  ∧ (∀ i j, PI.filePath profile_id uuidv4 i = PI.filePath profile_id uuidv4 j →
            uuidv4 i = uuidv4 j)
  ∧ Async.notifications w'
    = Async.notifications w ++ [(t "productInsert.saveSuccess", "success")]
  ∧ Async.view w' = cleared_form s
  ∧ (Types.may_create perm = true
     ∧ PI.fieldsMissing s = false
     ∧ ¬ ∃ starts ends, Js.dateValue (PI.startDate s) = Some starts
                        ∧ Js.dateValue (PI.endDate s) = Some ends
                        ∧ ends < starts).
Proof.
  intros s uploads photoUrls w'. subst w'.
  pose proof (proj1 (save_starts_spec perm s) Hvalid) as Hguards.
  rewrite (handleSave_started t profile_id uuidv4 getPublicUrl perm remote w Hvalid).
  cbn zeta. fold s. rewrite (settled_uploads_obliging _ _ getPublicUrl remote _ Hobliging).
  fold uploads. fold photoUrls.
  destruct (Hobliging (Supabase.Insert "product_inserts" (PI.insertRow profile_id s photoUrls)))
    as (x & -> & ->).
  split_and!; try reflexivity.
  - apply length_uploads.
  - intros i file Hi. subst uploads. unfold PI.uploadRequests.
    rewrite list_lookup_imap, Hi. reflexivity.
  - apply filePath_inj.
  - apply Hguards.
  - apply Hguards.
  - apply Hguards.
Qed.

(** Two photos, and a backend that stores whatever it is given. *)
Lemma save_uploads_then_inserts_and_resets_witness :
  let engine := sample_engine in
  let network := sample_network in
  let form := PI.setPhotoFiles ["front.jpg"; "shelf.jpg"]
                (PI.setEndDate "2024-03-31" (PI.setStartDate "2024-03-01"
                   (PI.setInsertPrice (Some 1250) (PI.setProductName "Tea"
                      (PI.setCustomerId "c1" PI.initial))))) in
  let creator := Some {| Types.page_name := "Product Insert"; Types.can_view := true;
                         Types.can_create := true; Types.can_edit := false;
                         Types.can_delete := false; Types.can_navigate := true;
                         Types.can_export := false |} in
  let remote := λ _ : Supabase.Request, Supabase.Fulfilled Supabase.no_content in
  let w' := fst (PI.handleSave id (Some "u7") (λ i, if (i =? 0)%nat then "k0" else "k1")
                   (λ path, "https://cdn/" +:+ path) creator remote (Async.world form)) in
  Async.sent w'
  = [Supabase.Upload "insert_photos" "public/u7/insert/k0" "front.jpg";
     Supabase.Upload "insert_photos" "public/u7/insert/k1" "shelf.jpg";
     Supabase.Insert "product_inserts"
       [ ("customer_id", Supabase.JStr "c1");
         ("product_name", Supabase.JStr "Tea");
         ("insert_price", Supabase.JNum 1250);
         ("start_date", Supabase.JStr "2024-03-01");
         ("end_date", Supabase.JStr "2024-03-31");
         ("photo_urls", Supabase.JArr ["https://cdn/public/u7/insert/k0";
                                       "https://cdn/public/u7/insert/k1"]);
         ("created_by", Supabase.JStr "u7") ]]
  ∧ Async.view w' = cleared_form form.
Proof.
  intros engine network form creator remote w'.
  assert (Hob : obliging remote) by (intros r; by exists Supabase.no_content).
  pose proof (save_uploads_then_inserts_and_resets id (Some "u7")
                (λ i, if (i =? 0)%nat then "k0" else "k1")
                (λ path, "https://cdn/" +:+ path) creator remote (Async.world form)
                eq_refl Hob) as (H1 & _ & _ & _ & _ & _ & H5 & _).
  split; [| exact H5].
  fold w' in H1. rewrite H1. reflexivity.
Defined.

(** X7.  A save that gets past validation and then fails, in an upload or
  in the insert, leaves the form exactly as the user filled it (only
  [isSaving] is lowered) and shows one error notification: the save-error
  text with its first [{error}] replaced by the failure's message (a
  message without a dollar sign is put in as it is; [replace] expands
  [$$], [$&], [$`] and [$'] in one that has some).  When uploads fail the
  insert is not sent, although every upload has been, and the failure
  reported is that of one of the failed uploads, the one that arrived
  first; a failed upload response is reported as "Image upload failed: "
  followed by its message. *)
Theorem failed_save_keeps_the_form
  {engine : Js.Engine} {network : Async.Network}
  (t : string → string) (profile_id : option string) (uuidv4 : nat → string)
  (getPublicUrl : string → string)
  (perm : option Types.AppPermission) (remote : Supabase.Remote)
  (w : Async.World PI.State)
  (Hvalid : save_starts perm (Async.view w) = true) :
  let s := Async.view w in
  let uploads := PI.uploadRequests profile_id uuidv4 (PI.photoFiles s) in
  let w' := fst (PI.handleSave t profile_id uuidv4 getPublicUrl perm remote w) in
  let reported (e : Supabase.Error) :=
    Async.view w' = PI.setIsSaving false s
    ∧ Async.notifications w'
      = Async.notifications w
        ++ [(Js.replace "{error}" (Supabase.message e) (t "productInsert.saveError"),
             "error")] in
  (match Async.all (map (Async.settle remote (PI.afterUpload getPublicUrl)) uploads) with
   | inl e =>
       reported e ∧ Async.sent w' = Async.sent w ++ uploads
       ∧ ∃ r, r ∈ uploads
              ∧ match remote r with
                | Supabase.Rejected e' => e = e'
                | Supabase.Fulfilled x =>
                    ∃ e', Supabase.error x = Some e'
                          ∧ Supabase.message e
                            = "Image upload failed: " +:+ Supabase.message e'
                end
   | inr photoUrls =>
       let row := Supabase.Insert "product_inserts" (PI.insertRow profile_id s photoUrls) in
       match remote row with
       | Supabase.Rejected e => reported e ∧ Async.sent w' = Async.sent w ++ uploads ++ [row]
       | Supabase.Fulfilled x =>
           match Supabase.error x with
           | Some e => reported e ∧ Async.sent w' = Async.sent w ++ uploads ++ [row]
           | None => Async.view w' = cleared_form s
           end
       end
   end)
  ∧ (∀ r e, r ∈ uploads → Async.settle remote (PI.afterUpload getPublicUrl) r = inl e →
       ∃ e', Async.all (map (Async.settle remote (PI.afterUpload getPublicUrl)) uploads)
             = inl e')
  ∧ (∀ before after message,
       Js.indexOf "{error}" (before +:+ "{error}" +:+ after) = Some (String.length before) →
       "$"%char ∉ list_ascii_of_string message →
       Js.replace "{error}" message (before +:+ "{error}" +:+ after)
       = before +:+ message +:+ after).
Proof.
  intros s uploads w' reported. subst w' reported.
  split; [| split; [| intros before after message; apply replace_plain]];
    [| intros r e Hr He; apply (all_fails _ e), list_elem_of_fmap; by exists r].
  rewrite (handleSave_started t profile_id uuidv4 getPublicUrl perm remote w Hvalid).
  cbn zeta. fold s. fold uploads.
  destruct (Async.all _) as [e | photoUrls] eqn:Eall.
  - split_and!; try reflexivity.
    apply all_inl in Eall. apply list_elem_of_fmap in Eall as (r & Hr & Hin).
    exists r. split; [exact Hin |].
    unfold Async.settle in Hr. destruct (remote r) as [x | e'].
    + unfold PI.afterUpload in Hr. destruct (Supabase.error x) as [e' |].
      * exists e'. split; [done |]. by injection Hr as ->.
      * by destruct r.
    + by injection Hr.
  - cbn zeta. destruct (remote _) as [x | e].
    + destruct (Supabase.error x) as [e |].
      * split_and!; try reflexivity. cbn. by rewrite <- app_assoc.
      * reflexivity.
    + split_and!; try reflexivity. cbn. by rewrite <- app_assoc.
Qed.

(** The second of two uploads is refused by the storage service. *)
Lemma failed_save_keeps_the_form_witness :
  let engine := sample_engine in
  let network := sample_network in
  let form := PI.setPhotoFiles ["front.jpg"; "shelf.jpg"]
                (PI.setEndDate "2024-03-31" (PI.setStartDate "2024-03-01"
                   (PI.setInsertPrice (Some 1250) (PI.setProductName "Tea"
                      (PI.setCustomerId "c1" PI.initial))))) in
  let creator := Some {| Types.page_name := "Product Insert"; Types.can_view := true;
                         Types.can_create := true; Types.can_edit := false;
                         Types.can_delete := false; Types.can_navigate := true;
                         Types.can_export := false |} in
  let remote := λ r : Supabase.Request,
    match r with
    | Supabase.Upload _ _ "shelf.jpg" =>
        Supabase.Fulfilled (Supabase.failed {| Supabase.message := "too large" |})
    | _ => Supabase.Fulfilled Supabase.no_content
    end in
  let w' := fst (PI.handleSave (λ _, "Could not save: {error}") (Some "u7") (λ _, "k")
                   id creator remote (Async.world form)) in
  Async.view w' = form
  ∧ Async.notifications w' = [("Could not save: Image upload failed: too large", "error")]
  ∧ length (Async.sent w') = 2%nat.
Proof.
  intros engine network form creator remote w'.
  pose proof (failed_save_keeps_the_form (λ _, "Could not save: {error}") (Some "u7")
                (λ _, "k") id creator remote (Async.world form) eq_refl) as H.
  cbn zeta in H. fold w' in H. destruct H as [H _].
  change (Async.all _) with
    (@inl Supabase.Error (list string)
       {| Supabase.message := "Image upload failed: too large" |}) in H.
  cbn beta iota in H. destruct H as ((Hview & Hnote) & Hsent & _).
  split_and!; [exact Hview | exact Hnote | by rewrite Hsent].
Defined.

(** ** The insert report against stored tables *)

Section StoredInserts.

Implicit Types (db : Supabase.Database) (r : Supabase.Row) (s : PIR.State).

Lemma bool_decide_some_fmap (v : string) (l : list string) :
  bool_decide (Some v ∈ map Some l) = bool_decide (v ∈ l).
Proof.
  apply bool_decide_ext. rewrite list_elem_of_fmap. split.
  - by intros (y & [= ->] & Hy).
  - intros Hv. by exists v.
Qed.

(** The filters of the composed query say what [insertPasses] says. *)
Lemma insertsQuery_passes s r :
  Supabase.satisfies (Supabase.filters (PIR.insertsQuery s)) r = insertPasses s r.
Proof.
  unfold PIR.insertsQuery, insertPasses, Supabase.satisfies.
  destruct (Js.truthy (PIR.startDate s)), (Js.truthy (PIR.endDate s)),
    (JsSet.size (PIR.selectedCustomerIds s)) eqn:Esize;
    cbn; rewrite ?andb_true_r; try reflexivity;
    destruct (Supabase.get "end_date" r), (Supabase.get "start_date" r),
      (Supabase.get "customer_id" r);
    cbn; rewrite ?andb_true_r, ?andb_false_r, ?bool_decide_some_fmap, ?andb_assoc;
    reflexivity.
Qed.

Lemma insertsQuery_shape s :
  let q := PIR.insertsQuery s in
  Supabase.table q = "product_inserts"
  ∧ Supabase.columns q = "*, customer:customers(name)"
  ∧ Supabase.exact_count q = true
  ∧ Supabase.ordering q = Some ("created_at", false)
  ∧ Supabase.window q = Some ((PIR.currentPage s - 1) * PIR.ITEMS_PER_PAGE,
                              (PIR.currentPage s - 1) * PIR.ITEMS_PER_PAGE
                              + PIR.ITEMS_PER_PAGE - 1)
  ∧ Supabase.cap q = None.
Proof.
  unfold PIR.insertsQuery.
  destruct (Js.truthy (PIR.startDate s)), (Js.truthy (PIR.endDate s)),
    (0 <? JsSet.size (PIR.selectedCustomerIds s))%nat; done.
Qed.

Lemma run_select_inserts db s :
  0 < PIR.currentPage s →
  Supabase.run_select db (PIR.insertsQuery s)
  = {| Supabase.data :=
         Some (Supabase.slice ((PIR.currentPage s - 1) * PIR.ITEMS_PER_PAGE)
                 ((PIR.currentPage s - 1) * PIR.ITEMS_PER_PAGE + PIR.ITEMS_PER_PAGE - 1)
                 (matchingInserts db s));
       Supabase.error := None;
       Supabase.count :=
         Some (Z.of_nat (length (List.filter (insertPasses s) (db "product_inserts")))) |}.
Proof.
  intros Hpage.
  destruct (insertsQuery_shape s) as (Ht & Hc & He & Ho & Hw & Hcap).
  unfold Supabase.run_select. rewrite Ht, Hc, He, Ho, Hw, Hcap.
  replace ((PIR.currentPage s - 1) * PIR.ITEMS_PER_PAGE <? 0) with false
    by (symmetry; apply Z.ltb_ge; unfold PIR.ITEMS_PER_PAGE; lia).
  rewrite (List.filter_ext _ _ (insertsQuery_passes s)).
  f_equal. f_equal. unfold Supabase.project. cbn [String.prefix]. apply map_id.
Qed.

Lemma fetchInserts_stored (perm : option Types.AppPermission) (b : Supabase.Backend)
    (w : Async.World PIR.State) :
  Types.may_view perm = true →
  (∀ req, Supabase.fault b req = None) →
  0 < PIR.currentPage (Async.view w) →
  let s := Async.view w in
  fst (PIR.fetchInserts perm (Supabase.remote_of b) w)
  = {| Async.view :=
         PIR.setLoading false
           (PIR.setTotalCount
              (Z.of_nat (length (List.filter (insertPasses s) (Supabase.db b "product_inserts"))))
              (PIR.setInserts
                 (Supabase.slice ((PIR.currentPage s - 1) * PIR.ITEMS_PER_PAGE)
                    ((PIR.currentPage s - 1) * PIR.ITEMS_PER_PAGE + PIR.ITEMS_PER_PAGE - 1)
                    (matchingInserts (Supabase.db b) s))
                 s));
       Async.sent := Async.sent w ++ [Supabase.Select (PIR.insertsQuery s)];
       Async.notifications := Async.notifications w;
       Async.console := Async.console w |}.
Proof.
  intros Hview Hup Hpage s.
  pose proof (run_select_inserts (Supabase.db b) s Hpage) as Hrun.
  unfold PIR.fetchInserts. rewrite Hview. cbn [negb].
  run_async. unfold Async.read. cbn beta iota zeta. cbn [Async.view].
  change (PIR.insertsQuery (PIR.setLoading true (Async.view w))) with (PIR.insertsQuery s).
  rewrite remote_of_up by done. rewrite Hrun. reflexivity.
Qed.

(** Cutting a list into consecutive pages and gluing them back. *)
Lemma pages_concat {A} (n k : nat) (l : list A) :
  concat (map (λ i, take n (drop (i * n) l)) (seq 0 k)) = take (k * n) l.
Proof.
  induction k as [| k IH]; [done |].
  rewrite seq_S, map_app, concat_app, IH. cbn [map concat Nat.add].
  rewrite app_nil_r, take_take_drop. f_equal. lia.
Qed.

Lemma slice_page (i : nat) (l : list Supabase.Row) :
  Supabase.slice ((Z.of_nat (S i) - 1) * PIR.ITEMS_PER_PAGE)
    ((Z.of_nat (S i) - 1) * PIR.ITEMS_PER_PAGE + PIR.ITEMS_PER_PAGE - 1) l
  = take 6 (drop (i * 6) l).
Proof.
  unfold Supabase.slice, PIR.ITEMS_PER_PAGE. f_equal; [f_equal; lia | f_equal; lia].
Qed.

End StoredInserts.

(** X8.  Loading the insert report over stored tables that answer takes
  one round trip; it leaves [totalCount] equal to the number of inserts
  that pass every facet that is set (start date: the insert ends on or
  after it; end date: the insert starts on or before it; customers: the
  insert's customer is one of them) and shows the requested window of them,
  most recently created first.  With no facet set every insert passes. *)
Theorem insert_report_counts_the_conjunction
  (perm : option Types.AppPermission) (b : Supabase.Backend)
  (w : Async.World PIR.State)
  (Hview : Types.may_view perm = true)
  (Hup : ∀ req, Supabase.fault b req = None)
  (Hpage : 0 < PIR.currentPage (Async.view w)) :
  let s := Async.view w in
  let w' := fst (PIR.fetchInserts perm (Supabase.remote_of b) w) in
  let passing := List.filter (insertPasses s) (Supabase.db b "product_inserts") in
  PIR.totalCount (Async.view w') = Z.of_nat (length passing)
  ∧ PIR.inserts (Async.view w')
    = Supabase.slice ((PIR.currentPage s - 1) * PIR.ITEMS_PER_PAGE)
        (PIR.currentPage s * PIR.ITEMS_PER_PAGE - 1)
        (Supabase.sort_rows "created_at" false passing)
  ∧ (length (PIR.inserts (Async.view w')) ≤ 6)%nat
  ∧ Async.sent w' = Async.sent w ++ [Supabase.Select (PIR.insertsQuery s)]
  ∧ PIR.facets (Async.view w') = PIR.facets s
  ∧ PIR.currentPage (Async.view w') = PIR.currentPage s
  ∧ (∀ r, insertPasses (PIR.handleResetFilters s) r = true).
Proof.
  intros s w' passing. subst w'.
  rewrite (fetchInserts_stored perm b w Hview Hup Hpage). fold s.
  cbn [Async.view Async.sent PIR.totalCount PIR.inserts PIR.setLoading PIR.setTotalCount
       PIR.setInserts PIR.facets PIR.currentPage PIR.startDate PIR.endDate
       PIR.selectedCustomerIds].
  split_and!; try reflexivity.
  - unfold matchingInserts. fold passing. f_equal. unfold PIR.ITEMS_PER_PAGE. lia.
  - rewrite length_slice. unfold PIR.ITEMS_PER_PAGE. lia.
Qed.

(** Inserts running in March 2024 for customers [c2] and [c3]: two pass. *)
Lemma insert_report_counts_the_conjunction_witness :
  let s := PIR.setSelectedCustomerIds ["c2"; "c3"]
             (PIR.setEndDate "2024-03-31" (PIR.setStartDate "2024-03-01" PIR.initial)) in
  let w' := fst (PIR.fetchInserts sample_viewer (Supabase.remote_of sample_inserts_up)
                   (Async.world s)) in
  PIR.totalCount (Async.view w') = 2
  ∧ map (Supabase.get "id") (PIR.inserts (Async.view w')) = [Some "n5"; Some "n4"].
Proof.
  intros s w'.
  pose proof (insert_report_counts_the_conjunction sample_viewer sample_inserts_up
                (Async.world s) eq_refl (λ _, eq_refl) eq_refl) as (H1 & H2 & _).
  fold w' in H1, H2. split; [rewrite H1 | rewrite H2]; vm_compute; reflexivity.
Defined.

Section Pages.

Implicit Types (s : PIR.State).

Lemma loadedPage_slice (perm : option Types.AppPermission) (b : Supabase.Backend) s (p : Z) :
  Types.may_view perm = true →
  (∀ req, Supabase.fault b req = None) →
  0 < p →
  loadedPage perm b s p
  = Supabase.slice ((p - 1) * PIR.ITEMS_PER_PAGE)
      ((p - 1) * PIR.ITEMS_PER_PAGE + PIR.ITEMS_PER_PAGE - 1)
      (matchingInserts (Supabase.db b) s).
Proof.
  intros Hview Hup Hp. unfold loadedPage.
  rewrite (fetchInserts_stored perm b _ Hview Hup) by exact Hp.
  reflexivity.
Qed.

End Pages.

(** X9.  The pages of the insert report partition the result: loading
  pages 1 to [totalPages] one after the other and putting them end to end
  gives every matching insert exactly once, in order; no page holds more
  than six, and a page past the last one is empty. *)
Theorem pages_partition_the_result
  (perm : option Types.AppPermission) (b : Supabase.Backend) (s : PIR.State)
  (Hview : Types.may_view perm = true)
  (Hup : ∀ req, Supabase.fault b req = None) :
  let result := matchingInserts (Supabase.db b) s in
  let pages := Z.to_nat (Types.ceil_div (Z.of_nat (length result)) PIR.ITEMS_PER_PAGE) in
  concat (map (λ i, loadedPage perm b s (Z.of_nat (S i))) (seq 0 pages)) = result
  ∧ (∀ p, 0 < p → (length (loadedPage perm b s p) ≤ 6)%nat)
  ∧ (∀ p, Z.of_nat pages < p → loadedPage perm b s p = []).
Proof.
  intros result pages.
  pose proof (ceil_div_bounds (Z.of_nat (length result)) PIR.ITEMS_PER_PAGE ltac:(done))
    as [Hlow Hhigh].
  assert (Hpages : Z.of_nat pages = Types.ceil_div (Z.of_nat (length result)) PIR.ITEMS_PER_PAGE).
  { subst pages. apply Z2Nat.id. unfold PIR.ITEMS_PER_PAGE in *. lia. }
  rewrite <- Hpages in Hlow, Hhigh. unfold PIR.ITEMS_PER_PAGE in Hlow, Hhigh.
  split_and!.
  - rewrite (map_ext_in _ (λ i, take 6 (drop (i * 6) result))).
    + rewrite pages_concat. apply take_ge. lia.
    + intros i _. rewrite loadedPage_slice by (done || lia). apply slice_page.
  - intros p Hp. rewrite loadedPage_slice by done.
    rewrite length_slice. unfold PIR.ITEMS_PER_PAGE. lia.
  - intros p Hp. rewrite loadedPage_slice by (done || lia).
    unfold Supabase.slice. rewrite drop_ge; [by rewrite take_nil |].
    fold result. unfold PIR.ITEMS_PER_PAGE. lia.
Qed.

(** The eight stored inserts, no facet set: two pages, of six and two. *)
Lemma pages_partition_the_result_witness :
  map (Supabase.get "id")
    (loadedPage sample_viewer sample_inserts_up PIR.initial 1
     ++ loadedPage sample_viewer sample_inserts_up PIR.initial 2)
  = [Some "n8"; Some "n7"; Some "n6"; Some "n5"; Some "n4"; Some "n3"; Some "n2"; Some "n1"].
Proof.
  pose proof (pages_partition_the_result sample_viewer sample_inserts_up PIR.initial
                eq_refl (λ _, eq_refl)) as [H _].
  change (Z.to_nat _) with 2%nat in H. cbn [seq map concat] in H.
  rewrite app_nil_r in H. change (Z.of_nat 1) with 1 in H. change (Z.of_nat 2) with 2 in H.
  rewrite H. vm_compute. reflexivity.
Defined.

(** ** The two stages of the competitor report *)

Section TwoStages.

Implicit Types (db : Supabase.Database) (r : Supabase.Row) (f : CPAR.Filters).

Lemma get_analysis_id_project r :
  Supabase.get "analysis_id" (Supabase.project "analysis_id" r)
  = Supabase.get "analysis_id" r.
Proof.
  unfold Supabase.project. cbn [String.prefix].
  change (Supabase.column_names "analysis_id") with ["analysis_id"].
  induction r as [| [c v] r IH]; [done |].
  cbn [List.filter fst Supabase.get].
  destruct (String.eqb_spec c "analysis_id") as [-> | Hne].
  - rewrite bool_decide_eq_true_2 by (apply list_elem_of_singleton; done).
    reflexivity.
  - rewrite bool_decide_eq_false_2 by (rewrite list_elem_of_singleton; done).
    exact IH.
Qed.

(** The parent identifiers the items lookup resolves to. *)
Lemma items_lookup db f :
  map (Supabase.get "analysis_id")
    (Types.rows_or_empty (Supabase.data (Supabase.run_select db (CPAR.itemsQuery f))))
  = map (Supabase.get "analysis_id")
      (List.filter
         (Supabase.satisfies
            [Supabase.IsIn "product_id" (map Some (JsSet.to_array (CPAR.productIds f)))])
         (db "competitor_price_analysis_items")).
Proof.
  unfold Supabase.run_select, CPAR.itemsQuery. cbn. rewrite map_map.
  apply map_ext. intros r. apply get_analysis_id_project.
Qed.

Lemma member_of_lookup db f (id : string) :
  bool_decide
    (Some id ∈ map (Supabase.get "analysis_id")
                 (List.filter
                    (Supabase.satisfies
                       [Supabase.IsIn "product_id"
                          (map Some (JsSet.to_array (CPAR.productIds f)))])
                    (db "competitor_price_analysis_items")))
  = involves db (CPAR.productIds f) id.
Proof.
  apply eq_true_iff_eq. rewrite bool_decide_eq_true. unfold involves.
  rewrite existsb_exists, list_elem_of_fmap. split.
  - intros (item & Hid & Hin).
    apply list_elem_of_In, filter_In in Hin as [Hin Hsat].
    exists item. split; [exact Hin |].
    unfold Supabase.satisfies in Hsat. cbn in Hsat. rewrite andb_true_r in Hsat.
    apply andb_true_intro. split.
    + destruct (Supabase.get "product_id" item); [| done].
      by rewrite bool_decide_some_fmap in Hsat.
    + by apply bool_decide_eq_true.
  - intros (item & Hin & [Hprod Hid%bool_decide_eq_true]%andb_prop).
    exists item. split; [done |].
    apply list_elem_of_In, filter_In. split; [exact Hin |].
    unfold Supabase.satisfies. cbn. rewrite andb_true_r.
    destruct (Supabase.get "product_id" item); [| done].
    by rewrite bool_decide_some_fmap.
Qed.

Lemma analysisIdsBase_passes f r :
  Supabase.satisfies (Supabase.filters (CPAR.analysisIdsBase f)) r
  = (negb (Js.truthy (CPAR.startDate f))
     || match Supabase.get "analysis_date" r with
        | Some taken => Supabase.timestamp_le (CPAR.startDate f +:+ "T00:00:00.000Z") taken
        | None => false
        end)
    && (negb (Js.truthy (CPAR.endDate f))
        || match Supabase.get "analysis_date" r with
           | Some taken => Supabase.timestamp_le taken (CPAR.endDate f +:+ "T23:59:59.999Z")
           | None => false
           end)
    && (negb (Js.truthy (CPAR.customerId f))
        || match Supabase.get "customer_id" r with
           | Some customer => String.eqb customer (CPAR.customerId f)
           | None => false
           end).
Proof.
  unfold CPAR.analysisIdsBase, Supabase.satisfies.
  destruct (Js.truthy (CPAR.startDate f)), (Js.truthy (CPAR.endDate f)),
    (Js.truthy (CPAR.customerId f));
    cbn; rewrite ?andb_true_r; try reflexivity;
    destruct (Supabase.get "analysis_date" r), (Supabase.get "customer_id" r);
    cbn; rewrite ?andb_true_r, ?andb_false_r, ?andb_assoc; reflexivity.
Qed.

(** The two-stage query selects what [analysisPasses] says. *)
Lemma resolved_passes db f r :
  Supabase.satisfies (Supabase.filters (resolvedIdsQuery db f)) r = analysisPasses db f r.
Proof.
  unfold resolvedIdsQuery, analysisPasses. rewrite <- analysisIdsBase_passes.
  destruct (JsSet.size (CPAR.productIds f)) eqn:Esize.
  - cbn. by rewrite andb_true_r.
  - cbn [Nat.ltb Nat.leb Nat.eqb orb].
    unfold analysisIdsQuery. cbn [Supabase.is_in Supabase.add_filter Supabase.filters].
    rewrite satisfies_app. f_equal.
    unfold Supabase.satisfies at 1. cbn [forallb Supabase.matches]. rewrite andb_true_r.
    destruct (Supabase.get "id" r) as [id |]; [| done].
    rewrite items_lookup. apply member_of_lookup.
Qed.

Lemma involves_spec db (productIds : JsSet.t) (analysis : string) :
  involves db productIds analysis = true
  ↔ ∃ item product,
      item ∈ db "competitor_price_analysis_items"
      ∧ product ∈ productIds
      ∧ Supabase.get "product_id" item = Some product
      ∧ Supabase.get "analysis_id" item = Some analysis.
Proof.
  unfold involves. rewrite existsb_exists. split.
  - intros (item & Hin & [Hprod Hid%bool_decide_eq_true]%andb_prop).
    destruct (Supabase.get "product_id" item) as [product |] eqn:Ep; [| done].
    apply bool_decide_eq_true in Hprod.
    exists item, product. by rewrite list_elem_of_In.
  - intros (item & product & Hin & Hp & Hprod & Hid).
    exists item. split; [by apply list_elem_of_In |].
    rewrite Hprod. apply andb_true_intro.
    split; by apply bool_decide_eq_true.
Qed.

End TwoStages.

(** X10.  The two-stage load of the competitor report is one conjunctive
  filter.  Over keyed tables that answer, it leaves [totalCount] equal to
  the number of analyses that pass every facet that is set, where the
  product facet holds for an analysis exactly when some stored item of that
  analysis references a selected product, and it shows the requested window
  of those analyses, most recent first.  An analysis with several such
  items is counted once. *)
Theorem two_stage_load_is_one_conjunction
  (perm : option Types.AppPermission) (b : Supabase.Backend) (page : Z)
  (f : CPAR.Filters) (w : Async.World CPAR.State)
  (Hview : Types.may_view perm = true)
  (Hup : ∀ req, Supabase.fault b req = None)
  (Hkeyed : keyed (Supabase.db b))
  (Hpage : 0 < page) :
  let w' := fst (CPAR.fetchReports perm (Supabase.remote_of b) page f w) in
  let passing := List.filter (analysisPasses (Supabase.db b) f)
                   (Supabase.db b "competitor_price_analysis") in
  CPAR.totalCount (Async.view w') = Z.of_nat (length passing)
  ∧ CPAR.reports (Async.view w')
    = Supabase.slice ((page - 1) * CPAR.ITEMS_PER_PAGE) (page * CPAR.ITEMS_PER_PAGE - 1)
        (Supabase.sort_rows "analysis_date" false passing)
  ∧ (length (CPAR.reports (Async.view w')) ≤ 5)%nat
  ∧ (∀ productIds analysis,
       involves (Supabase.db b) productIds analysis = true
       ↔ ∃ item product,
           item ∈ Supabase.db b "competitor_price_analysis_items"
           ∧ product ∈ productIds
           ∧ Supabase.get "product_id" item = Some product
           ∧ Supabase.get "analysis_id" item = Some analysis).
Proof.
  intros w' passing. subst w'.
  rewrite (fetchReports_stored perm b page f w Hview Hup Hkeyed Hpage).
  assert (Hsame : matchingAnalyses (Supabase.db b) f = passing).
  { unfold matchingAnalyses. apply List.filter_ext. apply resolved_passes. }
  rewrite Hsame.
  cbn [CPAR.totalCount CPAR.reports CPAR.setLoading CPAR.setReports CPAR.setTotalCount].
  split_and!.
  - reflexivity.
  - f_equal. unfold CPAR.ITEMS_PER_PAGE. lia.
  - rewrite length_slice. unfold CPAR.ITEMS_PER_PAGE. lia.
  - intros productIds analysis. apply involves_spec.
Qed.

(** Product [p1] on the sample tables: analyses [a03] and [a07] have an
  item that references it. *)
Lemma two_stage_load_is_one_conjunction_witness :
  let f := CPAR.assign (CPAR.ProductIds ["p1"]) CPAR.initialFilters in
  let w' := fst (CPAR.fetchReports sample_viewer (Supabase.remote_of sample_up) 1 f
                   (Async.world CPAR.initial)) in
  CPAR.totalCount (Async.view w') = 2
  ∧ map (Supabase.get "id") (CPAR.reports (Async.view w')) = [Some "a07"; Some "a03"].
Proof.
  intros f w'.
  assert (Hkeyed : keyed (Supabase.db sample_up)).
  { split; apply (bool_decide_unpack _); vm_compute; reflexivity. }
  pose proof (two_stage_load_is_one_conjunction sample_viewer sample_up 1 f
                (Async.world CPAR.initial) eq_refl (λ _, eq_refl) Hkeyed eq_refl)
    as (H1 & H2 & _).
  fold w' in H1, H2. split; [rewrite H1 | rewrite H2]; vm_compute; reflexivity.
Defined.

(** ** Loads that fail *)

(** X11.  A load of the insert report sends exactly one query.  When it is
  answered, the page and the total are what the response carries (no rows
  and zero when it carries none); when it fails, by an error in the
  response or by a rejection, the page and the total stay what they were
  and one notification "Failed to load reports: ..." carries the message. *)
Theorem failed_insert_load_keeps_the_page
  (perm : option Types.AppPermission) (remote : Supabase.Remote)
  (w : Async.World PIR.State)
  (Hview : Types.may_view perm = true) :
  let s := Async.view w in
  let w' := fst (PIR.fetchInserts perm remote w) in
  Async.sent w' = Async.sent w ++ [Supabase.Select (PIR.insertsQuery s)]
  ∧ match answer (remote (Supabase.Select (PIR.insertsQuery s))) with
    | inr x =>
        PIR.inserts (Async.view w') = Types.rows_or_empty (Supabase.data x)
        ∧ PIR.totalCount (Async.view w') = Types.count_or_zero (Supabase.count x)
        ∧ Async.notifications w' = Async.notifications w
    | inl e =>
        PIR.inserts (Async.view w') = PIR.inserts s
        ∧ PIR.totalCount (Async.view w') = PIR.totalCount s
        ∧ Async.notifications w'
          = Async.notifications w
            ++ [("Failed to load reports: " +:+ Supabase.message e, "error")]
    end.
Proof.
  intros s w'. subst w'. unfold PIR.fetchInserts. rewrite Hview. cbn [negb].
  run_async. unfold Async.read. cbn beta iota zeta. cbn [Async.view].
  change (PIR.insertsQuery (PIR.setLoading true (Async.view w))) with (PIR.insertsQuery s).
  unfold answer.
  destruct (remote (Supabase.Select (PIR.insertsQuery s))) as [x | e]; cbn beta iota.
  - destruct (Supabase.error x); cbn; done.
  - cbn. done.
Qed.

(** The network is down: the first load of the page. *)
Lemma failed_insert_load_keeps_the_page_witness :
  let down := λ _ : Supabase.Request, Supabase.Rejected {| Supabase.message := "offline" |} in
  let w' := fst (PIR.fetchInserts sample_viewer down (Async.world PIR.initial)) in
  Async.notifications w' = [("Failed to load reports: offline", "error")]
  ∧ PIR.loading (Async.view w') = false.
Proof.
  intros down w'.
  pose proof (failed_insert_load_keeps_the_page sample_viewer down
                (Async.world PIR.initial) eq_refl) as [_ H].
  cbn beta iota zeta in H. destruct H as (_ & _ & H). split; [exact H | reflexivity].
Defined.

(** X12.  Where a load of the competitor report fails decides what is
  left.  A failure of the items lookup stops the load there: the identifier
  query is not sent, page and total stay.  A failure of the identifier
  query leaves page and total as they were.  A failure of the detail query
  comes after the total was stored: the total is the new one while the page
  shown is still the old one.  Each failure shows one notification with its
  message.  An identifier query answered without rows empties the page
  without a third call. *)
Theorem failed_report_load_by_stage
  (perm : option Types.AppPermission) (remote : Supabase.Remote) (page : Z)
  (f : CPAR.Filters) (w : Async.World CPAR.State)
  (Hview : Types.may_view perm = true) :
  let s := Async.view w in
  let w' := fst (CPAR.fetchReports perm remote page f w) in
  let notified (e : Supabase.Error) :=
    Async.notifications w'
    = Async.notifications w ++ [("Failed to load reports: " +:+ Supabase.message e, "error")] in
  match stageOne remote f with
  | inl e =>
      Async.sent w' = Async.sent w ++ [Supabase.Select (CPAR.itemsQuery f)]
      ∧ CPAR.reports (Async.view w') = CPAR.reports s
      ∧ CPAR.totalCount (Async.view w') = CPAR.totalCount s
      ∧ notified e
  | inr q =>
      match answer (remote (Supabase.Select q)) with
      | inl e =>
          Async.sent w' = Async.sent w ++ stageOneCalls f ++ [Supabase.Select q]
          ∧ CPAR.reports (Async.view w') = CPAR.reports s
          ∧ CPAR.totalCount (Async.view w') = CPAR.totalCount s
          ∧ notified e
      | inr ids =>
          CPAR.totalCount (Async.view w') = Types.count_or_zero (Supabase.count ids)
          ∧ match Supabase.data ids with
            | None | Some [] =>
                Async.sent w' = Async.sent w ++ stageOneCalls f ++ [Supabase.Select q]
                ∧ CPAR.reports (Async.view w') = []
                ∧ Async.notifications w' = Async.notifications w
            | Some idData =>
                Async.sent w'
                = Async.sent w ++ stageOneCalls f
                  ++ [Supabase.Select q; Supabase.Select (CPAR.detailQuery page idData)]
                ∧ match answer (remote (Supabase.Select (CPAR.detailQuery page idData))) with
                  | inl e => CPAR.reports (Async.view w') = CPAR.reports s ∧ notified e
                  | inr r =>
                      CPAR.reports (Async.view w') = Types.rows_or_empty (Supabase.data r)
                      ∧ Async.notifications w' = Async.notifications w
                  end
            end
      end
  end.
Proof.
  intros s w' notified. subst s w' notified.
  unfold CPAR.fetchReports. rewrite Hview. cbn [negb].
  unfold stageOne, stageOneCalls, answer. run_async.
  destruct (0 <? JsSet.size (CPAR.productIds f))%nat.
  - destruct (remote (Supabase.Select (CPAR.itemsQuery f))) as [items | e]; cbn beta iota;
      [| by cbn].
    destruct (Supabase.error items) as [e |]; cbn beta iota; [by cbn |].
    fold (analysisIdsQuery f (map (Supabase.get "analysis_id")
                                (Types.rows_or_empty (Supabase.data items)))).
    destruct (remote (Supabase.Select (analysisIdsQuery _ _))) as [ids | e]; cbn beta iota;
      [| cbn; rewrite <- app_assoc; done].
    destruct (Supabase.error ids) as [e |]; cbn beta iota;
      [cbn; rewrite <- app_assoc; done |].
    destruct (Supabase.data ids) as [[| i0 idData] |]; cbn beta iota;
      [cbn; rewrite <- app_assoc; done | | cbn; rewrite <- app_assoc; done].
    destruct (remote (Supabase.Select (CPAR.detailQuery page (i0 :: idData)))) as [r | e];
      cbn beta iota; [| cbn; rewrite <- !app_assoc; done].
    destruct (Supabase.error r) as [e |]; cbn; rewrite <- !app_assoc; done.
  - destruct (remote (Supabase.Select (CPAR.analysisIdsBase f))) as [ids | e]; cbn beta iota;
      [| by cbn].
    destruct (Supabase.error ids) as [e |]; cbn beta iota; [by cbn |].
    destruct (Supabase.data ids) as [[| i0 idData] |]; cbn beta iota;
      [by cbn | | by cbn].
    destruct (remote (Supabase.Select (CPAR.detailQuery page (i0 :: idData)))) as [r | e];
      cbn beta iota; [| cbn; rewrite <- !app_assoc; done].
    destruct (Supabase.error r) as [e |]; cbn; rewrite <- !app_assoc; done.
Qed.

(** The first page is on display with its total of twelve; the user picks
  customer [c1] and the detail query of the reload times out. *)
Lemma failed_report_load_by_stage_witness :
  let shown := fst (CPAR.loadEffect sample_viewer (Supabase.remote_of sample_up)
                      (Async.world CPAR.initial)) in
  let flaky := λ r : Supabase.Request,
    match r with
    | Supabase.Select q =>
        match Supabase.window q with
        | Some _ => Supabase.Rejected {| Supabase.message := "timeout" |}
        | None => Supabase.Fulfilled
                    {| Supabase.data := Some [[("id", Supabase.JStr "a01")]];
                       Supabase.error := None; Supabase.count := Some 1 |}
        end
    | _ => Supabase.Fulfilled Supabase.no_content
    end in
  let f := CPAR.assign (CPAR.CustomerId "c9") CPAR.initialFilters in
  let w' := fst (CPAR.fetchReports sample_viewer flaky 1 f shown) in
  CPAR.totalCount (Async.view shown) = 12
  ∧ CPAR.totalCount (Async.view w') = 1
  ∧ CPAR.reports (Async.view w') = CPAR.reports (Async.view shown)
  ∧ length (CPAR.reports (Async.view w')) = 5%nat.
Proof.
  intros shown flaky f w'.
  pose proof (failed_report_load_by_stage sample_viewer flaky 1 f shown eq_refl) as H.
  cbn zeta in H. fold w' in H.
  change (stageOne flaky f) with (@inr Supabase.Error _ (CPAR.analysisIdsBase f)) in H.
  cbn beta iota in H.
  change (answer (flaky (Supabase.Select (CPAR.analysisIdsBase f))))
    with (@inr Supabase.Error _
            {| Supabase.data := Some [[("id", Supabase.JStr "a01")]];
               Supabase.error := None; Supabase.count := Some 1 |}) in H.
  cbn beta iota in H. destruct H as (Htotal & _ & Hrest).
  change (answer _) with (@inl _ Supabase.Response {| Supabase.message := "timeout" |}) in Hrest.
  cbn beta iota in Hrest. destruct Hrest as [Hreports _].
  split_and!; [reflexivity | exact Htotal | exact Hreports |].
  rewrite Hreports. vm_compute. reflexivity.
Defined.

(** ** The pager as the user meets it *)

(** X13.  The page handlers do not clamp (from page 1 "previous" would go
  to page 0), but the buttons do: on a page between 1 and [totalPages],
  whatever button the user clicks, drawn or not, enabled or not, the page
  stays between 1 and [totalPages], moves by at most one, and neither the
  facets nor the total change.  This holds in both report views. *)
Theorem pager_buttons_keep_the_page_in_range
  (perm : option Types.AppPermission) (p : PIR.State) (c : CPAR.State)
  (Hp : 1 ≤ PIR.currentPage p ≤ PIR.totalPages p)
  (Hc : 1 ≤ CPAR.currentPage c ≤ CPAR.totalPages c) :
  (∀ p', p' = PIR.clickPrevious perm p ∨ p' = PIR.clickNext perm p →
         1 ≤ PIR.currentPage p' ≤ PIR.totalPages p
         ∧ Z.abs (PIR.currentPage p' - PIR.currentPage p) ≤ 1
         ∧ PIR.facets p' = PIR.facets p
         ∧ PIR.totalCount p' = PIR.totalCount p)
  ∧ (∀ c', c' = CPAR.clickPrevious perm c ∨ c' = CPAR.clickNext perm c →
           1 ≤ CPAR.currentPage c' ≤ CPAR.totalPages c
           ∧ Z.abs (CPAR.currentPage c' - CPAR.currentPage c) ≤ 1
           ∧ CPAR.filters c' = CPAR.filters c
           ∧ CPAR.totalCount c' = CPAR.totalCount c)
  ∧ PIR.currentPage (PIR.dispatch PIR.PreviousPage (PIR.setCurrentPage (λ _, 1) p)) = 0
  ∧ CPAR.currentPage (CPAR.dispatch CPAR.PreviousPage (CPAR.setCurrentPage (λ _, 1) c)) = 0.
Proof.
  split_and!; [| | reflexivity | reflexivity].
  - intros p' [-> | ->].
    + unfold PIR.clickPrevious, PIR.render.
      destruct (negb (Types.may_view perm)); [split_and!; (done || lia) |].
      destruct (PIR.loading p); [split_and!; (done || lia) |].
      destruct (length (PIR.inserts p) =? 0)%nat; [split_and!; (done || lia) |].
      destruct (1 <? PIR.totalPages p); [| split_and!; (done || lia)].
      cbn [Types.previous_disabled].
      destruct (Z.eqb_spec (PIR.currentPage p) 1); [split_and!; (done || lia) |].
      cbn [PIR.currentPage PIR.setCurrentPage PIR.facets PIR.totalCount PIR.startDate
           PIR.endDate PIR.selectedCustomerIds].
      split_and!; (done || lia).
    + unfold PIR.clickNext, PIR.render.
      destruct (negb (Types.may_view perm)); [split_and!; (done || lia) |].
      destruct (PIR.loading p); [split_and!; (done || lia) |].
      destruct (length (PIR.inserts p) =? 0)%nat; [split_and!; (done || lia) |].
      destruct (1 <? PIR.totalPages p); [| split_and!; (done || lia)].
      cbn [Types.next_disabled].
      destruct (Z.eqb_spec (PIR.currentPage p) (PIR.totalPages p));
        [split_and!; (done || lia) |].
      cbn [PIR.currentPage PIR.setCurrentPage PIR.facets PIR.totalCount PIR.startDate
           PIR.endDate PIR.selectedCustomerIds].
      split_and!; (done || lia).
  - intros c' [-> | ->].
    + unfold CPAR.clickPrevious, CPAR.render.
      destruct (negb (Types.may_view perm)); [split_and!; (done || lia) |].
      destruct (CPAR.loading c); [split_and!; (done || lia) |].
      destruct (length (CPAR.reports c) =? 0)%nat; [split_and!; (done || lia) |].
      destruct (1 <? CPAR.totalPages c); [| split_and!; (done || lia)].
      cbn [Types.previous_disabled].
      destruct (Z.eqb_spec (CPAR.currentPage c) 1); [split_and!; (done || lia) |].
      cbn [CPAR.currentPage CPAR.setCurrentPage CPAR.filters CPAR.totalCount].
      split_and!; (done || lia).
    + unfold CPAR.clickNext, CPAR.render.
      destruct (negb (Types.may_view perm)); [split_and!; (done || lia) |].
      destruct (CPAR.loading c); [split_and!; (done || lia) |].
      destruct (length (CPAR.reports c) =? 0)%nat; [split_and!; (done || lia) |].
      destruct (1 <? CPAR.totalPages c); [| split_and!; (done || lia)].
      cbn [Types.next_disabled].
      destruct (Z.eqb_spec (CPAR.currentPage c) (CPAR.totalPages c));
        [split_and!; (done || lia) |].
      cbn [CPAR.currentPage CPAR.setCurrentPage CPAR.filters CPAR.totalCount].
      split_and!; (done || lia).
Qed.

(** Page 3 of 3 in the competitor report, page 1 of 2 in the insert
  report. *)
Lemma pager_buttons_keep_the_page_in_range_witness :
  let p := PIR.setLoading false (PIR.setInserts [[]] (PIR.setTotalCount 8 PIR.initial)) in
  let c := CPAR.setLoading false (CPAR.setReports [[]]
             (CPAR.setCurrentPage (λ _, 3) (CPAR.setTotalCount 12 CPAR.initial))) in
  PIR.currentPage (PIR.clickPrevious sample_viewer p) = 1
  ∧ PIR.currentPage (PIR.clickNext sample_viewer p) = 2
  ∧ CPAR.currentPage (CPAR.clickNext sample_viewer c) = 3
  ∧ CPAR.currentPage (CPAR.clickPrevious sample_viewer c) = 2
  ∧ 1 ≤ CPAR.currentPage (CPAR.clickNext sample_viewer c) ≤ CPAR.totalPages c.
Proof.
  intros p c.
  pose proof (pager_buttons_keep_the_page_in_range sample_viewer p c
                ltac:(vm_compute; split; discriminate)
                ltac:(vm_compute; split; discriminate)) as (_ & Hc & _).
  destruct (Hc (CPAR.clickNext sample_viewer c) (or_intror eq_refl)) as (Hrange & _).
  split_and!; try reflexivity; apply Hrange.
Defined.

(** ** The lists behind the filter bars *)

(** X14.  The two views load their dropdown lists differently.  The insert
  report sends one query and treats an error in the response as a failure:
  the customer list stays and "Failed to load customers: ..." is shown.
  The competitor report sends both queries at once and reads only the rows
  of each response: an error carried by a response is not reported and
  replaces the list by an empty one; only a rejected call is reported as
  "Failed to load filter data: ...", and then neither list changes. *)
Theorem dropdown_loaders_differ_on_error_responses
  {network : Async.Network}
  (remote : Supabase.Remote) (p : Async.World PIR.State) (c : Async.World CPAR.State) :
  let customerNames :=
    Supabase.Select (Supabase.order "name" true
                       (Supabase.select "id, name" false (Supabase.from "customers"))) in
  let p' := fst (PIR.fetchInitialData remote p) in
  let c' := fst (CPAR.fetchDropdownData remote c) in
  (Async.sent p' = Async.sent p ++ [customerNames]
   ∧ match answer (remote customerNames) with
     | inr x =>
         PIR.customers (Async.view p') = Types.rows_or_empty (Supabase.data x)
         ∧ Async.notifications p' = Async.notifications p
     | inl e =>
         Async.view p' = Async.view p
         ∧ Async.notifications p'
           = Async.notifications p
             ++ [("Failed to load customers: " +:+ Supabase.message e, "error")]
     end)
  ∧ (Async.sent c'
     = Async.sent c ++ [Supabase.Select CPAR.customersQuery; Supabase.Select CPAR.productsQuery]
     ∧ match remote (Supabase.Select CPAR.customersQuery),
             remote (Supabase.Select CPAR.productsQuery) with
       | Supabase.Fulfilled customersAnswer, Supabase.Fulfilled productsAnswer =>
           CPAR.customers (Async.view c')
           = Types.rows_or_empty (Supabase.data customersAnswer)
           ∧ CPAR.allProducts (Async.view c')
             = Types.rows_or_empty (Supabase.data productsAnswer)
           ∧ Async.notifications c' = Async.notifications c
       | Supabase.Rejected e, Supabase.Fulfilled _
       | Supabase.Fulfilled _, Supabase.Rejected e =>
           Async.view c' = Async.view c
           ∧ Async.notifications c'
             = Async.notifications c
               ++ [("Failed to load filter data: " +:+ Supabase.message e, "error")]
       | Supabase.Rejected e1, Supabase.Rejected e2 =>
           Async.view c' = Async.view c
           ∧ ∃ e, (e = e1 ∨ e = e2)
                  ∧ Async.notifications c'
                    = Async.notifications c
                      ++ [("Failed to load filter data: " +:+ Supabase.message e, "error")]
       end)
  ∧ (∀ e productsAnswer,
       remote (Supabase.Select CPAR.customersQuery) = Supabase.Fulfilled (Supabase.failed e) →
       remote (Supabase.Select CPAR.productsQuery) = Supabase.Fulfilled productsAnswer →
       CPAR.customers (Async.view c') = [] ∧ Async.notifications c' = Async.notifications c).
Proof.
  intros customerNames p' c'. subst customerNames p' c'.
  unfold PIR.fetchInitialData, CPAR.fetchDropdownData, answer.
  run_async. unfold Async.await_all, Async.settle, Async.all. cbn beta iota zeta.
  cbn [map].
  split_and!.
  - destruct (remote _) as [x | e]; [destruct (Supabase.error x) |]; reflexivity.
  - destruct (remote (Supabase.Select (Supabase.order "name" true
                (Supabase.select "id, name" false (Supabase.from "customers"))))) as [x | e].
    + destruct (Supabase.error x); cbn; [| done]. destruct p; done.
    + cbn. destruct p; done.
  - destruct (remote (Supabase.Select CPAR.customersQuery)),
      (remote (Supabase.Select CPAR.productsQuery)); cbn;
      repeat (match goal with |- context [Async.first_failure ?l] =>
                destruct (Async.first_failure l) as [| [| [| ?]]] end; cbn);
      reflexivity.
  - destruct (remote (Supabase.Select CPAR.customersQuery)) as [x1 | e1],
      (remote (Supabase.Select CPAR.productsQuery)) as [x2 | e2]; cbn.
    + done.
    + destruct (Async.first_failure [e2]) as [| [| ?]]; cbn; destruct c; done.
    + destruct (Async.first_failure [e1]) as [| [| ?]]; cbn; destruct c; done.
    + split; [destruct (Async.first_failure [e1; e2]) as [| [| [| ?]]]; cbn; destruct c; done |].
      destruct (Async.first_failure [e1; e2]) as [| [| [| ?]]]; cbn;
        [exists e1 | exists e2 | exists e1 | exists e1]; split; auto.
  - intros e productsAnswer -> ->. cbn. done.
Qed.

(** ** The product chips *)

Section Chips.

Implicit Types (s : CPAR.State) (id name : string).

Lemma elem_of_chips s id name :
  (id, name) ∈ CPAR.chips s
  ↔ id ∈ CPAR.productIds (CPAR.filters s)
    ∧ ∃ product, CPAR.findProduct id (CPAR.allProducts s) = Some product
                 ∧ name = default "" (Supabase.get "name" product).
Proof.
  unfold CPAR.chips. rewrite list_elem_of_omap. split.
  - intros (x & Hx & Hf).
    destruct (CPAR.findProduct x (CPAR.allProducts s)) as [product |] eqn:E; [| done].
    injection Hf as <- <-. split; [exact Hx |]. by exists product.
  - intros (Hid & product & Hp & ->). exists id. split; [exact Hid |]. by rewrite Hp.
Qed.

Lemma chip_ids s id :
  id ∈ (CPAR.chips s).*1
  ↔ id ∈ CPAR.productIds (CPAR.filters s)
    ∧ is_Some (CPAR.findProduct id (CPAR.allProducts s)).
Proof.
  rewrite list_elem_of_fmap. split.
  - intros ([id' name] & -> & Hin). apply elem_of_chips in Hin as (Hid & product & Hp & _).
    split; [exact Hid | by exists product].
  - intros (Hid & product & Hp).
    exists (id, default "" (Supabase.get "name" product)). split; [done |].
    apply elem_of_chips. split; [exact Hid | by exists product].
Qed.

End Chips.

(** X15.  A chip is shown for a selected product exactly when the product
  list holds a product with that identifier.  The remove button of a chip
  always takes its product out of the facet, leaves the other selections
  and goes back to page 1.  A selection that the product list does not
  resolve, such as the empty identifier of the placeholder option, has no
  chip and so no remove button, yet it is part of the items lookup. *)
Theorem chips_show_resolved_selections (s : CPAR.State) :
  (∀ id, id ∈ (CPAR.chips s).*1
         ↔ id ∈ CPAR.productIds (CPAR.filters s)
           ∧ is_Some (CPAR.findProduct id (CPAR.allProducts s)))
  ∧ (∀ id, id ∈ (CPAR.chips s).*1 →
           let s' := CPAR.clickChipRemove id s in
           (∀ x, x ∈ CPAR.productIds (CPAR.filters s')
                 ↔ x ∈ CPAR.productIds (CPAR.filters s) ∧ x ≠ id)
           ∧ CPAR.currentPage s' = 1)
  ∧ (∀ id, id ∉ (CPAR.chips s).*1 → CPAR.clickChipRemove id s = s)
  ∧ Supabase.filters (CPAR.itemsQuery (CPAR.filters s))
    = [Supabase.IsIn "product_id" (map Some (CPAR.productIds (CPAR.filters s)))]
  ∧ (CPAR.findProduct "" (CPAR.allProducts s) = None →
     "" ∉ CPAR.productIds (CPAR.filters s) →
     let s' := CPAR.handleProductFilterChange "" s in
     "" ∈ CPAR.productIds (CPAR.filters s')
     ∧ ("" ∉ (CPAR.chips s').*1)
     ∧ Some "" ∈ map Some (CPAR.productIds (CPAR.filters s'))).
Proof.
  split_and!.
  - intros id. apply chip_ids.
  - intros id Hchip s'. subst s'. unfold CPAR.clickChipRemove.
    rewrite bool_decide_eq_true_2 by done.
    apply chip_ids in Hchip as [Hid _].
    split; [| reflexivity].
    intros x. rewrite product_toggle_facet, elem_of_toggled. split.
    + intros [[Hne Hx] | [-> Hout]]; [done | by destruct Hout].
    + intros [Hx Hne]. by left.
  - intros id Hno. unfold CPAR.clickChipRemove. by rewrite bool_decide_eq_false_2.
  - reflexivity.
  - intros Hnone Hout s'. subst s'.
    assert (Hin : "" ∈ CPAR.productIds (CPAR.filters (CPAR.handleProductFilterChange "" s))).
    { rewrite product_toggle_facet, elem_of_toggled. by right. }
    split_and!.
    + exact Hin.
    + rewrite chip_ids. intros [_ [product Hp]].
      change (CPAR.allProducts (CPAR.handleProductFilterChange "" s))
        with (CPAR.allProducts s) in Hp. congruence.
    + apply list_elem_of_fmap. by exists "".
Qed.

(** ** The customer multi-select *)

Section MultiSelect.

Implicit Types (x id : string) (l : JsSet.t).

Lemma length_delete_member id l :
  NoDup l → id ∈ l → S (length (JsSet.delete id l)) = length l.
Proof.
  intros Hnd Hid. unfold JsSet.delete.
  induction Hnd as [| a l Ha Hnd IH]; [by apply elem_of_nil in Hid |].
  destruct (decide (a = id)) as [-> | Hne].
  - rewrite filter_cons_False by tauto.
    pose proof (delete_absent id l Ha) as Hsame. unfold JsSet.delete in Hsame.
    by rewrite Hsame.
  - rewrite filter_cons_True by done. simpl. f_equal. apply IH.
    apply elem_of_cons in Hid as [-> | Hid]; [done | exact Hid].
Qed.

Lemma length_toggled id l :
  NoDup l →
  if JsSet.has id l then S (length (toggled id l)) = length l
  else length (toggled id l) = S (length l).
Proof.
  intros Hnd. unfold toggled. destruct (JsSet.has id l) eqn:E.
  - apply has_true in E. by apply length_delete_member.
  - unfold JsSet.add. rewrite E, length_app. simpl. lia.
Qed.

Lemma has_toggled id x l :
  JsSet.has x (toggled id l) = if String.eqb x id then negb (JsSet.has x l) else JsSet.has x l.
Proof.
  apply eq_true_iff_eq. rewrite has_true, elem_of_toggled.
  destruct (String.eqb_spec x id) as [-> | Hne].
  - rewrite negb_true_iff, has_false. tauto.
  - rewrite has_true. tauto.
Qed.

Lemma selected_label_differs (count : string) :
  count +:+ " Selected" ≠ "All Customers".
Proof.
  intros H.
  do 13 (destruct count as [| ? count]; cbn in H; [discriminate H |];
         injection H as _ H).
  destruct count; discriminate H.
Qed.

End MultiSelect.

(** X16.  In the open customer multi-select, a click on an option flips
  the box of that option and of no other, keeps the list open, moves the
  number of selected customers by exactly one and puts the report back on
  page 1; the button reads "All Customers" exactly when nobody is selected.
  A mouse press outside the component closes the list, one inside does
  not, and while the list is closed no option can be clicked. *)
Theorem multi_select_flips_one_box
  (s : PIR.State) (id : string)
  (Hset : NoDup (PIR.selectedCustomerIds s)) :
  let before := PIR.selectedCustomerIds s in
  let '(s', isOpen') := PIR.dropdownStep (PIR.OptionClicked id) (s, true) in
  let after := PIR.selectedCustomerIds s' in
  isOpen' = true
  ∧ PIR.optionChecked after id = negb (PIR.optionChecked before id)
  ∧ (∀ other, other ≠ id → PIR.optionChecked after other = PIR.optionChecked before other)
  ∧ (if PIR.optionChecked before id
     then S (JsSet.size after) = JsSet.size before
     else JsSet.size after = S (JsSet.size before))
  ∧ NoDup after
  ∧ PIR.currentPage s' = 1
  ∧ (PIR.dropdownLabel after = "All Customers" ↔ after = [])
  ∧ (∀ isOpen, PIR.dropdownStep (PIR.MousePressed false) (s, isOpen) = (s, false)
               ∧ PIR.dropdownStep (PIR.MousePressed true) (s, isOpen) = (s, isOpen))
  ∧ PIR.dropdownStep (PIR.OptionClicked id) (s, false) = (s, false).
Proof.
  intros before. cbn [PIR.dropdownStep]. cbn zeta.
  rewrite customer_toggle_facet. fold before. unfold PIR.optionChecked.
  split_and!.
  - reflexivity.
  - rewrite has_toggled. by rewrite String.eqb_refl.
  - intros other Hne. rewrite has_toggled.
    by destruct (String.eqb_spec other id).
  - apply length_toggled. exact Hset.
  - by apply NoDup_toggled.
  - reflexivity.
  - unfold PIR.dropdownLabel, JsSet.size.
    destruct (toggled id before) as [| a l]; [done |].
    cbn [length Nat.eqb]. split; [| done].
    intros Habs. by apply selected_label_differs in Habs.
  - done.
  - reflexivity.
Qed.

(** Customer [c2] ticked while [c1] is selected. *)
Lemma multi_select_flips_one_box_witness :
  let s := PIR.setSelectedCustomerIds ["c1"] PIR.initial in
  PIR.selectedCustomerIds (fst (PIR.dropdownStep (PIR.OptionClicked "c2") (s, true)))
  = ["c1"; "c2"]
  ∧ PIR.dropdownLabel ["c1"; "c2"] = "2 Selected"
  ∧ NoDup (PIR.selectedCustomerIds
             (fst (PIR.dropdownStep (PIR.OptionClicked "c2") (s, true)))).
Proof.
  intros s.
  assert (Hset : NoDup (PIR.selectedCustomerIds s))
    by (apply (bool_decide_unpack _); vm_compute; reflexivity).
  pose proof (multi_select_flips_one_box s "c2" Hset) as H.
  cbn zeta in H. cbn [PIR.dropdownStep] in H. cbn beta iota zeta in H.
  destruct H as (_ & _ & _ & _ & Hnd & _).
  split_and!; [reflexivity | vm_compute; reflexivity | exact Hnd].
Defined.
